(** * Performance-telemetry core of the Game Center monitoring module

    A shallow embedding of [FrameTimeTracker], [PerformanceMonitor] and
    [LatencyTracker] (the Rust performance module of the repository), and the
    properties of their ring buffers, sampling gate, percentiles and scores.

    Conventions of the embedding.
    - An [f64] is an exact rational ([Q]): rounding error, infinities and NaN
      are outside the model.  [f64::MAX] and [f64::MIN] are the rationals
      they denote.  The index of the percentile methods, where the last
      place of a product selects the sample that is read, is also embedded
      with each operation rounded to binary64 (module [Binary64]).
    - [x as u8] is Rust's saturating conversion: truncation toward zero, then
      saturation to 0..255.  Arithmetic between two [u8] values is written
      with its wrap-around modulo 256 (what a release build computes); where
      it matters, a separate boolean says whether the operation leaves the
      range, which is where a debug build panics.  [u32] and [u64] counters
      wrap the same way.
    - [Instant] is a reading of the monotonic clock in nanoseconds, and
      [Duration] a number of nanoseconds; every call of [Instant::now()] in
      the source is an explicit argument of the embedded method.
    - A method taking [&mut self] returns its result paired with the new
      state; a method taking [&self] is a function of the state.
    - An operation that panics in Rust (indexing out of bounds) returns
      [None]. *)

From Stdlib Require Import ZArith QArith Qround Qminmax Qabs Qpower.
From Stdlib Require Import List Bool Lia Lqa.
From Stdlib Require String.
From Stdlib Require Import Sorting.Sorted Sorting.Permutation.
Import ListNotations.

Open Scope Q_scope.

(** ** Numbers *)

Definition f64 := Q.
Bind Scope Q_scope with f64.

(** [f64::MAX] is (2 - 2^-52) * 2^1023 = (2^53 - 1) * 2^971. *)
Definition f64_MAX : f64 := inject_Z ((2 ^ 53 - 1) * 2 ^ 971).
Definition f64_MIN : f64 := - f64_MAX.

Definition u8_MAX : Z := 255.
Definition u32_modulus : Z := 2 ^ 32.
Definition u64_modulus : Z := 2 ^ 64.
Definition usize_MAX : Z := 2 ^ 64 - 1.

(** The comparisons [<] and [>=] on [f64], as booleans. *)
Definition ltb (x y : f64) : bool := negb (Qle_bool y x).
Definition geb (x y : f64) : bool := Qle_bool y x.

(** Truncation toward zero, the rounding of every float-to-integer [as]. *)
Definition trunc (x : f64) : Z :=
  if Qle_bool 0 x then Qfloor x else Qceiling x.

Definition as_u8 (x : f64) : Z := Z.min u8_MAX (Z.max 0 (trunc x)).

Definition as_usize (x : f64) : nat :=
  Z.to_nat (Z.min usize_MAX (Z.max 0 (trunc x))).

(** [f64::round]: to the nearest integer, halves away from zero. *)
Definition round (x : f64) : f64 :=
  inject_Z (if Qle_bool 0 x then Qfloor (x + (1 # 2)) else Qceiling (x - (1 # 2))).

Definition u8_wrap (z : Z) : Z := (z mod 256)%Z.
Definition u32_wrap (z : Z) : Z := (z mod u32_modulus)%Z.
Definition u64_wrap (z : Z) : Z := (z mod u64_modulus)%Z.

(** [Ord::clamp] on integers and [f64::clamp]. *)
Definition clampZ (lo hi v : Z) : Z := Z.min hi (Z.max lo v).
Definition clampQ (lo hi v : f64) : f64 := Qmin hi (Qmax lo v).

Definition of_len {A} (l : list A) : f64 := inject_Z (Z.of_nat (length l)).

(** [iter().sum::<f64>()] *)
Definition sum (l : list f64) : f64 := fold_left Qplus l 0.

(** ** Clock *)

Definition Instant := Z.
Definition Duration := Z.
Bind Scope Z_scope with Instant Duration.

(** [Instant::duration_since] saturates to zero when the argument is later. *)
Definition duration_since (now earlier : Instant) : Duration :=
  Z.max 0 (now - earlier).

Definition from_millis (ms : Z) : Duration := (ms * 1000000)%Z.
Definition as_secs_f64 (d : Duration) : f64 := inject_Z d / 1000000000.
Definition as_millis (d : Duration) : Z := (d / 1000000)%Z.

(** ** Vectors *)

(** [Vec::push] and [Vec::remove(0)]; the source calls [remove(0)] only
    right after a [push], on a vector that is not empty. *)
Definition push {A} (v : list A) (x : A) : list A := v ++ [x].
Definition remove_first {A} (v : list A) : list A := tl v.

(** The pattern [v.push(x); if v.len() > cap { v.remove(0); }]. *)
Definition push_bounded {A} (cap : nat) (v : list A) (x : A) : list A :=
  let v' := push v x in
  if (cap <? length v')%nat then remove_first v' else v'.

(** The [n] most recent elements of a log. *)
Definition lastn {A} (n : nat) (l : list A) : list A :=
  skipn (length l - n) l.

(** [sort_by(|a, b| a.partial_cmp(b).unwrap())]: a stable ascending sort. *)
Fixpoint insert_sorted (x : f64) (l : list f64) : list f64 :=
  match l with
  | [] => [x]
  | y :: l' => if Qle_bool y x then y :: insert_sorted x l' else x :: y :: l'
  end.

Definition sort (l : list f64) : list f64 :=
  fold_left (fun acc x => insert_sorted x acc) l [].

(** [detect_frame_drops]: the indices of the samples above the threshold. *)
Fixpoint indices_above (threshold : f64) (i : nat) (l : list f64) : list nat :=
  match l with
  | [] => []
  | t :: l' =>
      if ltb threshold t then i :: indices_above threshold (S i) l'
      else indices_above threshold (S i) l'
  end.

(** ** Snapshot and profile records *)

Record PerformanceMetrics := mkMetrics {
  timestamp : Z;
  cpu_usage : f64;
  memory_usage : f64;
  gpu_usage : f64;
  frame_rate : f64;
  frame_time_ms : f64;
  render_time_ms : f64;
  update_time_ms : f64;
  input_latency_ms : f64;
  network_latency_ms : f64
}.

Definition PerformanceMetrics_default : PerformanceMetrics :=
  mkMetrics 0 0 0 0 0 0 0 0 0 0.

Record GamePerformanceProfile := mkProfile {
  game_id : String.string;
  average_fps : f64;
  fps_variance : f64;
  min_frame_time : f64;
  max_frame_time : f64;
  percentile_95_frame_time : f64;
  total_playtime_ms : Z;
  frame_drops : Z;
  performance_score : Z
}.

(** ** FrameTimeTracker *)

Module FrameTimeTracker.

Record t := mk {
  frame_times : list f64;
  max_samples : nat;
  last_frame_time : Instant;
  frame_count : Z;
  fps_update_interval : Duration;
  last_fps_update : Instant;
  current_fps : f64
}.

(** [new]: the two clock readings are the two calls of [Instant::now()]. *)
Definition new (max_samples : nat) (now1 now2 : Instant) : t :=
  {| frame_times := [];
     max_samples := max_samples;
     last_frame_time := now1;
     frame_count := 0;
     fps_update_interval := from_millis 500;
     last_fps_update := now2;
     current_fps := 0 |}.

Definition record_frame (self : t) (now : Instant) : f64 * t :=
  let elapsed := duration_since now (last_frame_time self) in
  let frame_time_ms := as_secs_f64 elapsed * 1000 in
  let frame_times' := push (frame_times self) frame_time_ms in
  let frame_times' :=
    if (max_samples self <? length frame_times')%nat
    then remove_first frame_times' else frame_times' in
  let frame_count' := u32_wrap (frame_count self + 1) in
  if (fps_update_interval self <=? duration_since now (last_fps_update self))%Z
  then
    let elapsed_secs := as_secs_f64 (duration_since now (last_fps_update self)) in
    (frame_time_ms,
     {| frame_times := frame_times';
        max_samples := max_samples self;
        last_frame_time := now;
        frame_count := 0;
        fps_update_interval := fps_update_interval self;
        last_fps_update := now;
        current_fps := inject_Z frame_count' / elapsed_secs |})
  else
    (frame_time_ms,
     {| frame_times := frame_times';
        max_samples := max_samples self;
        last_frame_time := now;
        frame_count := frame_count';
        fps_update_interval := fps_update_interval self;
        last_fps_update := last_fps_update self;
        current_fps := current_fps self |}).

Definition average_frame_time (self : t) : f64 :=
  match frame_times self with
  | [] => 0
  | _ => sum (frame_times self) / of_len (frame_times self)
  end.

Definition percentile_frame_time (self : t) (percentile : f64) : option f64 :=
  match frame_times self with
  | [] => Some 0
  | _ =>
      let sorted := sort (frame_times self) in
      let index :=
        as_usize (round ((percentile / 100)
                         * inject_Z (Z.of_nat (length sorted - 1)))) in
      nth_error sorted index
  end.

Definition frame_time_variance (self : t) : f64 :=
  if (length (frame_times self) <? 2)%nat then 0
  else
    let mean := average_frame_time self in
    let squared_diffs := sum (map (fun x => (x - mean) ^ 2) (frame_times self)) in
    squared_diffs / inject_Z (Z.of_nat (length (frame_times self) - 1)).

Definition detect_frame_drops (self : t) (threshold_ms : f64) : list nat :=
  indices_above threshold_ms 0 (frame_times self).

Definition reset (self : t) (now1 now2 : Instant) : t :=
  {| frame_times := [];
     max_samples := max_samples self;
     last_frame_time := now1;
     frame_count := 0;
     fps_update_interval := fps_update_interval self;
     last_fps_update := now2;
     current_fps := 0 |}.

End FrameTimeTracker.

(** ** PerformanceMonitor *)

(** The platform probes of the source.  They are stubs that always answer;
    [PerformanceMonitor.sample_with] takes the two answers as arguments so
    that a probe with no data can be expressed. *)
Definition sample_cpu_usage : option f64 := Some 45.
Definition sample_memory_usage : option f64 := Some 60.

Module PerformanceMonitor.

Record t := mk {
  metrics : PerformanceMetrics;
  frame_tracker : FrameTimeTracker.t;
  sampling_rate : Duration;
  last_sample : Instant;
  history : list PerformanceMetrics;
  max_history : nat
}.

Definition new (sampling_rate_ms : Z) (max_history_samples : nat)
    (now1 now2 now3 : Instant) : t :=
  {| metrics := PerformanceMetrics_default;
     frame_tracker := FrameTimeTracker.new 300 now1 now2;
     sampling_rate := from_millis sampling_rate_ms;
     last_sample := now3;
     history := [];
     max_history := max_history_samples |}.

Definition with_frame_tracker (self : t) (ft : FrameTimeTracker.t) : t :=
  {| metrics := metrics self;
     frame_tracker := ft;
     sampling_rate := sampling_rate self;
     last_sample := last_sample self;
     history := history self;
     max_history := max_history self |}.

Definition with_metrics (self : t) (m : PerformanceMetrics) : t :=
  {| metrics := m;
     frame_tracker := frame_tracker self;
     sampling_rate := sampling_rate self;
     last_sample := last_sample self;
     history := history self;
     max_history := max_history self |}.

Definition start_frame (self : t) (now : Instant) : t :=
  with_frame_tracker self (snd (FrameTimeTracker.record_frame (frame_tracker self) now)).

Definition end_frame (self : t) : t :=
  let frame_time := FrameTimeTracker.average_frame_time (frame_tracker self) in
  let m := metrics self in
  with_metrics self
    {| timestamp := timestamp m;
       cpu_usage := cpu_usage m;
       memory_usage := memory_usage m;
       gpu_usage := gpu_usage m;
       frame_rate := FrameTimeTracker.current_fps (frame_tracker self);
       frame_time_ms := frame_time;
       render_time_ms := render_time_ms m;
       update_time_ms := update_time_ms m;
       input_latency_ms := input_latency_ms m;
       network_latency_ms := network_latency_ms m |}.

(** [sample], with the answers of the two probes as arguments.  [now1] is
    the clock reading of the gate, [millis] the value of [now_millis()], and
    [now2] the reading stored in [last_sample]. *)
Definition sample_with (cpu mem : option f64) (self : t)
    (now1 : Instant) (millis : Z) (now2 : Instant)
  : option PerformanceMetrics * t :=
  if (duration_since now1 (last_sample self) <? sampling_rate self)%Z
  then (None, self)
  else
    let m := metrics self in
    let snapshot :=
      {| timestamp := millis;
         cpu_usage := match cpu with Some c => c | None => cpu_usage m end;
         memory_usage := match mem with Some x => x | None => memory_usage m end;
         gpu_usage := gpu_usage m;
         frame_rate := FrameTimeTracker.current_fps (frame_tracker self);
         frame_time_ms := FrameTimeTracker.average_frame_time (frame_tracker self);
         render_time_ms := render_time_ms m;
         update_time_ms := update_time_ms m;
         input_latency_ms := input_latency_ms m;
         network_latency_ms := network_latency_ms m |} in
    let history' := push (history self) snapshot in
    let history' :=
      if (max_history self <? length history')%nat
      then remove_first history' else history' in
    (Some snapshot,
     {| metrics := snapshot;
        frame_tracker := frame_tracker self;
        sampling_rate := sampling_rate self;
        last_sample := now2;
        history := history';
        max_history := max_history self |}).

Definition sample : t -> Instant -> Z -> Instant -> option PerformanceMetrics * t :=
  sample_with sample_cpu_usage sample_memory_usage.

Definition get_metrics (self : t) : PerformanceMetrics := metrics self.
Definition get_history (self : t) : list PerformanceMetrics := history self.

(** The three let-bound parts of [calculate_score], each a [u8]. *)
Definition fps_score (fps : f64) : Z :=
  if geb fps 60 then 40
  else if geb fps 30 then u8_wrap (30 + as_u8 ((fps - 30) / 30 * 10))
  else as_u8 (fps / 30 * 30).

Definition stability_score (avg_frame_time : f64) : Z :=
  if ltb avg_frame_time 16.67 then 30
  else if ltb avg_frame_time 33.33
       then u8_wrap (20 + as_u8 ((33.33 - avg_frame_time) / 16.66 * 10))
  else as_u8 (33.33 / avg_frame_time * 20).

Definition drop_penalty (frame_drops : nat) : Z :=
  u8_wrap (u8_wrap (Z.of_nat (Nat.min frame_drops 10)) * 3).

(** [calculate_score] as a release build computes it: the sum and the
    difference are taken in [u8], modulo 256, before the clamp. *)
Definition calculate_score (self : t) : Z :=
  let fps := FrameTimeTracker.current_fps (frame_tracker self) in
  let avg_frame_time := FrameTimeTracker.average_frame_time (frame_tracker self) in
  let frame_drops :=
    length (FrameTimeTracker.detect_frame_drops (frame_tracker self) 33.33) in
  clampZ 0 100
    (u8_wrap (u8_wrap (fps_score fps + stability_score avg_frame_time)
              - drop_penalty frame_drops)).

(** The same expression as a debug build computes it: [None] when the [u8]
    sum or difference leaves 0..255 (an overflow panic). *)
Definition checked_add (a b : Z) : option Z :=
  if (a + b <=? u8_MAX)%Z then Some (a + b)%Z else None.

Definition checked_sub (a b : Z) : option Z :=
  if (b <=? a)%Z then Some (a - b)%Z else None.

Definition calculate_score_checked (self : t) : option Z :=
  let fps := FrameTimeTracker.current_fps (frame_tracker self) in
  let avg_frame_time := FrameTimeTracker.average_frame_time (frame_tracker self) in
  let frame_drops :=
    length (FrameTimeTracker.detect_frame_drops (frame_tracker self) 33.33) in
  match checked_add (fps_score fps) (stability_score avg_frame_time) with
  | None => None
  | Some s =>
      match checked_sub s (drop_penalty frame_drops) with
      | None => None
      | Some d => Some (clampZ 0 100 d)
      end
  end.

Definition variance (values : list f64) : f64 :=
  if (length values <? 2)%nat then 0
  else
    let mean := sum values / of_len values in
    let squared_diffs := sum (map (fun v => (v - mean) ^ 2) values) in
    squared_diffs / inject_Z (Z.of_nat (length values - 1)).

(** The two filtered columns of the history read by [calculate_profile]. *)
Definition positive_frame_times (self : t) : list f64 :=
  filter (fun x => ltb 0 x) (map frame_time_ms (history self)).

Definition positive_fps_values (self : t) : list f64 :=
  filter (fun f => ltb 0 f) (map frame_rate (history self)).

Definition calculate_profile (self : t) (game_id : String.string)
  : option GamePerformanceProfile :=
  let frame_times := positive_frame_times self in
  let fps_values := positive_fps_values self in
  match FrameTimeTracker.percentile_frame_time (frame_tracker self) 95 with
  | None => None
  | Some p95 =>
      Some
        {| game_id := game_id;
           average_fps :=
             match fps_values with
             | [] => 0
             | _ => sum fps_values / of_len fps_values
             end;
           fps_variance := variance fps_values;
           min_frame_time :=
             match frame_times with
             | [] => 0
             | _ => fold_left Qmin frame_times f64_MAX
             end;
           max_frame_time :=
             match frame_times with
             | [] => 0
             | _ => fold_left Qmax frame_times f64_MIN
             end;
           percentile_95_frame_time := p95;
           total_playtime_ms :=
             u64_wrap (u64_wrap (Z.of_nat (length (history self)))
                       * u64_wrap (as_millis (sampling_rate self)));
           frame_drops :=
             u32_wrap (Z.of_nat (length
               (FrameTimeTracker.detect_frame_drops (frame_tracker self) 33.33)));
           performance_score := calculate_score self |}
  end.

End PerformanceMonitor.

(** ** LatencyTracker *)

Module LatencyTracker.

Record t := mk {
  ping_history : list f64;
  jitter_history : list f64;
  packet_loss : Z;
  packets_sent : Z;
  packets_received : Z;
  max_history : nat
}.

Definition new (max_history : nat) : t :=
  {| ping_history := [];
     jitter_history := [];
     packet_loss := 0;
     packets_sent := 0;
     packets_received := 0;
     max_history := max_history |}.

(** [v[i]] for an index known to be in bounds. *)
Definition at_index (v : list f64) (i : nat) : f64 := nth i v 0.

(** The jitter computed by [record_ping] from the ping buffer it has just
    updated: [None] when the buffer holds fewer than two samples. *)
Definition jitter_sample (ping_history' : list f64) : option f64 :=
  if (2 <=? length ping_history')%nat
  then Some (Qabs (at_index ping_history' (length ping_history' - 1)
                   - at_index ping_history' (length ping_history' - 2)))
  else None.

Definition record_ping (self : t) (latency_ms : f64) : t :=
  let packets_received' := u32_wrap (packets_received self + 1) in
  let ping_history' := push (ping_history self) latency_ms in
  let ping_history' :=
    if (max_history self <? length ping_history')%nat
    then remove_first ping_history' else ping_history' in
  let jitter_history' :=
    match jitter_sample ping_history' with
    | Some jitter =>
        let j := push (jitter_history self) jitter in
        if (max_history self <? length j)%nat then remove_first j else j
    | None => jitter_history self
    end in
  {| ping_history := ping_history';
     jitter_history := jitter_history';
     packet_loss := packet_loss self;
     packets_sent := packets_sent self;
     packets_received := packets_received';
     max_history := max_history self |}.

Definition record_packet_loss (self : t) : t :=
  {| ping_history := ping_history self;
     jitter_history := jitter_history self;
     packet_loss := u32_wrap (packet_loss self + 1);
     packets_sent := packets_sent self;
     packets_received := packets_received self;
     max_history := max_history self |}.

Definition increment_sent (self : t) : t :=
  {| ping_history := ping_history self;
     jitter_history := jitter_history self;
     packet_loss := packet_loss self;
     packets_sent := u32_wrap (packets_sent self + 1);
     packets_received := packets_received self;
     max_history := max_history self |}.

Definition average_latency (self : t) : f64 :=
  match ping_history self with
  | [] => 0
  | _ => sum (ping_history self) / of_len (ping_history self)
  end.

Definition average_jitter (self : t) : f64 :=
  match jitter_history self with
  | [] => 0
  | _ => sum (jitter_history self) / of_len (jitter_history self)
  end.

Definition packet_loss_rate (self : t) : f64 :=
  if (packets_sent self =? 0)%Z then 0
  else inject_Z (packet_loss self) / inject_Z (packets_sent self) * 100.

Definition percentile_latency (self : t) (percentile : f64) : option f64 :=
  match ping_history self with
  | [] => Some 0
  | _ =>
      let sorted := sort (ping_history self) in
      let index :=
        as_usize (round ((percentile / 100)
                         * inject_Z (Z.of_nat (length sorted - 1)))) in
      nth_error sorted index
  end.

(** The three let-bound sub-scores of [quality_score], as functions of the
    metric they read.  In the last branch of the latency score the source
    writes [(200 - avg) / 150.0 * 30.0 as u8]: the cast binds tighter than
    the product, so it applies to the literal [30.0] alone and the branch
    is not truncated. *)
Definition latency_score (average_latency : f64) : f64 :=
  if ltb average_latency 50 then 40
  else if ltb average_latency 100
       then inject_Z (u8_wrap (30 + as_u8 ((100 - average_latency) / 50 * 10)))
  else (200 - average_latency) / 150 * inject_Z (as_u8 30).

Definition jitter_score (average_jitter : f64) : Z :=
  if ltb average_jitter 10 then 30
  else if ltb average_jitter 30
       then u8_wrap (20 + as_u8 ((30 - average_jitter) / 20 * 10))
  else as_u8 (30 / average_jitter * 20).

Definition loss_score (packet_loss_rate : f64) : Z :=
  if ltb packet_loss_rate 1 then 30
  else if ltb packet_loss_rate 5
       then u8_wrap (20 + as_u8 ((5 - packet_loss_rate) / 4 * 10))
  else as_u8 (5 / packet_loss_rate * 20).

Definition quality_score (self : t) : Z :=
  as_u8 (clampQ 0 100
           (latency_score (average_latency self)
            + inject_Z (jitter_score (average_jitter self))
            + inject_Z (loss_score (packet_loss_rate self)))).

End LatencyTracker.

(** ** Binary64 rounding of the percentile index

    [percentile_frame_time] and [percentile_latency] turn a product of
    [f64] values into a vector index, so the last place of that product
    decides which sample is read.  Here each operation of the index is
    rounded the way IEEE 754 binary64 arithmetic rounds it: to the nearest
    representable value, to the one with an even significand when two are
    equally near.  Infinities and NaN stay outside the model. *)

Module Binary64.

(** The exponent [b] of the binade of a positive [a]:
    2^b <= a < 2^(b+1). *)
Definition binade (a : f64) : Z :=
  let c := (Z.log2 (Qnum a) - Z.log2 (Zpos (Qden a)))%Z in
  if Qle_bool (2 ^ c) a then c else (c - 1)%Z.

(** The integer nearest to [x]; half-way between two, the even one. *)
Definition nearest_even (x : f64) : Z :=
  let f := Qfloor x in
  match Qcompare (x - inject_Z f) (1 # 2) with
  | Lt => f
  | Gt => (f + 1)%Z
  | Eq => if Z.even f then f else (f + 1)%Z
  end.

(** A positive [a] rounded to a multiple of its unit in the last place:
    a significand of 53 bits, and the unit 2^-1074 of the subnormal range
    below 2^-1022. *)
Definition rnd_abs (a : f64) : f64 :=
  let e := Z.max (-1074) (binade a - 52) in
  inject_Z (nearest_even (a / 2 ^ e)) * 2 ^ e.

(** The binary64 value of a real result [x]. *)
Definition rnd (x : f64) : f64 :=
  match Qcompare x 0 with
  | Eq => 0
  | Gt => rnd_abs x
  | Lt => - rnd_abs (- x)
  end.

(** The division, the conversion of [len - 1] to [f64] and the product are
    rounded; [f64::round] of a binary64 value is exact. *)
Definition percentile_frame_time (self : FrameTimeTracker.t) (percentile : f64)
  : option f64 :=
  match FrameTimeTracker.frame_times self with
  | [] => Some 0
  | _ =>
      let sorted := sort (FrameTimeTracker.frame_times self) in
      let index :=
        as_usize (round (rnd (rnd (percentile / 100)
                              * rnd (inject_Z (Z.of_nat (length sorted - 1)))))) in
      nth_error sorted index
  end.

Definition percentile_latency (self : LatencyTracker.t) (percentile : f64)
  : option f64 :=
  match LatencyTracker.ping_history self with
  | [] => Some 0
  | _ =>
      let sorted := sort (LatencyTracker.ping_history self) in
      let index :=
        as_usize (round (rnd (rnd (percentile / 100)
                              * rnd (inject_Z (Z.of_nat (length sorted - 1)))))) in
      nth_error sorted index
  end.

End Binary64.

(** ** OptimizationAdvisor *)

Import String.StringSyntax.
Delimit Scope string_scope with str.

Inductive OptimizationCategory :=
| Graphics | Memory | CPU | Network | Stability | Gameplay.

Inductive Priority := Critical | High | Medium | Low.

Record OptimizationRecommendation := mkRecommendation {
  category : OptimizationCategory;
  priority : Priority;
  description : String.string;
  expected_improvement : String.string
}.

Module OptimizationAdvisor.

Definition analyze_and_recommend
    (metrics : PerformanceMetrics) (profile : GamePerformanceProfile)
  : list OptimizationRecommendation :=
  let recommendations := [] in
  let recommendations :=
    if ltb (average_fps profile) 30 then
      push recommendations
        {| category := Graphics;
           priority := Critical;
           description :=
             "Average FPS below 30. Consider reducing graphics quality."%str;
           expected_improvement := "15-25% FPS increase"%str |}
    else if ltb (average_fps profile) 50 then
      push recommendations
        {| category := Graphics;
           priority := Medium;
           description := "FPS could be improved for smoother gameplay."%str;
           expected_improvement := "10-15% FPS increase"%str |}
    else recommendations in
  let recommendations :=
    if ltb 100 (fps_variance profile) then
      push recommendations
        {| category := Stability;
           priority := High;
           description := "High frame time variance causes stuttering."%str;
           expected_improvement := "More consistent frame times"%str |}
    else recommendations in
  let recommendations :=
    if ltb 80 (memory_usage metrics) then
      push recommendations
        {| category := Memory;
           priority := High;
           description := "High memory usage may cause GC pauses."%str;
           expected_improvement := "Reduced memory pressure"%str |}
    else recommendations in
  recommendations.

End OptimizationAdvisor.

(** ** ThreadPoolMonitor *)

(** The four atomic counters are read with [load(SeqCst)]; a state of the
    monitor is the values they hold at the time of a call. *)
Module ThreadPoolMonitor.

Record t := mk {
  thread_usage : list f64;
  queue_length : nat;
  active_tasks : nat;
  completed_tasks : nat;
  total_tasks : nat
}.

Definition new (num_threads : nat) : t :=
  {| thread_usage := repeat 0 num_threads;
     queue_length := 0;
     active_tasks := 0;
     completed_tasks := 0;
     total_tasks := 0 |}.

Definition usize_as_f64 (n : nat) : f64 := inject_Z (Z.of_nat n).

Definition throughput (self : t) (window_secs : f64) : f64 :=
  let completed := completed_tasks self in
  usize_as_f64 completed / window_secs.


End ThreadPoolMonitor.

(** ** GPUPerformanceTracker *)

(** [VulkanDevice] and [DirectXDevice] are declared outside this module.
    The tracker is modelled over any two device types and the six device
    methods it calls; [end_frame] takes the device by [&mut], so it returns
    the device after the call. *)
Module GPUPerformanceTracker.
Section Devices.
Context {VulkanDevice DirectXDevice : Type}.
Variable vulkan_end_frame : VulkanDevice -> option f64 * VulkanDevice.
Variable vulkan_queue_graphics : VulkanDevice -> f64.
Variable vulkan_memory_used : VulkanDevice -> Z.
Variable directx_end_frame : DirectXDevice -> option f64 * DirectXDevice.
Variable directx_gpu_usage : DirectXDevice -> f64.
Variable directx_video_memory_used : DirectXDevice -> Z.

Record t := mk {
  vulkan_device : option VulkanDevice;
  directx_device : option DirectXDevice;
  frame_times : list f64;
  vertex_count : Z;
  triangle_count : Z;
  draw_calls : Z
}.

(** [new]: [windows] is the [cfg(target_os = "windows")] of the build, and
    [device] the result of [DirectXDevice::new().ok()] or
    [VulkanDevice::new().ok()], whichever the build calls. *)
Definition new_windows (device : option DirectXDevice) : t :=
  {| vulkan_device := None;
     directx_device := device;
     frame_times := [];
     vertex_count := 0;
     triangle_count := 0;
     draw_calls := 0 |}.

Definition new_other (device : option VulkanDevice) : t :=
  {| vulkan_device := device;
     directx_device := None;
     frame_times := [];
     vertex_count := 0;
     triangle_count := 0;
     draw_calls := 0 |}.

Definition begin_frame (self : t) : t :=
  {| vulkan_device := vulkan_device self;
     directx_device := directx_device self;
     frame_times := frame_times self;
     vertex_count := 0;
     triangle_count := 0;
     draw_calls := 0 |}.

Definition record_draw_call (self : t) (vertices triangles : Z) : t :=
  {| vulkan_device := vulkan_device self;
     directx_device := directx_device self;
     frame_times := frame_times self;
     vertex_count := u32_wrap (vertex_count self + vertices);
     triangle_count := u32_wrap (triangle_count self + triangles);
     draw_calls := u32_wrap (draw_calls self + 1) |}.

Definition end_frame (self : t) : option f64 * t :=
  let '(render_time, vulkan', directx') :=
    match vulkan_device self with
    | Some device =>
        let (r, device') := vulkan_end_frame device in
        (r, Some device', directx_device self)
    | None =>
        match directx_device self with
        | Some device =>
            let (r, device') := directx_end_frame device in
            (r, None, Some device')
        | None => (None, None, None)
        end
    end in
  let frame_times' :=
    match render_time with
    | Some time =>
        let v := push (frame_times self) time in
        if (300 <? length v)%nat then remove_first v else v
    | None => frame_times self
    end in
  (render_time,
   {| vulkan_device := vulkan';
      directx_device := directx';
      frame_times := frame_times';
      vertex_count := vertex_count self;
      triangle_count := triangle_count self;
      draw_calls := draw_calls self |}).

Definition gpu_usage (self : t) : f64 :=
  match vulkan_device self with
  | Some device => vulkan_queue_graphics device
  | None =>
      match directx_device self with
      | Some device => directx_gpu_usage device
      | None => 0
      end
  end.

Definition video_memory_used (self : t) : Z :=
  match vulkan_device self with
  | Some device => vulkan_memory_used device
  | None =>
      match directx_device self with
      | Some device => directx_video_memory_used device
      | None => 0%Z
      end
  end.

(** A run of [end_frame] calls with the log of the render times reported. *)
Fixpoint run_end_frames (self : t) (n : nat) : list f64 * t :=
  match n with
  | O => ([], self)
  | S n' =>
      let (r, self') := end_frame self in
      let (rs, self'') := run_end_frames self' n' in
      (match r with Some time => time :: rs | None => rs end, self'')
  end.

(** A frame of draw calls: [begin_frame], then one [record_draw_call] per
    pair of vertex and triangle counts. *)
Definition draw_frame (self : t) (draws : list (Z * Z)) : t :=
  fold_left (fun s d => record_draw_call s (fst d) (snd d)) draws (begin_frame self).

End Devices.
End GPUPerformanceTracker.

(** ** Runs

    Sequences of calls, with the log of what each call produced. *)

(** A run of [record_frame], one clock reading per call; the first
    component is the log of the frame times returned, oldest first. *)
Fixpoint run_frames (self : FrameTimeTracker.t) (nows : list Instant)
  : list f64 * FrameTimeTracker.t :=
  match nows with
  | [] => ([], self)
  | now :: rest =>
      let (ft, self') := FrameTimeTracker.record_frame self now in
      let (fts, self'') := run_frames self' rest in
      (ft :: fts, self'')
  end.

(** A run of [record_ping]; the first component is the log of the jitter
    values the calls pushed, oldest first. *)
Fixpoint run_pings (self : LatencyTracker.t) (pings : list f64)
  : list f64 * LatencyTracker.t :=
  match pings with
  | [] => ([], self)
  | p :: rest =>
      let self' := LatencyTracker.record_ping self p in
      let pushed :=
        match LatencyTracker.jitter_sample (LatencyTracker.ping_history self') with
        | Some j => [j]
        | None => []
        end in
      let (js, self'') := run_pings self' rest in
      (pushed ++ js, self'')
  end.

(** The calls a render thread makes on a [PerformanceMonitor]. *)
Inductive call :=
| StartFrame (now : Instant)
| EndFrame
| Sample (cpu mem : option f64) (now1 : Instant) (millis : Z) (now2 : Instant)
| CalculateProfile (game_id : String.string).

Definition step (self : PerformanceMonitor.t) (c : call) : PerformanceMonitor.t :=
  match c with
  | StartFrame now => PerformanceMonitor.start_frame self now
  | EndFrame => PerformanceMonitor.end_frame self
  | Sample cpu mem now1 millis now2 =>
      snd (PerformanceMonitor.sample_with cpu mem self now1 millis now2)
  | CalculateProfile game_id =>
      (* a [&self] method: the profile is returned, the monitor is as before *)
      let _ := PerformanceMonitor.calculate_profile self game_id in self
  end.

Definition run (self : PerformanceMonitor.t) (calls : list call)
  : PerformanceMonitor.t :=
  fold_left step calls self.

(** ** Specification predicates *)

(** [m] is a least (greatest) element of [l]. *)
Definition is_min (m : f64) (l : list f64) : Prop :=
  (exists y, In y l /\ y == m) /\ forall x, In x l -> m <= x.

Definition is_max (m : f64) (l : list f64) : Prop :=
  (exists y, In y l /\ y == m) /\ forall x, In x l -> x <= m.

(** The index round(p/100 * (n-1)) into [n] sorted samples, the quotient,
    [n - 1] and the product each a binary64 value. *)
Definition nearest_rank_index (p : f64) (n : nat) : nat :=
  as_usize (round (Binary64.rnd (Binary64.rnd (p / 100)
                                 * Binary64.rnd (inject_Z (Z.of_nat (n - 1)))))).

(** What it means for [pct], a percentile function over the buffer [buf],
    to be the nearest-rank percentile.  Integers up to 2^53 are binary64
    values; a longer buffer has a length that need not be one. *)
Definition nearest_rank (buf : list f64) (pct : f64 -> option f64) : Prop :=
  (buf = [] -> forall p, pct p = Some 0)
  /\ (buf <> [] ->
      exists sorted,
        Permutation sorted buf
        /\ StronglySorted Qle sorted
        /\ (forall p, pct p = nth_error sorted (nearest_rank_index p (length buf)))
        /\ ((Z.of_nat (length buf) <= 2 ^ 53)%Z ->
            (forall p, 0 <= p -> p <= 100 -> exists v, pct p = Some v /\ In v buf)
            /\ (exists M, pct 100 = Some M /\ is_max M buf)
            /\ (exists m, pct 0 = Some m /\ is_min m buf))).

(** A piecewise score [f] has no jump where its branches meet at [b]: on
    some interval just below [b] it takes the value it takes at [b].  (The
    scores are truncated to integers, so they are step functions; this is
    the sense in which one can be continuous at a breakpoint.) *)
Definition no_jump_at (f : f64 -> f64) (b : f64) : Prop :=
  exists d, 0 < d /\ forall x, b - d < x -> x < b -> f x == f b.

Definition non_increasing (f : f64 -> f64) : Prop :=
  forall x y, x <= y -> f y <= f x.

(** Clock readings of frames that follow one another every [d]
    nanoseconds: the readings number [start], ..., [start + len - 1] counted
    from [t0]. *)
Definition steady_frames (t0 : Instant) (d : Duration) (start len : nat)
  : list Instant :=
  map (fun i => (t0 + Z.of_nat i * d)%Z) (seq start len).

(** The state of a tracker made at [t0] after [n] frames [d] nanoseconds
    apart: [k] frames were counted since the last fps update. *)
Definition steady_state (t0 : Instant) (d : Duration) (n : nat)
    (self : FrameTimeTracker.t) : Prop :=
  FrameTimeTracker.fps_update_interval self = from_millis 500
  /\ FrameTimeTracker.last_frame_time self = (t0 + Z.of_nat n * d)%Z
  /\ exists k : nat,
       (k <= n)%nat
       /\ FrameTimeTracker.frame_count self = Z.of_nat k
       /\ FrameTimeTracker.last_fps_update self = (t0 + Z.of_nat (n - k) * d)%Z
       /\ (Z.of_nat k * d < from_millis 500)%Z
       /\ (((Z.of_nat n * d < from_millis 500)%Z
            /\ k = n /\ FrameTimeTracker.current_fps self = 0)
           \/ ((from_millis 500 <= Z.of_nat n * d)%Z
               /\ FrameTimeTracker.current_fps self == 1000000000 / inject_Z d)).

(** The absolute differences of consecutive pings, oldest first. *)
Fixpoint consecutive_jitter (pings : list f64) : list f64 :=
  match pings with
  | a :: (b :: _) as rest => Qabs (b - a) :: consecutive_jitter rest
  | _ => []
  end.

(** The calls the network transport makes on a [LatencyTracker]. *)
Inductive net_event :=
| Ping (latency_ms : f64)
| Loss
| Sent.

Definition net_step (self : LatencyTracker.t) (e : net_event) : LatencyTracker.t :=
  match e with
  | Ping latency_ms => LatencyTracker.record_ping self latency_ms
  | Loss => LatencyTracker.record_packet_loss self
  | Sent => LatencyTracker.increment_sent self
  end.

Definition net_run (self : LatencyTracker.t) (events : list net_event)
  : LatencyTracker.t :=
  fold_left net_step events self.

Definition pings_of (events : list net_event) : list f64 :=
  flat_map (fun e => match e with Ping l => [l] | _ => [] end) events.

Definition count_loss (events : list net_event) : nat :=
  length (filter (fun e => match e with Loss => true | _ => false end) events).

Definition count_sent (events : list net_event) : nat :=
  length (filter (fun e => match e with Sent => true | _ => false end) events).

(** A run of calls on a monitor with what the accepted samples produced:
    the snapshots returned, oldest first, and for each the clock reading of
    its gate and the reading it stored in [last_sample]. *)
Fixpoint run_log (self : PerformanceMonitor.t) (calls : list call)
  : list PerformanceMetrics * list (Instant * Instant) * PerformanceMonitor.t :=
  match calls with
  | [] => ([], [], self)
  | c :: rest =>
      let accepted :=
        match c with
        | Sample cpu mem now1 millis now2 =>
            match fst (PerformanceMonitor.sample_with cpu mem self now1 millis now2) with
            | Some snapshot => Some (snapshot, (now1, now2))
            | None => None
            end
        | _ => None
        end in
      let '(snaps, gates, self') := run_log (step self c) rest in
      match accepted with
      | Some (snapshot, gate) => (snapshot :: snaps, gate :: gates, self')
      | None => (snaps, gates, self')
      end
  end.

(** Successive accepted samples are at least [rate] apart: the gate
    reading of each is [rate] or more after the reading stored by the one
    before it ([prev] for the first). *)
Fixpoint spaced (rate : Duration) (prev : Instant) (gates : list (Instant * Instant))
  : Prop :=
  match gates with
  | [] => True
  | (gate, stored) :: rest =>
      (rate <= duration_since gate prev)%Z /\ spaced rate stored rest
  end.

(** * Properties *)

(** ** Bounded buffers *)

Section BoundedBuffer.
Context {A : Type}.

Lemma tl_skipn (k : nat) (l : list A) : tl (skipn k l) = skipn (S k) l.
Proof.
  revert l; induction k as [|k IH]; intros [|x l]; simpl; auto.
Qed.

Lemma lastn_length (n : nat) (l : list A) :
  length (lastn n l) = Nat.min n (length l).
Proof. unfold lastn. rewrite length_skipn. lia. Qed.

(** Pushing on the last [cap] elements of a log and evicting on overflow
    gives the last [cap] elements of the extended log. *)
Lemma push_bounded_lastn (cap : nat) (log : list A) (x : A) :
  push_bounded cap (lastn cap log) x = lastn cap (log ++ [x]).
Proof.
  unfold push_bounded, push, remove_first.
  rewrite length_app, lastn_length. simpl length.
  unfold lastn. rewrite length_app. simpl length.
  destruct (Nat.ltb_spec cap (Nat.min cap (length log) + 1)) as [Hfull|Hroom].
  - assert (Hle : (cap <= length log)%nat) by lia.
    replace (length log + 1 - cap)%nat with (S (length log - cap)) by lia.
    rewrite <- tl_skipn. rewrite skipn_app.
    replace (length log - cap - length log)%nat with 0%nat by lia.
    reflexivity.
  - assert (Hlt : (length log < cap)%nat) by lia.
    replace (length log - cap)%nat with 0%nat by lia.
    replace (length log + 1 - cap)%nat with 0%nat by lia.
    reflexivity.
Qed.

Lemma push_bounded_length (cap : nat) (v : list A) (x : A) :
  (length v <= cap)%nat -> (length (push_bounded cap v x) <= cap)%nat.
Proof.
  intros Hv. unfold push_bounded, push, remove_first.
  destruct (Nat.ltb_spec cap (length (v ++ [x]))) as [Hfull|Hroom]; [|exact Hroom].
  rewrite length_app in Hfull. simpl in Hfull.
  destruct v as [|y v]; simpl in *; [lia|].
  rewrite length_app. simpl. lia.
Qed.

End BoundedBuffer.

(** ** The buffers of [FrameTimeTracker] and [LatencyTracker] *)

Lemma record_frame_buffer (self : FrameTimeTracker.t) (now : Instant) :
  let r := FrameTimeTracker.record_frame self now in
  FrameTimeTracker.frame_times (snd r)
  = push_bounded (FrameTimeTracker.max_samples self)
      (FrameTimeTracker.frame_times self) (fst r)
  /\ FrameTimeTracker.max_samples (snd r) = FrameTimeTracker.max_samples self.
Proof.
  unfold FrameTimeTracker.record_frame, push_bounded.
  destruct (_ <=? _)%Z; simpl; split; reflexivity.
Qed.

Lemma run_frames_fifo (nows : list Instant) :
  forall (self : FrameTimeTracker.t) (log : list f64),
    FrameTimeTracker.frame_times self
    = lastn (FrameTimeTracker.max_samples self) log ->
    let r := run_frames self nows in
    FrameTimeTracker.frame_times (snd r)
    = lastn (FrameTimeTracker.max_samples self) (log ++ fst r)
    /\ FrameTimeTracker.max_samples (snd r) = FrameTimeTracker.max_samples self.
Proof.
  induction nows as [|now rest IH]; intros self log Hlog; simpl.
  - rewrite app_nil_r. split; [exact Hlog | reflexivity].
  - destruct (record_frame_buffer self now) as [Hbuf Hcap].
    destruct (FrameTimeTracker.record_frame self now) as [ft self'] eqn:Hstep.
    simpl in Hbuf, Hcap.
    specialize (IH self' (log ++ [ft])).
    destruct (run_frames self' rest) as [fts self''] eqn:Hrun.
    simpl in IH |- *.
    rewrite Hcap in IH. rewrite <- app_assoc in IH. simpl in IH.
    apply IH. rewrite Hbuf, Hlog. apply push_bounded_lastn.
Qed.

Lemma record_ping_buffers (self : LatencyTracker.t) (p : f64) :
  let self' := LatencyTracker.record_ping self p in
  LatencyTracker.ping_history self'
  = push_bounded (LatencyTracker.max_history self)
      (LatencyTracker.ping_history self) p
  /\ LatencyTracker.jitter_history self'
     = match LatencyTracker.jitter_sample (LatencyTracker.ping_history self') with
       | Some j =>
           push_bounded (LatencyTracker.max_history self)
             (LatencyTracker.jitter_history self) j
       | None => LatencyTracker.jitter_history self
       end
  /\ LatencyTracker.max_history self' = LatencyTracker.max_history self.
Proof.
  unfold LatencyTracker.record_ping, push_bounded; simpl.
  repeat split.
Qed.

Lemma run_pings_fifo (pings : list f64) :
  forall (self : LatencyTracker.t) (plog jlog : list f64),
    LatencyTracker.ping_history self
    = lastn (LatencyTracker.max_history self) plog ->
    LatencyTracker.jitter_history self
    = lastn (LatencyTracker.max_history self) jlog ->
    let r := run_pings self pings in
    LatencyTracker.ping_history (snd r)
    = lastn (LatencyTracker.max_history self) (plog ++ pings)
    /\ LatencyTracker.jitter_history (snd r)
       = lastn (LatencyTracker.max_history self) (jlog ++ fst r).
Proof.
  induction pings as [|p rest IH]; intros self plog jlog Hp Hj.
  - simpl. rewrite !app_nil_r. split; assumption.
  - cbn [run_pings].
    destruct (record_ping_buffers self p) as (Hpb & Hjb & Hcap).
    remember (LatencyTracker.record_ping self p) as self' eqn:E. clear E.
    remember (match LatencyTracker.jitter_sample _ with
              | Some j => [j] | None => [] end) as pushed eqn:Epushed.
    specialize (IH self' (plog ++ [p]) (jlog ++ pushed)).
    destruct (run_pings self' rest) as [js self''] eqn:Hrun.
    cbn [fst snd] in IH |- *. rewrite Hcap in IH.
    rewrite <- !app_assoc in IH. cbn [app] in IH.
    apply IH.
    + rewrite Hpb, Hp. apply push_bounded_lastn.
    + rewrite Hjb. subst pushed.
      destruct (LatencyTracker.jitter_sample _) as [j|].
      * rewrite Hj. apply push_bounded_lastn.
      * rewrite app_nil_r. exact Hj.
Qed.

Lemma run_pings_state (pings : list f64) (self : LatencyTracker.t) :
  snd (run_pings self pings) = fold_left LatencyTracker.record_ping pings self.
Proof.
  revert self; induction pings as [|p rest IH]; intros self; simpl; [reflexivity|].
  rewrite <- IH. destruct (run_pings _ rest); reflexivity.
Qed.

Lemma run_frames_log_length (nows : list Instant) :
  forall self : FrameTimeTracker.t,
    length (fst (run_frames self nows)) = length nows.
Proof.
  induction nows as [|now rest IH]; intros self; [reflexivity|].
  cbn [run_frames].
  destruct (FrameTimeTracker.record_frame self now) as [ft self'].
  specialize (IH self'). destruct (run_frames self' rest) as [fts self''].
  simpl in *. rewrite IH. reflexivity.
Qed.

(** C4.  After any sequence of [record_frame] calls on a new tracker of
    capacity [N], the frame-time buffer holds the [N] most recent frame
    times in the order they were recorded (all of them while fewer than [N]
    were recorded), so its length is at most [N], and exactly [N] once [N]
    frames were recorded; and after any sequence of [record_ping] calls on
    a new tracker of capacity [K] the ping buffer holds the [K] most recent
    pings and the jitter buffer the [K] most recent jitter values pushed,
    each of length at most [K]. *)
Theorem ring_buffers_bounded_fifo :
  (forall (N : nat) (now1 now2 : Instant) (nows : list Instant),
      let r := run_frames (FrameTimeTracker.new N now1 now2) nows in
      length (fst r) = length nows
      /\ FrameTimeTracker.frame_times (snd r) = lastn N (fst r)
      /\ (length (FrameTimeTracker.frame_times (snd r)) <= N)%nat
      /\ ((N <= length nows)%nat ->
          length (FrameTimeTracker.frame_times (snd r)) = N))
  /\ (forall (K : nat) (pings : list f64),
      let r := run_pings (LatencyTracker.new K) pings in
      snd r = fold_left LatencyTracker.record_ping pings (LatencyTracker.new K)
      /\ LatencyTracker.ping_history (snd r) = lastn K pings
      /\ (length (LatencyTracker.ping_history (snd r)) <= K)%nat
      /\ ((K <= length pings)%nat ->
          length (LatencyTracker.ping_history (snd r)) = K)
      /\ LatencyTracker.jitter_history (snd r) = lastn K (fst r)
      /\ (length (LatencyTracker.jitter_history (snd r)) <= K)%nat).
Proof.
  split.
  - intros N now1 now2 nows r.
    destruct (run_frames_fifo nows (FrameTimeTracker.new N now1 now2) [])
      as [Hbuf _]; [reflexivity|].
    simpl in Hbuf. fold r in Hbuf.
    pose proof (run_frames_log_length nows (FrameTimeTracker.new N now1 now2))
      as Hlog.
    fold r in Hlog.
    split; [exact Hlog|]. split; [exact Hbuf|].
    rewrite Hbuf, lastn_length, Hlog. split; lia.
  - intros K pings r.
    destruct (run_pings_fifo pings (LatencyTracker.new K) [] [])
      as [Hp Hj]; [reflexivity | reflexivity |].
    simpl in Hp, Hj. fold r in Hp, Hj.
    split; [apply run_pings_state|].
    rewrite Hp, Hj, !lastn_length. repeat split; lia.
Qed.

Lemma ring_buffers_bounded_fifo_witness :
  FrameTimeTracker.frame_times
    (snd (run_frames (FrameTimeTracker.new 2 0 0)
            [from_millis 10; from_millis 30; from_millis 60]))
  = lastn 2 (fst (run_frames (FrameTimeTracker.new 2 0 0)
                    [from_millis 10; from_millis 30; from_millis 60]))
  /\ length (FrameTimeTracker.frame_times
               (snd (run_frames (FrameTimeTracker.new 2 0 0)
                       [from_millis 10; from_millis 30; from_millis 60])))
     = 2%nat.
Proof.
  destruct (proj1 ring_buffers_bounded_fifo 2%nat 0%Z 0%Z
              [from_millis 10; from_millis 30; from_millis 60])
    as (_ & Hbuf & _ & Hfull).
  split; [exact Hbuf | apply Hfull; simpl; lia].
Defined.

(** ** Packet loss and the score of a new [LatencyTracker] *)

(** C8.  [packet_loss_rate] is 0 when no packet was sent and
    [packet_loss / packets_sent * 100] otherwise; a new tracker on which 2
    losses and 20 sent packets were recorded has rate 10. *)
Theorem packet_loss_rate_guarded :
  (forall self : LatencyTracker.t,
      LatencyTracker.packets_sent self = 0%Z ->
      LatencyTracker.packet_loss_rate self == 0)
  /\ (forall self : LatencyTracker.t,
      LatencyTracker.packets_sent self <> 0%Z ->
      LatencyTracker.packet_loss_rate self
      == inject_Z (LatencyTracker.packet_loss self)
         / inject_Z (LatencyTracker.packets_sent self) * 100)
  /\ (forall K : nat,
      let self :=
        Nat.iter 20 LatencyTracker.increment_sent
          (Nat.iter 2 LatencyTracker.record_packet_loss (LatencyTracker.new K)) in
      LatencyTracker.packet_loss self = 2%Z
      /\ LatencyTracker.packets_sent self = 20%Z
      /\ LatencyTracker.packet_loss_rate self == 10).
Proof.
  repeat split.
  - intros self Hsent. unfold LatencyTracker.packet_loss_rate.
    rewrite Hsent. reflexivity.
  - intros self Hsent. unfold LatencyTracker.packet_loss_rate.
    destruct (Z.eqb_spec (LatencyTracker.packets_sent self) 0) as [E|_];
      [contradiction | reflexivity].
Qed.

Lemma packet_loss_rate_guarded_witness :
  LatencyTracker.packet_loss_rate (LatencyTracker.mk [] [] 3%Z 0%Z 0%Z 8) == 0
  /\ LatencyTracker.packet_loss_rate (LatencyTracker.mk [] [] 1%Z 4%Z 3%Z 8)
     == inject_Z 1 / inject_Z 4 * 100.
Proof.
  split.
  - apply (proj1 packet_loss_rate_guarded). reflexivity.
  - apply (proj1 (proj2 packet_loss_rate_guarded)). simpl. discriminate.
Defined.

(** C9.  A new [LatencyTracker] has average latency 0, average jitter 0
    and loss rate 0; each falls in the best branch of its sub-score (40, 30
    and 30) and [quality_score] is 100. *)
Theorem new_tracker_quality_score (K : nat) :
  let self := LatencyTracker.new K in
  LatencyTracker.average_latency self = 0
  /\ LatencyTracker.average_jitter self = 0
  /\ LatencyTracker.packet_loss_rate self = 0
  /\ LatencyTracker.latency_score (LatencyTracker.average_latency self) = 40
  /\ LatencyTracker.jitter_score (LatencyTracker.average_jitter self) = 30%Z
  /\ LatencyTracker.loss_score (LatencyTracker.packet_loss_rate self) = 30%Z
  /\ LatencyTracker.quality_score self = 100%Z.
Proof. repeat split. Qed.

(** ** Rounding *)

Lemma Qfloor_unique (x : Q) (z : Z) :
  inject_Z z <= x -> x < inject_Z (z + 1) -> Qfloor x = z.
Proof.
  intros Hlo Hhi.
  pose proof (Qfloor_le x) as Hf1. pose proof (Qlt_floor x) as Hf2.
  assert (H1 : inject_Z z < inject_Z (Qfloor x + 1)) by lra.
  assert (H2 : inject_Z (Qfloor x) < inject_Z (z + 1)) by lra.
  rewrite <- Zlt_Qlt in H1, H2. lia.
Qed.

Lemma trunc_inject_Z (z : Z) : trunc (inject_Z z) = z.
Proof.
  unfold trunc. destruct (Qle_bool 0 (inject_Z z)).
  - apply Qfloor_Z.
  - apply Qceiling_Z.
Qed.

Lemma as_u8_floor (x : Q) : as_u8 x = Z.min 255 (Z.max 0 (Qfloor x)).
Proof.
  unfold as_u8, trunc, u8_MAX.
  destruct (Qle_bool 0 x) eqn:E; [reflexivity|].
  assert (Hneg : x < 0).
  { apply Qnot_le_lt. intros H. apply Qle_bool_iff in H. congruence. }
  pose proof (Qfloor_le x) as Hf. pose proof (Qceiling_lt x) as Hc.
  assert (H1 : inject_Z (Qfloor x) < inject_Z 0) by (change (inject_Z 0) with 0; lra).
  assert (H2 : inject_Z (Qceiling x - 1) < inject_Z 0) by (change (inject_Z 0) with 0; lra).
  rewrite <- Zlt_Qlt in H1, H2. lia.
Qed.

Lemma as_u8_range (x : Q) : (0 <= as_u8 x <= 255)%Z.
Proof. rewrite as_u8_floor. lia. Qed.

Lemma as_u8_mono (x y : Q) : x <= y -> (as_u8 x <= as_u8 y)%Z.
Proof.
  intros H. rewrite !as_u8_floor.
  pose proof (Qfloor_resp_le _ _ H). lia.
Qed.

(** The index computed by [round] and [as usize] from a non-negative rank. *)
Lemma as_usize_round_nonneg (q : Q) :
  0 <= q ->
  as_usize (round q) = Z.to_nat (Z.min usize_MAX (Qfloor (q + (1 # 2)))).
Proof.
  intros Hq. unfold as_usize, round.
  destruct (Qle_bool 0 q) eqn:E.
  - rewrite trunc_inject_Z.
    assert (H0 : (0 <= Qfloor (q + (1 # 2)))%Z).
    { rewrite <- (Qfloor_Z 0). apply Qfloor_resp_le.
      change (inject_Z 0) with 0. lra. }
    rewrite Z.max_r by exact H0. reflexivity.
  - apply Qle_bool_iff in Hq. congruence.
Qed.

Lemma rank_index_bound (p : Q) (k : nat) :
  0 <= p -> p <= 100 ->
  (as_usize (round (p / 100 * inject_Z (Z.of_nat k))%Q) <= k)%nat.
Proof.
  intros Hp0 Hp1.
  assert (Hk0 : 0 <= inject_Z (Z.of_nat k)).
  { change 0 with (inject_Z 0). rewrite <- Zle_Qle. lia. }
  set (n := inject_Z (Z.of_nat k)) in *.
  assert (Hdiv : p / 100 * n == p * (1 # 100) * n) by field.
  assert (Hq0 : 0 <= p / 100 * n) by (rewrite Hdiv; nra).
  assert (Hq1 : p / 100 * n <= n) by (rewrite Hdiv; nra).
  rewrite as_usize_round_nonneg by exact Hq0.
  assert (Hfl : (Qfloor (p / 100 * n + (1 # 2)) <= Z.of_nat k)%Z).
  { rewrite <- (Qfloor_unique (n + (1 # 2)) (Z.of_nat k)).
    - apply Qfloor_resp_le. lra.
    - fold n. lra.
    - rewrite inject_Z_plus. fold n. change (inject_Z 1) with 1. lra. }
  lia.
Qed.

(** ** Sorting and the nearest-rank percentile *)

Lemma insert_sorted_perm (x : f64) (l : list f64) :
  Permutation (insert_sorted x l) (x :: l).
Proof.
  induction l as [|y l IH]; simpl; [reflexivity|].
  destruct (Qle_bool y x); [|reflexivity].
  rewrite IH. apply perm_swap.
Qed.

Lemma insert_sorted_sorted (x : f64) (l : list f64) :
  StronglySorted Qle l -> StronglySorted Qle (insert_sorted x l).
Proof.
  induction l as [|y l IH]; intros Hs; simpl.
  - constructor; constructor.
  - inversion Hs as [|? ? Hl Hy]; subst.
    destruct (Qle_bool y x) eqn:E.
    + apply Qle_bool_iff in E. constructor; [auto|].
      apply (Permutation_Forall (Permutation_sym (insert_sorted_perm x l))).
      constructor; assumption.
    + assert (Hxy : x <= y).
      { apply Qlt_le_weak, Qnot_le_lt. intros H.
        apply Qle_bool_iff in H. congruence. }
      constructor; [exact Hs|].
      constructor; [exact Hxy|].
      eapply Forall_impl; [|exact Hy].
      intros z Hz. eapply Qle_trans; eassumption.
Qed.

Lemma sort_acc (l : list f64) :
  forall acc : list f64,
    StronglySorted Qle acc ->
    StronglySorted Qle (fold_left (fun a x => insert_sorted x a) l acc)
    /\ Permutation (fold_left (fun a x => insert_sorted x a) l acc) (acc ++ l).
Proof.
  induction l as [|x l IH]; intros acc Hacc; simpl.
  - rewrite app_nil_r. split; [exact Hacc | reflexivity].
  - destruct (IH (insert_sorted x acc) (insert_sorted_sorted x acc Hacc))
      as [Hs Hp].
    split; [exact Hs|].
    rewrite Hp, insert_sorted_perm. apply Permutation_middle.
Qed.

Lemma sort_sorted (l : list f64) : StronglySorted Qle (sort l).
Proof. apply (sort_acc l []). constructor. Qed.

Lemma sort_perm (l : list f64) : Permutation (sort l) l.
Proof. apply (sort_acc l []). constructor. Qed.

Lemma sorted_nth_le (l : list f64) :
  StronglySorted Qle l ->
  forall (i j : nat) (a b : f64),
    (i <= j)%nat -> nth_error l i = Some a -> nth_error l j = Some b -> a <= b.
Proof.
  induction 1 as [|x l Hs IH Hx]; intros i j a b Hij Ha Hb.
  - destruct i; discriminate.
  - destruct i as [|i], j as [|j]; simpl in Ha, Hb.
    + injection Ha as <-. injection Hb as <-. apply Qle_refl.
    + injection Ha as <-. rewrite Forall_forall in Hx.
      apply Hx. eapply nth_error_In; eassumption.
    + lia.
    + apply (IH i j); [lia | assumption | assumption].
Qed.

(** ** Binary64 rounding *)

Lemma pow2_pos (e : Z) : 0 < 2 ^ e.
Proof. apply Qpower_0_lt. reflexivity. Qed.

Lemma pow2_plus (a b : Z) : 2 ^ (a + b) == 2 ^ a * 2 ^ b.
Proof. apply Qpower_plus. discriminate. Qed.

Lemma pow2_le (a b : Z) : (a <= b)%Z -> 2 ^ a <= 2 ^ b.
Proof. intros H. apply Qpower_le_compat_l; [exact H | discriminate]. Qed.

Lemma pow2_lt_inv (a b : Z) : 2 ^ a < 2 ^ b -> (a < b)%Z.
Proof.
  intros H. destruct (Z_lt_le_dec a b) as [Hlt | Hle]; [exact Hlt|].
  apply pow2_le in Hle. lra.
Qed.

Lemma pow2_inject (n : Z) : (0 <= n)%Z -> inject_Z (2 ^ n) == 2 ^ n.
Proof. intros H. rewrite Zpower_Qpower by exact H. reflexivity. Qed.

Lemma binade_spec (a : Q) : 0 < a -> 2 ^ Binary64.binade a <= a /\ a < 2 ^ (Binary64.binade a + 1).
Proof.
  intros Ha. unfold Binary64.binade.
  destruct a as [n d]. cbn [Qnum Qden].
  assert (Hn : (0 < n)%Z) by (unfold Qlt in Ha; cbn in Ha; lia).
  set (ln := Z.log2 n). set (ld := Z.log2 (Z.pos d)).
  destruct (Z.log2_spec n Hn) as [Hn1 Hn2]. fold ln in Hn1, Hn2.
  destruct (Z.log2_spec (Z.pos d) eq_refl) as [Hd1 Hd2]. fold ld in Hd1, Hd2.
  assert (Hln : (0 <= ln)%Z) by apply Z.log2_nonneg.
  assert (Hld : (0 <= ld)%Z) by apply Z.log2_nonneg.
  assert (Qn1 : 2 ^ ln <= inject_Z n)
    by (rewrite <- pow2_inject by exact Hln; rewrite <- Zle_Qle; exact Hn1).
  assert (Qn2 : inject_Z n < 2 ^ (ln + 1))
    by (rewrite <- pow2_inject by lia; rewrite <- Zlt_Qlt; unfold Z.succ in Hn2; exact Hn2).
  assert (Qd1 : 2 ^ ld <= inject_Z (Z.pos d))
    by (rewrite <- pow2_inject by exact Hld; rewrite <- Zle_Qle; exact Hd1).
  assert (Qd2 : inject_Z (Z.pos d) < 2 ^ (ld + 1))
    by (rewrite <- pow2_inject by lia; rewrite <- Zlt_Qlt; unfold Z.succ in Hd2; exact Hd2).
  assert (Hq : n # d == inject_Z n / inject_Z (Z.pos d)) by apply Qmake_Qdiv.
  assert (Hdpos : 0 < inject_Z (Z.pos d)) by (pose proof (pow2_pos ld); lra).
  assert (Hup : n # d < 2 ^ (ln - ld + 1)).
  { rewrite Hq. apply Qlt_shift_div_r; [exact Hdpos|].
    assert (E : 2 ^ (ln + 1) == 2 ^ (ln - ld + 1) * 2 ^ ld)
      by (rewrite <- pow2_plus; f_equiv; lia).
    pose proof (pow2_pos (ln - ld + 1)). nra. }
  assert (Hlo : 2 ^ (ln - ld - 1) <= n # d).
  { rewrite Hq. apply Qle_shift_div_l; [exact Hdpos|].
    assert (E : 2 ^ ln == 2 ^ (ln - ld - 1) * 2 ^ (ld + 1))
      by (rewrite <- pow2_plus; f_equiv; lia).
    pose proof (pow2_pos (ln - ld - 1)). nra. }
  destruct (Qle_bool (2 ^ (ln - ld)) (n # d)) eqn:Hb.
  - apply Qle_bool_iff in Hb. split; [exact Hb | exact Hup].
  - assert (Hlt : n # d < 2 ^ (ln - ld)).
    { apply Qnot_le_lt. intros Hc. apply Qle_bool_iff in Hc. congruence. }
    split; [exact Hlo|].
    replace (ln - ld - 1 + 1)%Z with (ln - ld)%Z by lia. exact Hlt.
Qed.

Lemma binade_mono (a b : Q) : 0 < a -> a <= b -> (Binary64.binade a <= Binary64.binade b)%Z.
Proof.
  intros Ha Hab.
  destruct (binade_spec a Ha) as [H1 _].
  destruct (binade_spec b) as [_ H2]; [lra|].
  assert (H : (Binary64.binade a < Binary64.binade b + 1)%Z) by (apply pow2_lt_inv; lra).
  lia.
Qed.

Ltac qcmp H :=
  first [apply Qeq_alt in H | apply Qlt_alt in H | apply Qgt_alt in H].

Lemma nearest_even_cases (x : Q) :
  let f := Qfloor x in
  (Binary64.nearest_even x = f /\ x - inject_Z f <= 1 # 2)
  \/ (Binary64.nearest_even x = (f + 1)%Z /\ 1 # 2 <= x - inject_Z f).
Proof.
  intros f. unfold Binary64.nearest_even. fold f.
  destruct (Qcompare (x - inject_Z f) (1 # 2)) eqn:Hc.
  - apply Qeq_alt in Hc. destruct (Z.even f); [left | right]; split; auto; lra.
  - apply Qlt_alt in Hc. left. split; [reflexivity | lra].
  - apply Qgt_alt in Hc. right. split; [reflexivity | lra].
Qed.

Lemma nearest_even_comp (x y : Q) : x == y -> Binary64.nearest_even x = Binary64.nearest_even y.
Proof.
  intros H. unfold Binary64.nearest_even.
  rewrite (Qfloor_comp _ _ H).
  assert (E : x - inject_Z (Qfloor y) == y - inject_Z (Qfloor y)) by lra.
  rewrite (Qcompare_comp _ _ E _ _ (Qeq_refl (1 # 2))). reflexivity.
Qed.

Lemma nearest_even_inject (z : Z) : Binary64.nearest_even (inject_Z z) = z.
Proof.
  unfold Binary64.nearest_even. rewrite Qfloor_Z.
  destruct (Qcompare (inject_Z z - inject_Z z) (1 # 2)) eqn:Hc.
  - apply Qeq_alt in Hc. lra.
  - reflexivity.
  - apply Qgt_alt in Hc. lra.
Qed.

Lemma nearest_even_int (x : Q) (z : Z) : x == inject_Z z -> Binary64.nearest_even x = z.
Proof. intros H. rewrite (nearest_even_comp _ _ H). apply nearest_even_inject. Qed.

Lemma nearest_even_mono (x y : Q) : x <= y -> (Binary64.nearest_even x <= Binary64.nearest_even y)%Z.
Proof.
  intros Hxy.
  pose proof (Qfloor_resp_le _ _ Hxy) as Hf.
  destruct (Z.eq_dec (Qfloor x) (Qfloor y)) as [He | Hne].
  - unfold Binary64.nearest_even. rewrite He.
    destruct (Qcompare (x - inject_Z (Qfloor y)) (1 # 2)) eqn:Hx;
      destruct (Qcompare (y - inject_Z (Qfloor y)) (1 # 2)) eqn:Hy;
      try (destruct (Z.even (Qfloor y))); try lia;
      qcmp Hx; qcmp Hy; exfalso; lra.
  - destruct (nearest_even_cases x) as [[-> _] | [-> _]];
      destruct (nearest_even_cases y) as [[-> _] | [-> _]]; lia.
Qed.

Lemma scaled_bounds (a : Q) :
  0 < a ->
  let e := Z.max (-1074) (Binary64.binade a - 52) in
  a / 2 ^ e < 2 ^ 53 /\ ((-1074 <= Binary64.binade a - 52)%Z -> 2 ^ 52 <= a / 2 ^ e).
Proof.
  intros Ha e.
  destruct (binade_spec a Ha) as [H1 H2].
  pose proof (pow2_pos e) as He.
  split.
  - apply Qlt_shift_div_r; [exact He|].
    assert (E : 2 ^ (Binary64.binade a + 1) == 2 ^ 53 * 2 ^ (Binary64.binade a - 52))
      by (rewrite <- pow2_plus; f_equiv; lia).
    assert (Hle : 2 ^ (Binary64.binade a - 52) <= 2 ^ e) by (apply pow2_le; lia).
    pose proof (pow2_pos 53). nra.
  - intros Hn. apply Qle_shift_div_l; [exact He|].
    replace e with (Binary64.binade a - 52)%Z by lia.
    assert (E : 2 ^ Binary64.binade a == 2 ^ 52 * 2 ^ (Binary64.binade a - 52))
      by (rewrite <- pow2_plus; f_equiv; lia).
    lra.
Qed.

Lemma mantissa_bounds (a : Q) :
  0 < a ->
  let m := Binary64.nearest_even (a / 2 ^ Z.max (-1074) (Binary64.binade a - 52)) in
  (0 <= m <= 2 ^ 53)%Z /\ ((-1074 <= Binary64.binade a - 52)%Z -> (2 ^ 52 <= m)%Z).
Proof.
  intros Ha m.
  destruct (scaled_bounds a Ha) as [H1 H2].
  pose proof (pow2_pos (Z.max (-1074) (Binary64.binade a - 52))) as He.
  set (s := a / 2 ^ Z.max (-1074) (Binary64.binade a - 52)) in *.
  assert (Hs : 0 <= s) by (apply Qle_shift_div_l; [exact He | lra]).
  repeat split.
  - rewrite <- (nearest_even_inject 0). apply nearest_even_mono. exact Hs.
  - rewrite <- (nearest_even_inject (2 ^ 53)). apply nearest_even_mono.
    rewrite pow2_inject by lia. lra.
  - intros Hn. rewrite <- (nearest_even_inject (2 ^ 52)). apply nearest_even_mono.
    rewrite pow2_inject by lia. auto.
Qed.

Lemma rnd_abs_nonneg (a : Q) : 0 < a -> 0 <= Binary64.rnd_abs a.
Proof.
  intros Ha. unfold Binary64.rnd_abs.
  destruct (mantissa_bounds a Ha) as [[H0 _] _].
  apply Qmult_le_0_compat; [|apply Qlt_le_weak, pow2_pos].
  change 0 with (inject_Z 0). rewrite <- Zle_Qle. exact H0.
Qed.

Lemma rnd_abs_mono (a b : Q) : 0 < a -> a <= b -> Binary64.rnd_abs a <= Binary64.rnd_abs b.
Proof.
  intros Ha Hab. assert (Hb : 0 < b) by lra.
  pose proof (binade_mono a b Ha Hab) as Hbin.
  destruct (mantissa_bounds a Ha) as [[_ Ha2] _].
  destruct (mantissa_bounds b Hb) as [[Hb0 _] Hb3].
  unfold Binary64.rnd_abs.
  set (ea := Z.max (-1074) (Binary64.binade a - 52)) in *.
  set (eb := Z.max (-1074) (Binary64.binade b - 52)) in *.
  set (ma := Binary64.nearest_even (a / 2 ^ ea)) in *.
  set (mb := Binary64.nearest_even (b / 2 ^ eb)) in *.
  pose proof (pow2_pos ea) as Hea. pose proof (pow2_pos eb) as Heb.
  destruct (Z.eq_dec ea eb) as [He | Hne].
  - assert (Hm : (ma <= mb)%Z).
    { apply nearest_even_mono. rewrite <- He.
      apply Qle_shift_div_l; [exact Hea|].
      assert (E : a / 2 ^ ea * 2 ^ ea == a) by (field; lra).
      rewrite E. exact Hab. }
    rewrite <- He. rewrite Zle_Qle in Hm. nra.
  - assert (Hlt : (ea + 1 <= eb)%Z) by lia.
    assert (Hmb : (2 ^ 52 <= mb)%Z) by (apply Hb3; lia).
    rewrite Zle_Qle in Ha2, Hmb.
    rewrite pow2_inject in Ha2, Hmb by lia.
    assert (E1 : 2 ^ 53 * 2 ^ ea == 2 ^ 52 * 2 ^ (ea + 1))
      by (rewrite <- !pow2_plus; f_equiv; lia).
    assert (E2 : 2 ^ (ea + 1) <= 2 ^ eb) by (apply pow2_le; exact Hlt).
    pose proof (pow2_pos 52). pose proof (pow2_pos 53).
    apply Qle_trans with (2 ^ 53 * 2 ^ ea); [nra|].
    apply Qle_trans with (2 ^ 52 * 2 ^ eb); [rewrite E1; nra | nra].
Qed.

Lemma rnd_mono (x y : Q) : x <= y -> Binary64.rnd x <= Binary64.rnd y.
Proof.
  intros Hxy. unfold Binary64.rnd.
  destruct (Qcompare x 0) eqn:Hx; destruct (Qcompare y 0) eqn:Hy;
    qcmp Hx; qcmp Hy; try lra.
  - apply rnd_abs_nonneg. exact Hy.
  - pose proof (rnd_abs_nonneg (- x)). lra.
  - pose proof (rnd_abs_mono (- y) (- x)). lra.
  - pose proof (rnd_abs_nonneg (- x)). pose proof (rnd_abs_nonneg y). lra.
  - apply rnd_abs_mono; assumption.
Qed.

Lemma rnd_abs_exact (z : Z) :
  (0 < z <= 2 ^ 53)%Z -> Binary64.rnd_abs (inject_Z z) == inject_Z z.
Proof.
  intros [Hz0 Hz1].
  assert (Ha : 0 < inject_Z z) by (change 0 with (inject_Z 0); rewrite <- Zlt_Qlt; exact Hz0).
  destruct (binade_spec _ Ha) as [H1 H2].
  assert (Hb0 : (0 <= Binary64.binade (inject_Z z))%Z).
  { assert (H : (0 < Binary64.binade (inject_Z z) + 1)%Z).
    { apply pow2_lt_inv.
      assert (1 <= inject_Z z) by (change 1 with (inject_Z 1); rewrite <- Zle_Qle; lia).
      change (2 ^ 0) with 1. lra. }
    lia. }
  assert (Hb1 : (Binary64.binade (inject_Z z) <= 53)%Z).
  { assert (H : (Binary64.binade (inject_Z z) < 54)%Z).
    { apply pow2_lt_inv.
      assert (inject_Z z <= 2 ^ 53)
        by (rewrite <- pow2_inject by lia; rewrite <- Zle_Qle; exact Hz1).
      assert (2 ^ 53 < 2 ^ 54) by reflexivity. lra. }
    lia. }
  unfold Binary64.rnd_abs.
  set (b := Binary64.binade (inject_Z z)) in *.
  replace (Z.max (-1074) (b - 52)) with (b - 52)%Z by lia.
  pose proof (pow2_pos (b - 52)) as He.
  destruct (Z_le_gt_dec b 52) as [Hle | Hgt].
  - assert (E : inject_Z z / 2 ^ (b - 52) == inject_Z (z * 2 ^ (52 - b))).
    { rewrite inject_Z_mult, pow2_inject by lia.
      apply Qmult_inj_r with (2 ^ (b - 52)); [lra|].
      assert (E1 : inject_Z z / 2 ^ (b - 52) * 2 ^ (b - 52) == inject_Z z) by (field; lra).
      rewrite E1, <- Qmult_assoc, <- pow2_plus.
      replace (52 - b + (b - 52))%Z with 0%Z by lia. change (2 ^ 0) with 1. ring. }
    rewrite (nearest_even_int _ _ E), <- E. field. lra.
  - assert (b = 53)%Z by lia. subst b.
    assert (Hz : z = (2 ^ 53)%Z).
    { apply Z.le_antisymm; [exact Hz1|].
      rewrite Zle_Qle, pow2_inject by lia. rewrite H in H1. exact H1. }
    rewrite H, Hz. vm_compute. split; reflexivity || discriminate.
Qed.

Lemma rnd_exact_int (z : Z) : (Z.abs z <= 2 ^ 53)%Z -> Binary64.rnd (inject_Z z) == inject_Z z.
Proof.
  intros Hz. unfold Binary64.rnd.
  destruct (Qcompare (inject_Z z) 0) eqn:Hc.
  - apply Qeq_alt in Hc. lra.
  - apply Qlt_alt in Hc. change 0 with (inject_Z 0) in Hc. rewrite <- Zlt_Qlt in Hc.
    assert (E : - inject_Z z == inject_Z (- z)) by (rewrite inject_Z_opp; reflexivity).
    assert (H : Binary64.rnd_abs (inject_Z (- z)) == inject_Z (- z)) by (apply rnd_abs_exact; lia).
    assert (C : Binary64.rnd_abs (- inject_Z z) == Binary64.rnd_abs (inject_Z (- z))).
    { apply Qle_antisym; apply rnd_abs_mono; try lra;
        change 0 with (inject_Z 0); rewrite E || idtac; try (rewrite <- Zlt_Qlt; lia). }
    lra.
  - apply Qgt_alt in Hc. change 0 with (inject_Z 0) in Hc. rewrite <- Zlt_Qlt in Hc.
    apply rnd_abs_exact. lia.
Qed.

(** What the percentile index needs of a rounding: it keeps the order and
    it leaves the integers up to 2^53 as they are. *)
Section Rounding.
Variable rnd : f64 -> f64.
Hypothesis rnd_le : forall x y, x <= y -> rnd x <= rnd y.
Hypothesis rnd_int :
  forall z : Z, (Z.abs z <= 2 ^ 53)%Z -> rnd (inject_Z z) == inject_Z z.

Lemma rnd_comp (x y : Q) : x == y -> rnd x == rnd y.
Proof.
  intros E. apply Qle_antisym; apply rnd_le; rewrite E; apply Qle_refl.
Qed.

Lemma rnd_of_int (x : Q) (z : Z) :
  (Z.abs z <= 2 ^ 53)%Z -> x == inject_Z z -> rnd x == inject_Z z.
Proof.
  intros Hz E. rewrite (rnd_comp _ _ E). apply rnd_int. exact Hz.
Qed.

Lemma as_usize_round_comp (x y : Q) :
  x == y -> as_usize (round x) = as_usize (round y).
Proof.
  intros E. unfold as_usize, round.
  assert (Eb : Qle_bool 0 x = Qle_bool 0 y).
  { destruct (Qle_bool 0 x) eqn:Ex, (Qle_bool 0 y) eqn:Ey; try reflexivity.
    - apply Qle_bool_iff in Ex. rewrite E in Ex. apply Qle_bool_iff in Ex. congruence.
    - apply Qle_bool_iff in Ey. rewrite <- E in Ey. apply Qle_bool_iff in Ey. congruence. }
  rewrite Eb. destruct (Qle_bool 0 y).
  - rewrite (Qfloor_comp (x + (1 # 2)) (y + (1 # 2))) by (rewrite E; reflexivity).
    reflexivity.
  - rewrite (Qceiling_comp (x - (1 # 2)) (y - (1 # 2))) by (rewrite E; reflexivity).
    reflexivity.
Qed.

Lemma as_usize_round_int (k : nat) :
  (Z.of_nat k <= usize_MAX)%Z -> as_usize (round (inject_Z (Z.of_nat k))) = k.
Proof.
  intros Hk.
  assert (Hk0 : 0 <= inject_Z (Z.of_nat k)).
  { change 0 with (inject_Z 0). rewrite <- Zle_Qle. lia. }
  rewrite as_usize_round_nonneg by exact Hk0.
  rewrite (Qfloor_unique _ (Z.of_nat k)).
  - lia.
  - lra.
  - rewrite inject_Z_plus. change (inject_Z 1) with 1. lra.
Qed.

Lemma as_usize_round_le (x : Q) (k : nat) :
  0 <= x -> x <= inject_Z (Z.of_nat k) -> (as_usize (round x) <= k)%nat.
Proof.
  intros H0 Hk. rewrite as_usize_round_nonneg by exact H0.
  assert (Hfl : (Qfloor (x + (1 # 2)) <= Z.of_nat k)%Z).
  { rewrite <- (Qfloor_unique (inject_Z (Z.of_nat k) + (1 # 2)) (Z.of_nat k)).
    - apply Qfloor_resp_le. lra.
    - lra.
    - rewrite inject_Z_plus. change (inject_Z 1) with 1. lra. }
  lia.
Qed.

(** At p = 100 the rounded index is the last one. *)
Lemma rounded_index_top (k : nat) :
  (Z.of_nat k <= 2 ^ 53)%Z ->
  as_usize (round (rnd (rnd (100 / 100) * rnd (inject_Z (Z.of_nat k))))) = k.
Proof.
  intros Hk.
  assert (H1 : rnd (100 / 100) == inject_Z 1) by (apply rnd_of_int; [lia | reflexivity]).
  assert (Hn : rnd (inject_Z (Z.of_nat k)) == inject_Z (Z.of_nat k))
    by (apply rnd_of_int; [lia | reflexivity]).
  assert (Hp : rnd (rnd (100 / 100) * rnd (inject_Z (Z.of_nat k)))
               == inject_Z (Z.of_nat k)).
  { apply rnd_of_int; [lia|]. rewrite H1, Hn. change (inject_Z 1) with 1. ring. }
  rewrite (as_usize_round_comp _ _ Hp). apply as_usize_round_int.
  unfold usize_MAX. lia.
Qed.

(** At p = 0 it is the first one. *)
Lemma rounded_index_bottom (k : nat) :
  (Z.of_nat k <= 2 ^ 53)%Z ->
  as_usize (round (rnd (rnd (0 / 100) * rnd (inject_Z (Z.of_nat k))))) = 0%nat.
Proof.
  intros Hk.
  assert (H0 : rnd (0 / 100) == inject_Z 0) by (apply rnd_of_int; [lia | reflexivity]).
  assert (Hp : rnd (rnd (0 / 100) * rnd (inject_Z (Z.of_nat k))) == inject_Z 0).
  { apply rnd_of_int; [lia|]. rewrite H0. change (inject_Z 0) with 0. ring. }
  rewrite (as_usize_round_comp _ _ Hp). apply (as_usize_round_int 0).
  unfold usize_MAX. lia.
Qed.

(** For p in [0,100] it is an index of the vector. *)
Lemma rounded_index_bound (p : f64) (k : nat) :
  0 <= p -> p <= 100 -> (Z.of_nat k <= 2 ^ 53)%Z ->
  (as_usize (round (rnd (rnd (p / 100) * rnd (inject_Z (Z.of_nat k))))) <= k)%nat.
Proof.
  intros Hp0 Hp1 Hk.
  assert (Hk0 : 0 <= inject_Z (Z.of_nat k)).
  { change 0 with (inject_Z 0). rewrite <- Zle_Qle. lia. }
  assert (Hn : rnd (inject_Z (Z.of_nat k)) == inject_Z (Z.of_nat k))
    by (apply rnd_int; lia).
  assert (E0 : rnd 0 == 0) by (apply (rnd_int 0%Z); lia).
  assert (E1 : rnd 1 == 1) by (apply (rnd_int 1%Z); lia).
  assert (Hq0 : 0 <= rnd (p / 100)).
  { rewrite <- E0. apply rnd_le. apply Qle_shift_div_l; lra. }
  assert (Hq1 : rnd (p / 100) <= 1).
  { rewrite <- E1. apply rnd_le. apply Qle_shift_div_r; lra. }
  set (n := inject_Z (Z.of_nat k)) in *.
  apply as_usize_round_le.
  - rewrite <- E0. apply rnd_le. rewrite Hn. nra.
  - apply Qle_trans with (rnd n); [apply rnd_le; rewrite Hn; nra|].
    rewrite Hn. apply Qle_refl.
Qed.

End Rounding.

(** Any function that reads the buffer the way the two percentile methods
    do is the nearest-rank percentile. *)
Lemma nearest_rank_of_sort (buf : list f64) (pct : f64 -> option f64) :
  (forall p,
      pct p = match buf with
              | [] => Some 0
              | _ =>
                  nth_error (sort buf)
                    (as_usize (round (Binary64.rnd
                       (Binary64.rnd (p / 100)
                        * Binary64.rnd
                            (inject_Z (Z.of_nat (length (sort buf) - 1)))))))
              end) ->
  nearest_rank buf pct.
Proof.
  intros Hpct. split.
  - intros -> p. apply Hpct.
  - intros Hne.
    assert (Hsl : length (sort buf) = length buf)
      by apply Permutation_length, sort_perm.
    assert (Hread : forall p,
      pct p = nth_error (sort buf) (nearest_rank_index p (length buf))).
    { intros p. rewrite Hpct, Hsl. destruct buf; [contradiction | reflexivity]. }
    assert (Hpos : (0 < length buf)%nat) by (destruct buf; simpl; [contradiction | lia]).
    assert (Hin : forall v i, nth_error (sort buf) i = Some v -> In v buf).
    { intros v i Hv. apply (Permutation_in _ (sort_perm buf)).
      eapply nth_error_In; eassumption. }
    assert (Hsome : forall i, (i <= length buf - 1)%nat ->
              exists v, nth_error (sort buf) i = Some v).
    { intros i Hi. destruct (nth_error (sort buf) i) as [v|] eqn:E; [eauto|].
      apply nth_error_None in E. lia. }
    exists (sort buf). split; [apply sort_perm|].
    split; [apply sort_sorted|]. split; [exact Hread|].
    intros Hlen.
    assert (Hk : (Z.of_nat (length buf - 1) <= 2 ^ 53)%Z) by lia.
    split; [|split].
    + intros p Hp0 Hp1.
      destruct (Hsome _ (rounded_index_bound Binary64.rnd rnd_mono rnd_exact_int
                           p (length buf - 1) Hp0 Hp1 Hk)) as [v Hv].
      exists v. rewrite Hread. split; [exact Hv | eapply Hin; exact Hv].
    + destruct (Hsome (length buf - 1)%nat (le_n _)) as [M HM].
      exists M. rewrite Hread. unfold nearest_rank_index.
      rewrite (rounded_index_top Binary64.rnd rnd_mono rnd_exact_int _ Hk).
      split; [exact HM|]. split; [exists M; split; [eapply Hin; exact HM | reflexivity]|].
      intros x Hx. apply (Permutation_in _ (Permutation_sym (sort_perm buf))) in Hx.
      destruct (In_nth_error _ _ Hx) as [i Hi].
      apply (sorted_nth_le _ (sort_sorted buf) i (length buf - 1)); [|exact Hi|exact HM].
      assert (i < length (sort buf))%nat by (apply nth_error_Some; congruence). lia.
    + destruct (Hsome 0%nat (Nat.le_0_l _)) as [m Hm].
      exists m. rewrite Hread. unfold nearest_rank_index.
      rewrite (rounded_index_bottom Binary64.rnd rnd_mono rnd_exact_int _ Hk).
      split; [exact Hm|]. split; [exists m; split; [eapply Hin; exact Hm | reflexivity]|].
      intros x Hx. apply (Permutation_in _ (Permutation_sym (sort_perm buf))) in Hx.
      destruct (In_nth_error _ _ Hx) as [i Hi].
      apply (sorted_nth_le _ (sort_sorted buf) 0 i); [lia|exact Hm|exact Hi].
Qed.

(** Twenty-six samples and p = 58: the exact product 0.58 * 25 is 14.5,
    which [f64::round] takes to 15; the binary64 quotient 58/100 lies below
    0.58 and the binary64 product below 14.5, so the index is 14. *)
Example nearest_rank_index_58_of_26 :
  nearest_rank_index 58 26 = 14%nat
  /\ as_usize (round (58 / 100 * inject_Z (Z.of_nat (26 - 1)))) = 15%nat.
Proof. split; vm_compute; reflexivity. Qed.

(** At p = 95, the percentile [calculate_profile] asks for, the binary64
    index is the exact one for every buffer of up to 1000 samples (the
    monitor's tracker holds 300): there the exact-rational methods and the
    binary64 ones read the same sample. *)
Lemma nearest_rank_index_95 (n : nat) :
  (n <= 1000)%nat ->
  nearest_rank_index 95 n
  = as_usize (round (95 / 100 * inject_Z (Z.of_nat (n - 1)))).
Proof.
  intros Hn.
  assert (Hall : forallb
            (fun n => nearest_rank_index 95 n
                      =? as_usize (round (95 / 100 * inject_Z (Z.of_nat (n - 1)))))%nat
            (seq 0 1001) = true) by (vm_compute; reflexivity).
  rewrite forallb_forall in Hall.
  apply Nat.eqb_eq, Hall, in_seq. lia.
Qed.

Lemma percentile_95_binary64 (self : FrameTimeTracker.t) :
  (length (FrameTimeTracker.frame_times self) <= 1000)%nat ->
  Binary64.percentile_frame_time self 95
  = FrameTimeTracker.percentile_frame_time self 95.
Proof.
  intros Hlen.
  unfold Binary64.percentile_frame_time, FrameTimeTracker.percentile_frame_time.
  destruct (FrameTimeTracker.frame_times self) as [|x l] eqn:E; [reflexivity|].
  cbv zeta.
  assert (Hsl : length (sort (x :: l)) = length (x :: l))
    by apply Permutation_length, sort_perm.
  pose proof (nearest_rank_index_95 (length (sort (x :: l)))) as H.
  unfold nearest_rank_index in H. rewrite H by (rewrite Hsl; exact Hlen).
  reflexivity.
Qed.

(** C6.  [percentile_frame_time] and [percentile_latency] are the
    nearest-rank percentile of their buffer: 0 on an empty buffer; on a
    non-empty one the element of the ascending sorted copy at index
    round(p/100 * (n-1)), computed in binary64 as the code computes it.
    For a buffer of at most 2^53 samples that is, for p in [0,100], an
    element of the buffer, for p = 100 a maximum of the buffer and for
    p = 0 a minimum. *)
Theorem percentile_nearest_rank :
  (forall self : FrameTimeTracker.t,
      nearest_rank (FrameTimeTracker.frame_times self)
        (Binary64.percentile_frame_time self))
  /\ (forall self : LatencyTracker.t,
      nearest_rank (LatencyTracker.ping_history self)
        (Binary64.percentile_latency self)).
Proof.
  split; intros self; apply nearest_rank_of_sort; intros p.
  - unfold Binary64.percentile_frame_time.
    destruct (FrameTimeTracker.frame_times self); reflexivity.
  - unfold Binary64.percentile_latency.
    destruct (LatencyTracker.ping_history self); reflexivity.
Qed.

Lemma percentile_nearest_rank_witness :
  exists M,
    Binary64.percentile_frame_time
      (FrameTimeTracker.mk [30; 10; 20] 300 0%Z 0%Z (from_millis 500) 0%Z 0) 100
    = Some M
    /\ is_max M [30; 10; 20].
Proof.
  destruct (proj1 percentile_nearest_rank
              (FrameTimeTracker.mk [30; 10; 20] 300 0%Z 0%Z (from_millis 500) 0%Z 0))
    as [_ Hne].
  destruct Hne as (sorted & _ & _ & _ & Hbounded).
  - simpl. discriminate.
  - destruct Hbounded as (_ & Hmax & _).
    + simpl. lia.
    + exact Hmax.
Defined.

(** ** The sampling gate of [PerformanceMonitor] *)

Lemma step_history (self : PerformanceMonitor.t) (c : call) :
  (length (PerformanceMonitor.history self)
   <= PerformanceMonitor.max_history self)%nat ->
  PerformanceMonitor.max_history (step self c) = PerformanceMonitor.max_history self
  /\ (length (PerformanceMonitor.history (step self c))
      <= PerformanceMonitor.max_history self)%nat.
Proof.
  intros Hlen. destruct c as [now| |cpu mem now1 millis now2|gid]; simpl;
    try (split; [reflexivity | exact Hlen]).
  unfold PerformanceMonitor.sample_with.
  destruct (_ <? _)%Z; simpl; [split; [reflexivity | exact Hlen]|].
  split; [reflexivity|].
  apply (push_bounded_length (PerformanceMonitor.max_history self)). exact Hlen.
Qed.

Lemma run_history (calls : list call) :
  forall self : PerformanceMonitor.t,
    (length (PerformanceMonitor.history self)
     <= PerformanceMonitor.max_history self)%nat ->
    PerformanceMonitor.max_history (run self calls)
    = PerformanceMonitor.max_history self
    /\ (length (PerformanceMonitor.history (run self calls))
        <= PerformanceMonitor.max_history self)%nat.
Proof.
  unfold run. induction calls as [|c calls IH]; intros self Hlen; simpl.
  - split; [reflexivity | exact Hlen].
  - destruct (step_history self c Hlen) as [Hcap Hlen'].
    rewrite <- Hcap in Hlen' |- *. apply IH. exact Hlen'.
Qed.

(** C5.  [sample] returns no snapshot and leaves the monitor as it was
    when less than [sampling_rate] has elapsed since [last_sample]; otherwise
    it returns a snapshot, pushes exactly that snapshot on the history
    (evicting the oldest entry when the history would exceed [max_history])
    and records the time of the sample in [last_sample], which no other call
    changes; and after any sequence of calls on a new monitor the history is
    no longer than [max_history]. *)
Theorem sample_gate_and_history :
  (forall cpu mem (self : PerformanceMonitor.t) now1 millis now2,
      (duration_since now1 (PerformanceMonitor.last_sample self)
       < PerformanceMonitor.sampling_rate self)%Z ->
      PerformanceMonitor.sample_with cpu mem self now1 millis now2 = (None, self))
  /\ (forall cpu mem (self : PerformanceMonitor.t) now1 millis now2,
      (PerformanceMonitor.sampling_rate self
       <= duration_since now1 (PerformanceMonitor.last_sample self))%Z ->
      let r := PerformanceMonitor.sample_with cpu mem self now1 millis now2 in
      exists snap,
        fst r = Some snap
        /\ PerformanceMonitor.history (snd r)
           = push_bounded (PerformanceMonitor.max_history self)
               (PerformanceMonitor.history self) snap
        /\ ((length (PerformanceMonitor.history self)
             < PerformanceMonitor.max_history self)%nat ->
            PerformanceMonitor.history (snd r)
            = PerformanceMonitor.history self ++ [snap])
        /\ ((length (PerformanceMonitor.history self)
             = PerformanceMonitor.max_history self)%nat ->
            PerformanceMonitor.history (snd r)
            = tl (PerformanceMonitor.history self ++ [snap]))
        /\ PerformanceMonitor.last_sample (snd r) = now2)
  /\ (forall (self : PerformanceMonitor.t) c,
      (forall cpu mem now1 millis now2, c <> Sample cpu mem now1 millis now2) ->
      PerformanceMonitor.last_sample (step self c)
      = PerformanceMonitor.last_sample self)
  /\ (forall rate_ms M now1 now2 now3 calls,
      (length (PerformanceMonitor.history
                 (run (PerformanceMonitor.new rate_ms M now1 now2 now3) calls))
       <= M)%nat).
Proof.
  split; [|split; [|split]].
  - intros cpu mem self now1 millis now2 Hgate.
    unfold PerformanceMonitor.sample_with.
    apply Z.ltb_lt in Hgate. rewrite Hgate. reflexivity.
  - intros cpu mem self now1 millis now2 Hgate r. subst r.
    unfold PerformanceMonitor.sample_with.
    apply Z.ltb_ge in Hgate. rewrite Hgate. cbn [fst snd].
    eexists. split; [reflexivity|].
    cbn [PerformanceMonitor.history PerformanceMonitor.last_sample].
    split; [reflexivity|]. split; [|split; [|reflexivity]].
    + intros Hroom. unfold push. rewrite length_app. simpl length.
      destruct (Nat.ltb_spec (PerformanceMonitor.max_history self)
                  (length (PerformanceMonitor.history self) + 1));
        [lia | reflexivity].
    + intros Hfull. unfold push, remove_first. rewrite length_app. simpl length.
      destruct (Nat.ltb_spec (PerformanceMonitor.max_history self)
                  (length (PerformanceMonitor.history self) + 1));
        [reflexivity | lia].
  - intros self c Hc. destruct c as [now| |cpu mem now1 millis now2|gid];
      try reflexivity.
    exfalso. eapply Hc. reflexivity.
  - intros rate_ms M now1 now2 now3 calls.
    apply (run_history calls (PerformanceMonitor.new rate_ms M now1 now2 now3)).
    simpl. lia.
Qed.

Lemma sample_gate_and_history_witness :
  let self := PerformanceMonitor.new 100 5 0%Z 0%Z 0%Z in
  PerformanceMonitor.sample self (from_millis 50) 50%Z (from_millis 50) = (None, self)
  /\ exists snap,
       fst (PerformanceMonitor.sample self (from_millis 100) 100%Z (from_millis 100))
       = Some snap
       /\ PerformanceMonitor.history
            (snd (PerformanceMonitor.sample self (from_millis 100) 100%Z (from_millis 100)))
          = [snap].
Proof.
  intros self. split.
  - apply (proj1 sample_gate_and_history). vm_compute. reflexivity.
  - destruct (proj1 (proj2 sample_gate_and_history)
                sample_cpu_usage sample_memory_usage self
                (from_millis 100) 100%Z (from_millis 100))
      as (snap & Hres & _ & Hpush & _).
    + vm_compute. discriminate.
    + exists snap. split; [exact Hres|]. apply Hpush. simpl. lia.
Defined.

(** C7.  In a sample that passes the gate, a probe with no data leaves its
    field of the snapshot at the value the metrics held before the call;
    the timestamp, frame rate and frame time are set from the clock and the
    frame tracker and the remaining fields are kept, whatever the probes
    answer; the snapshot becomes the stored metrics. *)
Theorem sample_retains_on_missing_probe
    (cpu mem : option f64) (self : PerformanceMonitor.t)
    (now1 : Instant) (millis : Z) (now2 : Instant) (snap : PerformanceMetrics) :
  fst (PerformanceMonitor.sample_with cpu mem self now1 millis now2) = Some snap ->
  let old := PerformanceMonitor.metrics self in
  (cpu = None -> cpu_usage snap = cpu_usage old)
  /\ (mem = None -> memory_usage snap = memory_usage old)
  /\ (forall c, cpu = Some c -> cpu_usage snap = c)
  /\ (forall x, mem = Some x -> memory_usage snap = x)
  /\ (forall cpu' mem',
        exists snap',
          fst (PerformanceMonitor.sample_with cpu' mem' self now1 millis now2)
          = Some snap'
          /\ timestamp snap' = timestamp snap
          /\ gpu_usage snap' = gpu_usage snap
          /\ frame_rate snap' = frame_rate snap
          /\ frame_time_ms snap' = frame_time_ms snap
          /\ render_time_ms snap' = render_time_ms snap
          /\ update_time_ms snap' = update_time_ms snap
          /\ input_latency_ms snap' = input_latency_ms snap
          /\ network_latency_ms snap' = network_latency_ms snap
          /\ (cpu' = cpu -> cpu_usage snap' = cpu_usage snap)
          /\ (mem' = mem -> memory_usage snap' = memory_usage snap))
  /\ timestamp snap = millis
  /\ frame_rate snap
     = FrameTimeTracker.current_fps (PerformanceMonitor.frame_tracker self)
  /\ frame_time_ms snap
     = FrameTimeTracker.average_frame_time (PerformanceMonitor.frame_tracker self)
  /\ gpu_usage snap = gpu_usage old
  /\ render_time_ms snap = render_time_ms old
  /\ update_time_ms snap = update_time_ms old
  /\ input_latency_ms snap = input_latency_ms old
  /\ network_latency_ms snap = network_latency_ms old
  /\ PerformanceMonitor.metrics
       (snd (PerformanceMonitor.sample_with cpu mem self now1 millis now2))
     = snap.
Proof.
  unfold PerformanceMonitor.sample_with.
  destruct (_ <? _)%Z; cbn [fst snd]; [discriminate|].
  intros [= <-]. cbn.
  repeat match goal with |- _ /\ _ => split end; try reflexivity.
  - intros ->. reflexivity.
  - intros ->. reflexivity.
  - intros c ->. reflexivity.
  - intros x ->. reflexivity.
  - intros cpu' mem'. eexists. split; [reflexivity|]. cbn.
    repeat match goal with |- _ /\ _ => split end; try reflexivity.
    + intros ->. reflexivity.
    + intros ->. reflexivity.
Qed.

Lemma sample_retains_on_missing_probe_witness :
  let self :=
    PerformanceMonitor.with_metrics (PerformanceMonitor.new 100 5 0%Z 0%Z 0%Z)
      (mkMetrics 7 45 60 10 0 0 0 0 0 0) in
  exists snap,
    fst (PerformanceMonitor.sample_with None None self
           (from_millis 100) 107%Z (from_millis 100)) = Some snap
    /\ cpu_usage snap = 45 /\ memory_usage snap = 60 /\ timestamp snap = 107%Z.
Proof.
  intros self. eexists. split; [reflexivity|].
  pose proof (sample_retains_on_missing_probe None None self
                (from_millis 100) 107%Z (from_millis 100) _ eq_refl) as H.
  cbv zeta in H.
  destruct H as (Hcpu & Hmem & _ & _ & _ & Hts & _).
  split; [exact (Hcpu eq_refl)|]. split; [exact (Hmem eq_refl) | exact Hts].
Defined.

(** ** The frame-time range of a profile *)

Lemma Qmin_cases (a x : Q) : Qmin a x = a \/ Qmin a x = x.
Proof.
  unfold Qmin, GenericMinMax.gmin. destruct (a ?= x); auto.
Qed.

Lemma Qmax_cases (a x : Q) : Qmax a x = a \/ Qmax a x = x.
Proof.
  unfold Qmax, GenericMinMax.gmax. destruct (a ?= x); auto.
Qed.

Lemma fold_min_spec (l : list f64) :
  forall a : f64,
    let r := fold_left Qmin l a in
    (r = a \/ In r l) /\ r <= a /\ forall x, In x l -> r <= x.
Proof.
  induction l as [|y l IH]; intros a; simpl.
  - split; [auto|]. split; [apply Qle_refl | intros x []].
  - destruct (IH (Qmin a y)) as (Hin & Hle & Hall).
    pose proof (Q.le_min_l a y) as Hl. pose proof (Q.le_min_r a y) as Hr.
    split; [|split].
    + destruct Hin as [->|Hin]; [|auto].
      destruct (Qmin_cases a y) as [->| ->]; auto.
    + eapply Qle_trans; eassumption.
    + intros x [<-|Hx]; [eapply Qle_trans; eassumption | auto].
Qed.

Lemma fold_max_spec (l : list f64) :
  forall a : f64,
    let r := fold_left Qmax l a in
    (r = a \/ In r l) /\ a <= r /\ forall x, In x l -> x <= r.
Proof.
  induction l as [|y l IH]; intros a; simpl.
  - split; [auto|]. split; [apply Qle_refl | intros x []].
  - destruct (IH (Qmax a y)) as (Hin & Hle & Hall).
    pose proof (Q.le_max_l a y) as Hl. pose proof (Q.le_max_r a y) as Hr.
    split; [|split].
    + destruct Hin as [->|Hin]; [|auto].
      destruct (Qmax_cases a y) as [->| ->]; auto.
    + eapply Qle_trans; eassumption.
    + intros x [<-|Hx]; [eapply Qle_trans; eassumption | auto].
Qed.

Lemma ltb_lt (x y : Q) : ltb x y = true <-> x < y.
Proof.
  unfold ltb. rewrite negb_true_iff. split.
  - intros E. apply Qnot_le_lt. intros H. apply Qle_bool_iff in H. congruence.
  - intros H. destruct (Qle_bool y x) eqn:E; [|reflexivity].
    apply Qle_bool_iff in E. lra.
Qed.

Lemma ltb_ge (x y : Q) : ltb x y = false <-> y <= x.
Proof.
  unfold ltb. rewrite negb_false_iff. apply Qle_bool_iff.
Qed.

Lemma geb_le (x y : Q) : geb x y = true <-> y <= x.
Proof. unfold geb. apply Qle_bool_iff. Qed.

Lemma geb_lt (x y : Q) : geb x y = false <-> x < y.
Proof.
  unfold geb. split.
  - intros E. apply Qnot_le_lt. intros H. apply Qle_bool_iff in H. congruence.
  - intros H. destruct (Qle_bool y x) eqn:E; [|reflexivity].
    apply Qle_bool_iff in E. lra.
Qed.

Lemma f64_MIN_negative : f64_MIN < 0.
Proof. reflexivity. Qed.

Lemma percentile_95_total (self : FrameTimeTracker.t) :
  exists v, FrameTimeTracker.percentile_frame_time self 95 = Some v.
Proof.
  unfold FrameTimeTracker.percentile_frame_time.
  destruct (FrameTimeTracker.frame_times self) as [|x l] eqn:E; [eauto|].
  rewrite <- E.
  match goal with
  | |- exists v, nth_error ?s ?i = Some v =>
      destruct (nth_error s i) as [v|] eqn:Hn; [eauto|]
  end.
  apply nth_error_None in Hn.
  pose proof (rank_index_bound 95
                (length (sort (FrameTimeTracker.frame_times self)) - 1)) as Hb.
  assert (Hlen : length (sort (FrameTimeTracker.frame_times self))
                 = length (FrameTimeTracker.frame_times self))
    by apply Permutation_length, sort_perm.
  rewrite E in Hlen at 2. simpl in Hlen.
  assert (H0 : 0 <= 95) by lra. assert (H1 : 95 <= 100) by lra.
  specialize (Hb H0 H1). lia.
Qed.

Lemma positive_frame_times_spec (self : PerformanceMonitor.t) (x : f64) :
  In x (PerformanceMonitor.positive_frame_times self)
  <-> exists m, In m (PerformanceMonitor.history self)
                /\ frame_time_ms m = x /\ 0 < x.
Proof.
  unfold PerformanceMonitor.positive_frame_times.
  rewrite filter_In, in_map_iff, ltb_lt. split.
  - intros [(m & Hm & Hin) Hpos]. eauto.
  - intros (m & Hin & Hm & Hpos). eauto.
Qed.

(** C10.  [calculate_profile] returns a profile whose [min_frame_time] and
    [max_frame_time] are a least and a greatest element of the frame times
    of the history snapshots that are strictly positive, and 0 when there
    is none; the call leaves the monitor as it was.  The frame times of the
    history are taken to be values of an [f64], at most [f64::MAX]. *)
Theorem calculate_profile_frame_time_range
    (self : PerformanceMonitor.t) (gid : String.string) :
  (forall m, In m (PerformanceMonitor.history self) -> frame_time_ms m <= f64_MAX) ->
  exists p,
    PerformanceMonitor.calculate_profile self gid = Some p
    /\ (forall x,
          In x (PerformanceMonitor.positive_frame_times self)
          <-> exists m, In m (PerformanceMonitor.history self)
                        /\ frame_time_ms m = x /\ 0 < x)
    /\ (PerformanceMonitor.positive_frame_times self = [] ->
        min_frame_time p = 0 /\ max_frame_time p = 0)
    /\ (PerformanceMonitor.positive_frame_times self <> [] ->
        is_min (min_frame_time p) (PerformanceMonitor.positive_frame_times self)
        /\ is_max (max_frame_time p) (PerformanceMonitor.positive_frame_times self))
    /\ step self (CalculateProfile gid) = self.
Proof.
  intros Hfin.
  unfold PerformanceMonitor.calculate_profile.
  destruct (percentile_95_total (PerformanceMonitor.frame_tracker self)) as [v ->].
  eexists. split; [reflexivity|].
  cbn [min_frame_time max_frame_time].
  split; [apply positive_frame_times_spec|].
  split; [intros ->; split; reflexivity|].
  split; [|reflexivity].
  intros Hne.
  assert (Hbound : forall x, In x (PerformanceMonitor.positive_frame_times self) ->
                     0 < x /\ x <= f64_MAX).
  { intros x Hx. apply positive_frame_times_spec in Hx.
    destruct Hx as (m & Hin & <- & Hpos). split; [exact Hpos | auto]. }
  destruct (PerformanceMonitor.positive_frame_times self) as [|y l] eqn:E;
    [contradiction|].
  rewrite <- E in *.
  assert (Hy : In y (PerformanceMonitor.positive_frame_times self))
    by (rewrite E; left; reflexivity).
  destruct (Hbound y Hy) as [Hy0 Hy1].
  split.
  - destruct (fold_min_spec (PerformanceMonitor.positive_frame_times self) f64_MAX)
      as (Hin & Hle & Hall).
    split; [|exact Hall].
    destruct Hin as [Heq|Hin]; [|eexists; split; [exact Hin | reflexivity]].
    exists y. split; [exact Hy|]. rewrite Heq.
    apply Qle_antisym; [exact Hy1|]. rewrite <- Heq. apply Hall. exact Hy.
  - destruct (fold_max_spec (PerformanceMonitor.positive_frame_times self) f64_MIN)
      as (Hin & Hle & Hall).
    split; [|exact Hall].
    destruct Hin as [Heq|Hin]; [|eexists; split; [exact Hin | reflexivity]].
    exfalso. specialize (Hall y Hy). rewrite Heq in Hall.
    pose proof f64_MIN_negative. lra.
Qed.

Lemma calculate_profile_frame_time_range_witness :
  let snap (t : f64) := mkMetrics 0 45 60 0 60 t 0 0 0 0 in
  let self :=
    PerformanceMonitor.mk PerformanceMetrics_default
      (FrameTimeTracker.new 300 0%Z 0%Z) (from_millis 100) 0%Z
      [snap 0; snap 20; snap 16; snap 0; snap 33] 5 in
  exists p,
    PerformanceMonitor.calculate_profile self String.EmptyString = Some p
    /\ is_min (min_frame_time p) [20; 16; 33]
    /\ is_max (max_frame_time p) [20; 16; 33].
Proof.
  intros snap self.
  destruct (calculate_profile_frame_time_range self String.EmptyString)
    as (p & Hp & _ & _ & Hrange & _).
  - intros m Hin. simpl in Hin.
    assert (Hle : 33 <= f64_MAX) by (vm_compute; discriminate).
    decompose [or] Hin; subst; try contradiction; cbn [frame_time_ms snap]; lra.
  - exists p. split; [exact Hp|]. apply Hrange. vm_compute. discriminate.
Defined.

(** ** Score arithmetic *)

Lemma u8_wrap_small (z : Z) : (0 <= z < 256)%Z -> u8_wrap z = z.
Proof. intros H. unfold u8_wrap. apply Z.mod_small. exact H. Qed.

Lemma as_u8_inject (n : Z) : (0 <= n <= 255)%Z -> as_u8 (inject_Z n) = n.
Proof. intros H. rewrite as_u8_floor, Qfloor_Z. lia. Qed.

Lemma as_u8_le_bound (x : Q) (n : Z) :
  x <= inject_Z n -> (0 <= n <= 255)%Z -> (as_u8 x <= n)%Z.
Proof.
  intros Hx Hn. rewrite <- (as_u8_inject n Hn). apply as_u8_mono. exact Hx.
Qed.

Lemma as_u8_below_one (x : Q) : x < 1 -> as_u8 x = 0%Z.
Proof.
  intros Hx. rewrite as_u8_floor.
  pose proof (Qfloor_le x) as Hf.
  assert (H : inject_Z (Qfloor x) < inject_Z 1) by (change (inject_Z 1) with 1; lra).
  rewrite <- Zlt_Qlt in H. lia.
Qed.

(** Bounds and monotonicity of [a / b * k], the shape of every branch
    formula of the scores. *)
Lemma div_mul_le (a b k c : Q) :
  0 < b -> a * k <= c * b -> a / b * k <= c.
Proof.
  intros Hb H.
  assert (E : a / b * k == a * k / b) by (field; lra).
  rewrite E. apply Qle_shift_div_r; assumption.
Qed.

Lemma div_mul_ge (a b k c : Q) :
  0 < b -> c * b <= a * k -> c <= a / b * k.
Proof.
  intros Hb H.
  assert (E : a / b * k == a * k / b) by (field; lra).
  rewrite E. apply Qle_shift_div_l; assumption.
Qed.

Lemma div_mul_lt (a b k c : Q) :
  0 < b -> a * k < c * b -> a / b * k < c.
Proof.
  intros Hb H.
  assert (E : a / b * k == a * k / b) by (field; lra).
  rewrite E. apply Qlt_shift_div_r; assumption.
Qed.

Lemma div_mul_mono (a a' b k : Q) :
  0 < b -> 0 <= k -> a <= a' -> a / b * k <= a' / b * k.
Proof.
  intros Hb Hk Ha. apply div_mul_le; [exact Hb|].
  assert (E : a' / b * k * b == a' * k) by (field; lra).
  rewrite E. nra.
Qed.

Lemma div_mul_anti (c k x y : Q) :
  0 <= c -> 0 <= k -> 0 < x -> x <= y -> c / y * k <= c / x * k.
Proof.
  intros Hc Hk Hx Hxy. apply div_mul_le; [lra|].
  assert (Hm : 0 <= c / x * k).
  { apply div_mul_ge; [exact Hx | nra]. }
  assert (E : c * k == c / x * k * x) by (field; lra).
  rewrite E. nra.
Qed.

Ltac branch b :=
  destruct b eqn:?;
  repeat match goal with
         | H : ltb _ _ = true |- _ => apply ltb_lt in H
         | H : ltb _ _ = false |- _ => apply ltb_ge in H
         | H : geb _ _ = true |- _ => apply geb_le in H
         | H : geb _ _ = false |- _ => apply geb_lt in H
         end.

Lemma fps_score_range (fps : f64) :
  (0 <= PerformanceMonitor.fps_score fps <= 40)%Z
  /\ (60 <= fps -> PerformanceMonitor.fps_score fps = 40%Z).
Proof.
  unfold PerformanceMonitor.fps_score. split.
  - branch (geb fps 60); [lia|].
    branch (geb fps 30).
    + pose proof (as_u8_range ((fps - 30) / 30 * 10)) as Hr.
      assert (Hb : (as_u8 ((fps - 30) / 30 * 10) <= 10)%Z).
      { apply as_u8_le_bound; [|lia]. apply div_mul_le; [lra|].
        change (inject_Z 10) with 10. lra. }
      rewrite u8_wrap_small; lia.
    + pose proof (as_u8_range (fps / 30 * 30)) as Hr.
      assert (Hb : (as_u8 (fps / 30 * 30) <= 30)%Z).
      { apply as_u8_le_bound; [|lia]. apply div_mul_le; [lra|].
        change (inject_Z 30) with 30. lra. }
      lia.
  - intros H. apply geb_le in H. rewrite H. reflexivity.
Qed.

Lemma stability_score_range (avg : f64) :
  (0 <= PerformanceMonitor.stability_score avg <= 30)%Z.
Proof.
  unfold PerformanceMonitor.stability_score.
  branch (ltb avg 16.67); [lia|].
  branch (ltb avg 33.33).
  - pose proof (as_u8_range ((33.33 - avg) / 16.66 * 10)) as Hr.
    assert (Hb : (as_u8 ((33.33 - avg) / 16.66 * 10) <= 10)%Z).
    { apply as_u8_le_bound; [|lia]. apply div_mul_le; [lra|].
      change (inject_Z 10) with 10. lra. }
    rewrite u8_wrap_small; lia.
  - pose proof (as_u8_range (33.33 / avg * 20)) as Hr.
    assert (Hb : (as_u8 (33.33 / avg * 20) <= 20)%Z).
    { apply as_u8_le_bound; [|lia]. apply div_mul_le; [lra|].
      change (inject_Z 20) with 20. lra. }
    lia.
Qed.

Lemma drop_penalty_value (frame_drops : nat) :
  PerformanceMonitor.drop_penalty frame_drops
  = (3 * Z.of_nat (Nat.min frame_drops 10))%Z
  /\ (PerformanceMonitor.drop_penalty frame_drops <= 30)%Z.
Proof.
  unfold PerformanceMonitor.drop_penalty.
  assert (H : (0 <= Z.of_nat (Nat.min frame_drops 10) <= 10)%Z) by lia.
  rewrite (u8_wrap_small (Z.of_nat _)) by lia.
  rewrite u8_wrap_small by lia. lia.
Qed.

(** ** [calculate_score] *)

Lemma clampZ_range (v : Z) : (0 <= clampZ 0 100 v <= 100)%Z.
Proof. unfold clampZ. lia. Qed.

(** X2.  Both builds compute the clamped formula
    [fps_score + stability_score - drop_penalty] when the penalty does not
    exceed the two sub-scores. *)
Theorem calculate_score_formula (self : PerformanceMonitor.t) :
  let f := PerformanceMonitor.fps_score
             (FrameTimeTracker.current_fps (PerformanceMonitor.frame_tracker self)) in
  let s := PerformanceMonitor.stability_score
             (FrameTimeTracker.average_frame_time (PerformanceMonitor.frame_tracker self)) in
  let d := PerformanceMonitor.drop_penalty
             (length (FrameTimeTracker.detect_frame_drops
                        (PerformanceMonitor.frame_tracker self) 33.33)) in
  (d <= f + s)%Z ->
  PerformanceMonitor.calculate_score self = clampZ 0 100 (f + s - d)
  /\ PerformanceMonitor.calculate_score_checked self = Some (clampZ 0 100 (f + s - d)).
Proof.
  intros f s d Hd.
  unfold PerformanceMonitor.calculate_score, PerformanceMonitor.calculate_score_checked.
  fold f s d.
  pose proof (proj1 (fps_score_range
    (FrameTimeTracker.current_fps (PerformanceMonitor.frame_tracker self)))) as Hf.
  pose proof (stability_score_range
    (FrameTimeTracker.average_frame_time (PerformanceMonitor.frame_tracker self))) as Hs.
  pose proof (drop_penalty_value
    (length (FrameTimeTracker.detect_frame_drops
               (PerformanceMonitor.frame_tracker self) 33.33))) as [Hd1 Hd2].
  fold f in Hf. fold s in Hs. fold d in Hd1, Hd2.
  assert (Hd0 : (0 <= d)%Z) by lia.
  split.
  - rewrite (u8_wrap_small (f + s)) by lia.
    rewrite u8_wrap_small by lia. reflexivity.
  - unfold PerformanceMonitor.checked_add, PerformanceMonitor.checked_sub, u8_MAX.
    destruct (Z.leb_spec (f + s) 255); [|lia].
    destruct (Z.leb_spec d (f + s)); [reflexivity | lia].
Qed.

(** X3.  When the penalty exceeds the two sub-scores the [u8] subtraction
    leaves the range: a debug build panics and a release build wraps to a
    value above 100, which the clamp turns into 100. *)
Theorem calculate_score_on_underflow (self : PerformanceMonitor.t) :
  let f := PerformanceMonitor.fps_score
             (FrameTimeTracker.current_fps (PerformanceMonitor.frame_tracker self)) in
  let s := PerformanceMonitor.stability_score
             (FrameTimeTracker.average_frame_time (PerformanceMonitor.frame_tracker self)) in
  let d := PerformanceMonitor.drop_penalty
             (length (FrameTimeTracker.detect_frame_drops
                        (PerformanceMonitor.frame_tracker self) 33.33)) in
  (f + s < d)%Z ->
  PerformanceMonitor.calculate_score self = 100%Z
  /\ PerformanceMonitor.calculate_score_checked self = None.
Proof.
  intros f s d Hd.
  unfold PerformanceMonitor.calculate_score, PerformanceMonitor.calculate_score_checked.
  fold f s d.
  pose proof (proj1 (fps_score_range
    (FrameTimeTracker.current_fps (PerformanceMonitor.frame_tracker self)))) as Hf.
  pose proof (stability_score_range
    (FrameTimeTracker.average_frame_time (PerformanceMonitor.frame_tracker self))) as Hs.
  pose proof (drop_penalty_value
    (length (FrameTimeTracker.detect_frame_drops
               (PerformanceMonitor.frame_tracker self) 33.33))) as [Hd1 Hd2].
  fold f in Hf. fold s in Hs. fold d in Hd1, Hd2.
  split.
  - rewrite (u8_wrap_small (f + s)) by lia.
    unfold u8_wrap, clampZ.
    replace ((f + s - d) mod 256)%Z with (f + s - d + 256)%Z.
    + lia.
    + apply Z.mod_unique with (q := (-1)%Z); lia.
  - unfold PerformanceMonitor.checked_add, PerformanceMonitor.checked_sub, u8_MAX.
    destruct (Z.leb_spec (f + s) 255); [|reflexivity].
    destruct (Z.leb_spec d (f + s)); [lia | reflexivity].
Qed.

Lemma calculate_score_formula_witness :
  let self := PerformanceMonitor.new 100 5 0 0 0 in
  PerformanceMonitor.calculate_score self = 30%Z
  /\ PerformanceMonitor.calculate_score_checked self = Some 30%Z.
Proof.
  intros self. apply (calculate_score_formula self). vm_compute. discriminate.
Defined.

Lemma calculate_score_on_underflow_witness :
  let self :=
    PerformanceMonitor.start_frame
      (PerformanceMonitor.new 100 5 0 0 0) (from_millis 3000) in
  PerformanceMonitor.calculate_score self = 100%Z
  /\ PerformanceMonitor.calculate_score_checked self = None.
Proof.
  intros self. apply (calculate_score_on_underflow self). vm_compute. reflexivity.
Defined.

(** C1.  One frame recorded two seconds after a monitor was made: the fps
    is 1/2 and the only buffered frame time 2000 ms, so the fps and
    stability sub-scores are 0 while the drop penalty is 3.  The [u8]
    expression [0 + 0 - 3] underflows before the clamp: a debug build
    panics ([None]) and a release build wraps to 253 and returns 100. *)
Theorem calculate_score_underflows_before_clamp :
  let self :=
    PerformanceMonitor.start_frame
      (PerformanceMonitor.new 100 5 0 0 0) (from_millis 2000) in
  let tracker := PerformanceMonitor.frame_tracker self in
  FrameTimeTracker.current_fps tracker == 1 # 2
  /\ FrameTimeTracker.average_frame_time tracker == 2000
  /\ FrameTimeTracker.detect_frame_drops tracker 33.33 = [0%nat]
  /\ PerformanceMonitor.fps_score (FrameTimeTracker.current_fps tracker) = 0%Z
  /\ PerformanceMonitor.stability_score
       (FrameTimeTracker.average_frame_time tracker) = 0%Z
  /\ PerformanceMonitor.drop_penalty 1 = 3%Z
  /\ PerformanceMonitor.calculate_score_checked self = None
  /\ u8_wrap (0 + 0 - 3) = 253%Z
  /\ PerformanceMonitor.calculate_score self = 100%Z.
Proof. vm_compute. repeat split. Qed.

(** C2.  Ten frames one second apart: fps 1, average frame time 1000 ms,
    ten drops.  The sub-scores are 1 and 0 and the penalty 30, so the
    clamped formula gives 0; the code computes [1 + 0 - 30] in [u8], which
    panics in a debug build and wraps to 227 in a release build, where the
    score is 100. *)
Theorem calculate_score_differs_from_formula :
  let self :=
    run (PerformanceMonitor.new 100 5 0 0 0)
      (map (fun i => StartFrame (from_millis (1000 * i)))
         [1; 2; 3; 4; 5; 6; 7; 8; 9; 10]%Z) in
  let tracker := PerformanceMonitor.frame_tracker self in
  let f := PerformanceMonitor.fps_score (FrameTimeTracker.current_fps tracker) in
  let s := PerformanceMonitor.stability_score
             (FrameTimeTracker.average_frame_time tracker) in
  let d := PerformanceMonitor.drop_penalty
             (length (FrameTimeTracker.detect_frame_drops tracker 33.33)) in
  FrameTimeTracker.current_fps tracker == 1
  /\ FrameTimeTracker.average_frame_time tracker == 1000
  /\ length (FrameTimeTracker.detect_frame_drops tracker 33.33) = 10%nat
  /\ f = 1%Z /\ s = 0%Z /\ d = 30%Z
  /\ clampZ 0 100 (f + s - d) = 0%Z
  /\ PerformanceMonitor.calculate_score self = 100%Z
  /\ PerformanceMonitor.calculate_score_checked self = None.
Proof. vm_compute. repeat split. Qed.

(** ** [quality_score] *)

Lemma as_u8_30 : inject_Z (as_u8 30) = 30.
Proof. reflexivity. Qed.

Lemma inject_Z_le (a b : Z) : (a <= b)%Z -> inject_Z a <= inject_Z b.
Proof. intros H. rewrite <- Zle_Qle. exact H. Qed.

(** The middle branch [base + (e as u8)] of a sub-score, for [e] at most 10. *)
Lemma mid_branch (base : Z) (e : Q) :
  (0 <= base <= 200)%Z -> e <= 10 ->
  (base <= u8_wrap (base + as_u8 e) <= base + 10)%Z
  /\ u8_wrap (base + as_u8 e) = (base + as_u8 e)%Z.
Proof.
  intros Hb He. pose proof (as_u8_range e) as Hr.
  assert (H10 : (as_u8 e <= 10)%Z) by (apply as_u8_le_bound; [exact He | lia]).
  rewrite u8_wrap_small by lia. lia.
Qed.

Lemma latency_score_le_40 (x : f64) : LatencyTracker.latency_score x <= 40.
Proof.
  unfold LatencyTracker.latency_score.
  branch (ltb x 50); [lra|].
  branch (ltb x 100).
  - destruct (mid_branch 30 ((100 - x) / 50 * 10)) as [[_ H] _]; [lia| |].
    + apply div_mul_le; lra.
    + apply (inject_Z_le _ 40). lia.
  - rewrite as_u8_30.
    apply Qle_trans with 20; [|lra]. apply div_mul_le; lra.
Qed.

Lemma latency_score_mono : non_increasing LatencyTracker.latency_score.
Proof.
  intros x y Hxy.
  pose proof (latency_score_le_40 y) as H40.
  unfold LatencyTracker.latency_score in *.
  branch (ltb x 50); [exact H40|]. clear H40.
  branch (ltb y 50); [lra|].
  branch (ltb x 100).
  - destruct (mid_branch 30 ((100 - x) / 50 * 10)) as [[Hx30 _] Ex]; [lia| |].
    { apply div_mul_le; lra. }
    branch (ltb y 100).
    + destruct (mid_branch 30 ((100 - y) / 50 * 10)) as [_ Ey]; [lia| |].
      { apply div_mul_le; lra. }
      apply inject_Z_le. rewrite Ex, Ey.
      apply Z.add_le_mono_l, as_u8_mono, div_mul_mono; lra.
    + rewrite as_u8_30.
      apply Qle_trans with 30.
      * apply Qle_trans with 20; [|lra]. apply div_mul_le; lra.
      * apply (inject_Z_le 30). exact Hx30.
  - branch (ltb y 100); [lra|].
    rewrite as_u8_30. apply div_mul_mono; lra.
Qed.

Lemma jitter_score_le_30 (x : f64) : (LatencyTracker.jitter_score x <= 30)%Z.
Proof.
  unfold LatencyTracker.jitter_score.
  branch (ltb x 10); [lia|].
  branch (ltb x 30).
  - destruct (mid_branch 20 ((30 - x) / 20 * 10)) as [[_ H] _]; [lia| |lia].
    apply div_mul_le; lra.
  - apply Z.le_trans with 20%Z; [|lia].
    apply as_u8_le_bound; [|lia]. apply div_mul_le; [lra|].
    change (inject_Z 20) with 20. lra.
Qed.

Lemma jitter_score_mono :
  non_increasing (fun x => inject_Z (LatencyTracker.jitter_score x)).
Proof.
  intros x y Hxy. apply inject_Z_le.
  pose proof (jitter_score_le_30 y) as H30.
  unfold LatencyTracker.jitter_score in *.
  branch (ltb x 10); [exact H30|]. clear H30.
  branch (ltb y 10); [lra|].
  branch (ltb x 30).
  - destruct (mid_branch 20 ((30 - x) / 20 * 10)) as [[Hx20 _] Ex]; [lia| |].
    { apply div_mul_le; lra. }
    branch (ltb y 30).
    + destruct (mid_branch 20 ((30 - y) / 20 * 10)) as [_ Ey]; [lia| |].
      { apply div_mul_le; lra. }
      rewrite Ex, Ey.
      apply Z.add_le_mono_l, as_u8_mono, div_mul_mono; lra.
    + apply Z.le_trans with 20%Z; [|exact Hx20].
      apply as_u8_le_bound; [|lia]. apply div_mul_le; [lra|].
      change (inject_Z 20) with 20. lra.
  - branch (ltb y 30); [lra|].
    apply as_u8_mono, div_mul_anti; lra.
Qed.

Lemma loss_score_le_30 (x : f64) : (LatencyTracker.loss_score x <= 30)%Z.
Proof.
  unfold LatencyTracker.loss_score.
  branch (ltb x 1); [lia|].
  branch (ltb x 5).
  - destruct (mid_branch 20 ((5 - x) / 4 * 10)) as [[_ H] _]; [lia| |lia].
    apply div_mul_le; lra.
  - apply Z.le_trans with 20%Z; [|lia].
    apply as_u8_le_bound; [|lia]. apply div_mul_le; [lra|].
    change (inject_Z 20) with 20. lra.
Qed.

Lemma loss_score_mono :
  non_increasing (fun x => inject_Z (LatencyTracker.loss_score x)).
Proof.
  intros x y Hxy. apply inject_Z_le.
  pose proof (loss_score_le_30 y) as H30.
  unfold LatencyTracker.loss_score in *.
  branch (ltb x 1); [exact H30|]. clear H30.
  branch (ltb y 1); [lra|].
  branch (ltb x 5).
  - destruct (mid_branch 20 ((5 - x) / 4 * 10)) as [[Hx20 _] Ex]; [lia| |].
    { apply div_mul_le; lra. }
    branch (ltb y 5).
    + destruct (mid_branch 20 ((5 - y) / 4 * 10)) as [_ Ey]; [lia| |].
      { apply div_mul_le; lra. }
      rewrite Ex, Ey.
      apply Z.add_le_mono_l, as_u8_mono, div_mul_mono; lra.
    + apply Z.le_trans with 20%Z; [|exact Hx20].
      apply as_u8_le_bound; [|lia]. apply div_mul_le; [lra|].
      change (inject_Z 20) with 20. lra.
  - branch (ltb y 5); [lra|].
    apply as_u8_mono, div_mul_anti; lra.
Qed.

Lemma latency_score_no_jump_50 : no_jump_at LatencyTracker.latency_score 50.
Proof.
  exists 1. split; [lra|]. intros x _ Hx.
  unfold LatencyTracker.latency_score at 1.
  apply ltb_lt in Hx. rewrite Hx. reflexivity.
Qed.

Lemma jitter_score_no_jump_10 :
  no_jump_at (fun x => inject_Z (LatencyTracker.jitter_score x)) 10.
Proof.
  exists 1. split; [lra|]. intros x _ Hx.
  unfold LatencyTracker.jitter_score at 1.
  apply ltb_lt in Hx. rewrite Hx. reflexivity.
Qed.

Lemma jitter_score_no_jump_30 :
  no_jump_at (fun x => inject_Z (LatencyTracker.jitter_score x)) 30.
Proof.
  exists 2. split; [lra|]. intros x Hlo Hhi.
  unfold LatencyTracker.jitter_score at 1.
  branch (ltb x 10); [lra|]. branch (ltb x 30); [|lra].
  rewrite (as_u8_below_one ((30 - x) / 20 * 10)); [reflexivity|].
  apply div_mul_lt; lra.
Qed.

Lemma loss_score_no_jump_1 :
  no_jump_at (fun x => inject_Z (LatencyTracker.loss_score x)) 1.
Proof.
  exists 1. split; [lra|]. intros x _ Hx.
  unfold LatencyTracker.loss_score at 1.
  apply ltb_lt in Hx. rewrite Hx. reflexivity.
Qed.

Lemma loss_score_no_jump_5 :
  no_jump_at (fun x => inject_Z (LatencyTracker.loss_score x)) 5.
Proof.
  exists (2 # 5). split; [lra|]. intros x Hlo Hhi.
  unfold LatencyTracker.loss_score at 1.
  branch (ltb x 1); [lra|]. branch (ltb x 5); [|lra].
  rewrite (as_u8_below_one ((5 - x) / 4 * 10)); [reflexivity|].
  apply div_mul_lt; lra.
Qed.

Lemma latency_score_below_100 (x : f64) :
  95 < x -> x < 100 -> LatencyTracker.latency_score x == 30.
Proof.
  intros Hlo Hhi. unfold LatencyTracker.latency_score.
  branch (ltb x 50); [lra|]. branch (ltb x 100); [|lra].
  rewrite (as_u8_below_one ((100 - x) / 50 * 10)); [reflexivity|].
  apply div_mul_lt; lra.
Qed.

(** C3.  The latency sub-score jumps where its last two branches meet:
    it is 30 for every average latency strictly between 95 and 100 ms and
    20 at 100 ms, so it has a jump of 10 points at the 100 ms breakpoint.
    On a new tracker, one ping of 99 ms gives the quality score 90 and one
    ping of 100 ms gives 80. *)
Theorem latency_score_jumps_at_100 :
  (forall x, 95 < x -> x < 100 -> LatencyTracker.latency_score x == 30)
  /\ LatencyTracker.latency_score 100 == 20
  /\ ~ no_jump_at LatencyTracker.latency_score 100
  /\ LatencyTracker.quality_score
       (LatencyTracker.record_ping (LatencyTracker.new 8) 99) = 90%Z
  /\ LatencyTracker.quality_score
       (LatencyTracker.record_ping (LatencyTracker.new 8) 100) = 80%Z.
Proof.
  split; [exact latency_score_below_100|]. split; [reflexivity|].
  split; [|split; reflexivity].
  intros (d & Hd & Hjump).
  destruct (Qlt_le_dec d 5) as [Hsmall|Hbig].
  - specialize (Hjump (100 - d / 2)).
    assert (E : d / 2 == d * (1 # 2)) by field.
    rewrite (latency_score_below_100 (100 - d / 2)) in Hjump
      by (rewrite E; lra).
    assert (H : 30 == LatencyTracker.latency_score 100)
      by (apply Hjump; rewrite E; lra).
    vm_compute in H. discriminate H.
  - specialize (Hjump 99).
    rewrite (latency_score_below_100 99) in Hjump by lra.
    assert (H : 30 == LatencyTracker.latency_score 100)
      by (apply Hjump; lra).
    vm_compute in H. discriminate H.
Qed.

Lemma latency_score_jumps_at_100_witness :
  LatencyTracker.latency_score 99 == 30.
Proof.
  apply (proj1 latency_score_jumps_at_100); reflexivity.
Defined.

(** X5.  Each of the three sub-scores of [quality_score] never increases
    as its metric grows. *)
Theorem sub_scores_monotone :
  non_increasing LatencyTracker.latency_score
  /\ non_increasing (fun x => inject_Z (LatencyTracker.jitter_score x))
  /\ non_increasing (fun x => inject_Z (LatencyTracker.loss_score x)).
Proof.
  split; [exact latency_score_mono|].
  split; [exact jitter_score_mono | exact loss_score_mono].
Qed.

Lemma sub_scores_monotone_witness :
  LatencyTracker.latency_score 120 <= LatencyTracker.latency_score 80.
Proof.
  apply (proj1 sub_scores_monotone). vm_compute. discriminate.
Defined.

(** X6.  The branches of the sub-scores meet without a jump at latency
    50 ms, jitter 10 ms and 30 ms, and loss 1% and 5%. *)
Theorem sub_scores_no_jump :
  no_jump_at LatencyTracker.latency_score 50
  /\ no_jump_at (fun x => inject_Z (LatencyTracker.jitter_score x)) 10
  /\ no_jump_at (fun x => inject_Z (LatencyTracker.jitter_score x)) 30
  /\ no_jump_at (fun x => inject_Z (LatencyTracker.loss_score x)) 1
  /\ no_jump_at (fun x => inject_Z (LatencyTracker.loss_score x)) 5.
Proof.
  split; [exact latency_score_no_jump_50|].
  split; [exact jitter_score_no_jump_10|].
  split; [exact jitter_score_no_jump_30|].
  split; [exact loss_score_no_jump_1 | exact loss_score_no_jump_5].
Qed.

(** X1.  [quality_score] is in 0..100 in every state of a
    [LatencyTracker], and so is the value a release build returns from
    [calculate_score] in every state of a [PerformanceMonitor]. *)
Theorem scores_in_range :
  (forall self : LatencyTracker.t,
      (0 <= LatencyTracker.quality_score self <= 100)%Z)
  /\ (forall self : PerformanceMonitor.t,
      (0 <= PerformanceMonitor.calculate_score self <= 100)%Z).
Proof.
  split.
  - intros self. unfold LatencyTracker.quality_score, clampQ.
    split; [apply as_u8_range|].
    apply as_u8_le_bound; [|lia]. apply Q.le_min_l.
  - intros self. unfold PerformanceMonitor.calculate_score. apply clampZ_range.
Qed.

(** X4.  The parts of [calculate_score]: the fps sub-score is in 0..40 and
    is 40 from 60 fps on; the stability sub-score is in 0..30, is 30 below
    an average frame time of 16.67 ms and at most 20 from 33.33 ms on; the
    drop penalty is 3 per dropped frame with the count capped at 10. *)
Theorem score_parts :
  (forall fps, (0 <= PerformanceMonitor.fps_score fps <= 40)%Z)
  /\ (forall fps, 60 <= fps -> PerformanceMonitor.fps_score fps = 40%Z)
  /\ (forall avg, (0 <= PerformanceMonitor.stability_score avg <= 30)%Z)
  /\ (forall avg, avg < 16.67 -> PerformanceMonitor.stability_score avg = 30%Z)
  /\ (forall avg, 33.33 <= avg ->
        (PerformanceMonitor.stability_score avg <= 20)%Z)
  /\ (forall drops,
        PerformanceMonitor.drop_penalty drops
        = (3 * Z.of_nat (Nat.min drops 10))%Z)
  /\ (forall drops, (PerformanceMonitor.drop_penalty drops <= 30)%Z).
Proof.
  split; [intros fps; apply fps_score_range|].
  split; [intros fps; apply fps_score_range|].
  split; [exact stability_score_range|].
  split; [|split; [|split]].
  - intros avg H. unfold PerformanceMonitor.stability_score.
    apply ltb_lt in H. rewrite H. reflexivity.
  - intros avg H. unfold PerformanceMonitor.stability_score.
    branch (ltb avg 16.67); [lra|]. branch (ltb avg 33.33); [lra|].
    apply as_u8_le_bound; [|lia]. apply div_mul_le; [lra|].
    change (inject_Z 20) with 20. lra.
  - intros drops. apply drop_penalty_value.
  - intros drops. apply drop_penalty_value.
Qed.

Lemma score_parts_witness :
  PerformanceMonitor.fps_score 75 = 40%Z
  /\ PerformanceMonitor.stability_score 10 = 30%Z.
Proof.
  split.
  - apply (proj1 (proj2 score_parts)). vm_compute. discriminate.
  - apply (proj1 (proj2 (proj2 (proj2 score_parts)))). reflexivity.
Defined.

(** ** Frame drops *)

Lemma indices_above_spec (threshold : f64) (l : list f64) :
  forall (base i : nat),
    In i (indices_above threshold base l)
    <-> exists t, nth_error l (i - base) = Some t /\ (base <= i)%nat /\ threshold < t.
Proof.
  induction l as [|x l IH]; intros base i; simpl.
  - split; [intros [] | intros (t & Ht & _)]. destruct (i - base)%nat; discriminate.
  - assert (Htl : In i (indices_above threshold (S base) l)
                  <-> exists t, nth_error (x :: l) (i - base) = Some t
                                /\ (S base <= i)%nat /\ threshold < t).
    { rewrite IH. split; intros (t & Ht & Hb & Hlt); exists t.
      - replace (i - base)%nat with (S (i - S base)) by lia. auto.
      - replace (i - base)%nat with (S (i - S base)) in Ht by lia. auto. }
    destruct (ltb threshold x) eqn:E.
    + apply ltb_lt in E. simpl. rewrite Htl. split.
      * intros [<-|(t & Ht & Hb & Hlt)].
        -- exists x. rewrite Nat.sub_diag. simpl. auto.
        -- exists t. split; [exact Ht|]. split; [lia | exact Hlt].
      * intros (t & Ht & Hb & Hlt).
        destruct (Nat.eq_dec base i) as [->|Hne]; [left; reflexivity|].
        right. exists t. split; [exact Ht|]. split; [lia | exact Hlt].
    + apply ltb_ge in E. rewrite Htl. split.
      * intros (t & Ht & Hb & Hlt). exists t. split; [exact Ht|]. split; [lia | exact Hlt].
      * intros (t & Ht & Hb & Hlt). exists t. split; [exact Ht|]. split; [|exact Hlt].
        destruct (Nat.eq_dec base i) as [->|Hne]; [|lia].
        rewrite Nat.sub_diag in Ht. simpl in Ht. injection Ht as <-. lra.
Qed.

Lemma indices_above_sorted (threshold : f64) (l : list f64) :
  forall base : nat,
    StronglySorted lt (indices_above threshold base l)
    /\ Forall (fun i => (base <= i)%nat) (indices_above threshold base l).
Proof.
  induction l as [|x l IH]; intros base; simpl.
  - split; constructor.
  - destruct (IH (S base)) as [Hs Hf].
    assert (Hf' : Forall (fun i => (base <= i)%nat)
                    (indices_above threshold (S base) l)).
    { eapply Forall_impl; [|exact Hf]. simpl. intros; lia. }
    destruct (ltb threshold x).
    + split; constructor; auto.
    + split; assumption.
Qed.

Lemma indices_above_length (threshold : f64) (l : list f64) :
  forall base : nat,
    length (indices_above threshold base l)
    = length (filter (fun t => ltb threshold t) l).
Proof.
  induction l as [|x l IH]; intros base; simpl; [reflexivity|].
  destruct (ltb threshold x); simpl; rewrite IH; reflexivity.
Qed.

Lemma indices_above_antitone (lo hi : f64) (l : list f64) :
  lo <= hi ->
  forall base i,
    In i (indices_above hi base l) -> In i (indices_above lo base l).
Proof.
  intros Hle base i. rewrite !indices_above_spec.
  intros (t & Ht & Hb & Hlt). exists t. split; [exact Ht|]. split; [exact Hb | lra].
Qed.

(** X7.  [detect_frame_drops] returns, in increasing order, exactly the
    positions of the buffered frame times strictly above the threshold;
    there are as many as such samples, at most the buffer length, and
    raising the threshold can only remove positions. *)
Theorem detect_frame_drops_spec (self : FrameTimeTracker.t) (threshold : f64) :
  (forall i,
      In i (FrameTimeTracker.detect_frame_drops self threshold)
      <-> exists t, nth_error (FrameTimeTracker.frame_times self) i = Some t
                    /\ threshold < t)
  /\ StronglySorted lt (FrameTimeTracker.detect_frame_drops self threshold)
  /\ length (FrameTimeTracker.detect_frame_drops self threshold)
     = length (filter (fun t => ltb threshold t) (FrameTimeTracker.frame_times self))
  /\ (length (FrameTimeTracker.detect_frame_drops self threshold)
      <= length (FrameTimeTracker.frame_times self))%nat
  /\ (forall higher i,
        threshold <= higher ->
        In i (FrameTimeTracker.detect_frame_drops self higher) ->
        In i (FrameTimeTracker.detect_frame_drops self threshold)).
Proof.
  unfold FrameTimeTracker.detect_frame_drops.
  split; [|split; [|split; [|split]]].
  - intros i. rewrite indices_above_spec. rewrite Nat.sub_0_r.
    split; intros (t & Ht & H); exists t.
    + split; [exact Ht | apply H].
    + split; [exact Ht|]. split; [lia | exact H].
  - apply indices_above_sorted.
  - apply indices_above_length.
  - rewrite indices_above_length. apply filter_length_le.
  - intros higher i Hle. apply indices_above_antitone. exact Hle.
Qed.

Lemma detect_frame_drops_spec_witness :
  In 1%nat
    (FrameTimeTracker.detect_frame_drops
       (FrameTimeTracker.mk [16; 40; 20] 300 0 0 (from_millis 500) 0 0) 20).
Proof.
  pose (self := FrameTimeTracker.mk [16; 40; 20] 300 0 0 (from_millis 500) 0 0).
  destruct (detect_frame_drops_spec self 20) as (_ & _ & _ & _ & Hanti).
  apply (Hanti 33.33 1%nat).
  - vm_compute. discriminate.
  - vm_compute. left. reflexivity.
Defined.

(** ** Means and variances *)

Ltac qring := unfold f64 in *; ring.
Ltac qfield := unfold f64 in *; field.

Lemma sum_acc (l : list f64) :
  forall a : f64, fold_left Qplus l a == a + sum l.
Proof.
  unfold sum. induction l as [|x l IH]; intros a; simpl.
  - qring.
  - rewrite (IH (a + x)), (IH (0 + x)). qring.
Qed.

Lemma sum_cons (x : f64) (l : list f64) : sum (x :: l) == x + sum l.
Proof. unfold sum at 1. simpl. rewrite sum_acc. qring. Qed.

Lemma of_len_cons {A} (x : A) (l : list A) : of_len (x :: l) == 1 + of_len l.
Proof.
  unfold of_len. simpl length. rewrite Nat2Z.inj_succ, <- Z.add_1_l.
  rewrite inject_Z_plus. reflexivity.
Qed.

Lemma of_len_nonneg {A} (l : list A) : 0 <= of_len l.
Proof.
  unfold of_len. change 0 with (inject_Z 0). rewrite <- Zle_Qle. lia.
Qed.

Lemma sum_nonneg (l : list f64) : (forall x, In x l -> 0 <= x) -> 0 <= sum l.
Proof.
  induction l as [|x l IH]; intros Hall.
  - unfold sum. simpl. lra.
  - rewrite sum_cons.
    pose proof (Hall x (or_introl eq_refl)).
    assert (0 <= sum l) by (apply IH; intros y Hy; apply Hall; right; exact Hy).
    lra.
Qed.

(** The mean of samples that are not negative is not negative. *)
Lemma mean_nonneg (l : list f64) :
  (forall x, In x l -> 0 <= x) -> 0 <= sum l / of_len l.
Proof.
  intros Hall. destruct l as [|x l].
  - unfold sum, of_len. simpl. vm_compute. discriminate.
  - apply Qle_shift_div_l.
    + rewrite of_len_cons. pose proof (of_len_nonneg l). lra.
    + rewrite Qmult_0_l. apply sum_nonneg. exact Hall.
Qed.

Lemma push_bounded_forall {A} (P : A -> Prop) (cap : nat) (v : list A) (x : A) :
  (forall y, In y v -> P y) -> P x ->
  forall y, In y (push_bounded cap v x) -> P y.
Proof.
  intros Hv Hx y Hy.
  assert (Hin : In y (push v x)).
  { unfold push_bounded in Hy. destruct (_ <? _)%nat; [|exact Hy].
    unfold remove_first in Hy. destruct (push v x); [contradiction | right; exact Hy]. }
  unfold push in Hin. apply in_app_or in Hin.
  destruct Hin as [Hin | [<- | []]]; [apply Hv; exact Hin | exact Hx].
Qed.

Lemma record_frame_nonneg (self : FrameTimeTracker.t) (now : Instant) :
  0 <= fst (FrameTimeTracker.record_frame self now).
Proof.
  assert (E : fst (FrameTimeTracker.record_frame self now)
              = as_secs_f64 (duration_since now (FrameTimeTracker.last_frame_time self))
                * 1000).
  { unfold FrameTimeTracker.record_frame. destruct (_ <=? _)%Z; reflexivity. }
  rewrite E. unfold as_secs_f64, duration_since.
  assert (H : 0 <= inject_Z (Z.max 0 (now - FrameTimeTracker.last_frame_time self))).
  { change 0 with (inject_Z 0). rewrite <- Zle_Qle. lia. }
  apply Qmult_le_0_compat; [|lra].
  apply Qle_shift_div_l; lra.
Qed.

Lemma run_frames_nonneg (nows : list Instant) :
  forall self : FrameTimeTracker.t,
    (forall x, In x (FrameTimeTracker.frame_times self) -> 0 <= x) ->
    forall x, In x (FrameTimeTracker.frame_times (snd (run_frames self nows))) ->
              0 <= x.
Proof.
  induction nows as [|now rest IH]; intros self Hall; [exact Hall|].
  cbn [run_frames].
  destruct (record_frame_buffer self now) as [Hbuf _].
  pose proof (record_frame_nonneg self now) as Hft.
  destruct (FrameTimeTracker.record_frame self now) as [ft self'].
  cbn [fst snd] in Hbuf, Hft.
  specialize (IH self'). destruct (run_frames self' rest) as [fts self''].
  cbn [fst snd] in IH |- *. apply IH.
  rewrite Hbuf. apply push_bounded_forall; assumption.
Qed.

(** X8.  Each of the three averages ([average_frame_time],
    [average_latency], [average_jitter]) is 0 on an empty buffer and is not
    negative when no buffered sample is.  The frame times that
    [record_frame] buffers are durations, so after any sequence of
    [record_frame] calls on a new tracker the average frame time is not
    negative. *)
Theorem averages_nonnegative :
  (forall self : FrameTimeTracker.t,
      (FrameTimeTracker.frame_times self = [] ->
       FrameTimeTracker.average_frame_time self = 0)
      /\ ((forall x, In x (FrameTimeTracker.frame_times self) -> 0 <= x) ->
          0 <= FrameTimeTracker.average_frame_time self))
  /\ (forall self : LatencyTracker.t,
      (LatencyTracker.ping_history self = [] ->
       LatencyTracker.average_latency self = 0)
      /\ ((forall x, In x (LatencyTracker.ping_history self) -> 0 <= x) ->
          0 <= LatencyTracker.average_latency self)
      /\ (LatencyTracker.jitter_history self = [] ->
          LatencyTracker.average_jitter self = 0)
      /\ ((forall x, In x (LatencyTracker.jitter_history self) -> 0 <= x) ->
          0 <= LatencyTracker.average_jitter self))
  /\ (forall (max_samples : nat) (now1 now2 : Instant) (nows : list Instant),
      0 <= FrameTimeTracker.average_frame_time
             (snd (run_frames (FrameTimeTracker.new max_samples now1 now2) nows))).
Proof.
  assert (Hft : forall self : FrameTimeTracker.t,
            (forall x, In x (FrameTimeTracker.frame_times self) -> 0 <= x) ->
            0 <= FrameTimeTracker.average_frame_time self).
  { intros self Hall. unfold FrameTimeTracker.average_frame_time.
    destruct (FrameTimeTracker.frame_times self) as [|x l] eqn:E; [lra|].
    apply mean_nonneg. exact Hall. }
  split; [|split].
  - intros self. split; [|apply Hft].
    unfold FrameTimeTracker.average_frame_time. intros ->. reflexivity.
  - intros self.
    unfold LatencyTracker.average_latency, LatencyTracker.average_jitter.
    split; [intros ->; reflexivity|]. split; [|split; [intros ->; reflexivity|]].
    + intros Hall.
      destruct (LatencyTracker.ping_history self) as [|x l] eqn:E; [lra|].
      apply mean_nonneg. exact Hall.
    + intros Hall.
      destruct (LatencyTracker.jitter_history self) as [|x l] eqn:E; [lra|].
      apply mean_nonneg. exact Hall.
  - intros max_samples now1 now2 nows. apply Hft.
    apply run_frames_nonneg. intros x [].
Qed.

Lemma square_nonneg (x : Q) : 0 <= x ^ 2.
Proof. simpl. nra. Qed.

Lemma sum_squares_nonneg (mean : f64) (l : list f64) :
  0 <= sum (map (fun v => (v - mean) ^ 2) l).
Proof.
  apply sum_nonneg. intros x Hx. apply in_map_iff in Hx.
  destruct Hx as (v & <- & _). apply square_nonneg.
Qed.

Lemma variance_nonneg (values : list f64) : 0 <= PerformanceMonitor.variance values.
Proof.
  unfold PerformanceMonitor.variance.
  destruct (Nat.ltb_spec (length values) 2) as [Hlt|Hge]; [lra|].
  apply Qle_shift_div_l.
  - change 0 with (inject_Z 0). rewrite <- Zlt_Qlt. lia.
  - rewrite Qmult_0_l. apply sum_squares_nonneg.
Qed.

Lemma frame_time_variance_eq (self : FrameTimeTracker.t) :
  FrameTimeTracker.frame_time_variance self
  = PerformanceMonitor.variance (FrameTimeTracker.frame_times self).
Proof.
  unfold FrameTimeTracker.frame_time_variance, PerformanceMonitor.variance,
    FrameTimeTracker.average_frame_time.
  destruct (FrameTimeTracker.frame_times self) as [|x l]; reflexivity.
Qed.

(** X9.  [frame_time_variance] and [PerformanceMonitor::variance] are the
    same function of the samples; the variance is never negative and is 0
    for fewer than two samples. *)
Theorem variance_properties :
  (forall self : FrameTimeTracker.t,
      FrameTimeTracker.frame_time_variance self
      = PerformanceMonitor.variance (FrameTimeTracker.frame_times self))
  /\ (forall values, 0 <= PerformanceMonitor.variance values)
  /\ (forall values,
        (length values < 2)%nat -> PerformanceMonitor.variance values = 0).
Proof.
  split; [exact frame_time_variance_eq|].
  split; [exact variance_nonneg|].
  intros values Hlen. unfold PerformanceMonitor.variance.
  apply Nat.ltb_lt in Hlen. rewrite Hlen. reflexivity.
Qed.

Lemma variance_properties_witness :
  0 <= PerformanceMonitor.variance [16; 40; 10]
  /\ PerformanceMonitor.variance [42] = 0.
Proof.
  split.
  - apply (proj1 (proj2 variance_properties)).
  - apply (proj2 (proj2 variance_properties)). simpl. lia.
Defined.

(** ** The frame clock *)

Lemma record_frame_time (self : FrameTimeTracker.t) (now : Instant) :
  fst (FrameTimeTracker.record_frame self now)
  == inject_Z (duration_since now (FrameTimeTracker.last_frame_time self)) / 1000000.
Proof.
  unfold FrameTimeTracker.record_frame.
  destruct (_ <=? _)%Z; cbn [fst]; unfold as_secs_f64; field.
Qed.

Lemma record_frame_fields (self : FrameTimeTracker.t) (now : Instant) :
  let self' := snd (FrameTimeTracker.record_frame self now) in
  FrameTimeTracker.last_frame_time self' = now
  /\ FrameTimeTracker.fps_update_interval self'
     = FrameTimeTracker.fps_update_interval self
  /\ FrameTimeTracker.max_samples self' = FrameTimeTracker.max_samples self.
Proof.
  unfold FrameTimeTracker.record_frame.
  destruct (_ <=? _)%Z; cbn; repeat split.
Qed.

(** X12.  [record_frame] returns the time since the previous frame in
    milliseconds: never negative, 0 when the clock reading is not later than
    the previous one, and (now - last) / 10^6 otherwise; the reading becomes
    the new [last_frame_time], and with a capacity above 0 the returned
    value is the newest sample of the buffer. *)
Theorem record_frame_returns_elapsed (self : FrameTimeTracker.t) (now : Instant) :
  let r := FrameTimeTracker.record_frame self now in
  0 <= fst r
  /\ ((now <= FrameTimeTracker.last_frame_time self)%Z -> fst r == 0)
  /\ ((FrameTimeTracker.last_frame_time self <= now)%Z ->
      fst r == inject_Z (now - FrameTimeTracker.last_frame_time self) / 1000000)
  /\ FrameTimeTracker.last_frame_time (snd r) = now
  /\ ((0 < FrameTimeTracker.max_samples self)%nat ->
      (length (FrameTimeTracker.frame_times self)
       <= FrameTimeTracker.max_samples self)%nat ->
      last (FrameTimeTracker.frame_times (snd r)) 0 = fst r).
Proof.
  intros r. subst r.
  pose proof (record_frame_time self now) as Hms.
  split; [|split; [|split; [|split]]].
  - rewrite Hms. apply Qle_shift_div_l; [reflexivity|].
    rewrite Qmult_0_l. change 0 with (inject_Z 0). rewrite <- Zle_Qle.
    unfold duration_since. lia.
  - intros Hle. rewrite Hms. unfold duration_since.
    rewrite Z.max_l by lia. reflexivity.
  - intros Hle. rewrite Hms. unfold duration_since.
    rewrite Z.max_r by lia. reflexivity.
  - apply record_frame_fields.
  - intros Hcap Hlen.
    destruct (record_frame_buffer self now) as [Hbuf _]. rewrite Hbuf.
    unfold push_bounded, push, remove_first.
    destruct (Nat.ltb_spec (FrameTimeTracker.max_samples self)
                (length (FrameTimeTracker.frame_times self
                         ++ [fst (FrameTimeTracker.record_frame self now)]))).
    + destruct (FrameTimeTracker.frame_times self) as [|x l]; simpl in *; [lia|].
      apply last_last.
    + apply last_last.
Qed.

Lemma record_frame_returns_elapsed_witness :
  fst (FrameTimeTracker.record_frame (FrameTimeTracker.new 300 0 0) (from_millis 20))
  == inject_Z (from_millis 20 - 0) / 1000000.
Proof.
  apply (record_frame_returns_elapsed (FrameTimeTracker.new 300 0 0) (from_millis 20)).
  simpl. unfold from_millis. lia.
Defined.

Lemma steady_fps_value (k d : Z) :
  (0 < k)%Z -> (0 < d)%Z ->
  inject_Z k / as_secs_f64 (k * d) == 1000000000 / inject_Z d.
Proof.
  intros Hk Hd. unfold as_secs_f64. rewrite inject_Z_mult.
  assert (Hk' : ~ inject_Z k == 0).
  { unfold Qeq. simpl. lia. }
  assert (Hd' : ~ inject_Z d == 0).
  { unfold Qeq. simpl. lia. }
  field. split; assumption.
Qed.

(** One more frame at the steady pace keeps the steady state and returns
    the pace in milliseconds. *)
Lemma steady_step (t0 : Instant) (d : Duration) (n : nat)
    (self : FrameTimeTracker.t) :
  (0 < d)%Z ->
  steady_state t0 d n self ->
  let r := FrameTimeTracker.record_frame self (t0 + Z.of_nat (S n) * d)%Z in
  steady_state t0 d (S n) (snd r) /\ fst r == inject_Z d / 1000000.
Proof.
  intros Hd (Hint & Hlast & k & Hkn & Hcount & Hupd & Hk & Hfps) r.
  assert (Hfirst : fst r == inject_Z d / 1000000).
  { subst r. rewrite record_frame_time, Hlast. unfold duration_since.
    replace (t0 + Z.of_nat (S n) * d - (t0 + Z.of_nat n * d))%Z with d by lia.
    rewrite Z.max_r by lia. reflexivity. }
  split; [|exact Hfirst].
  assert (Hsince : duration_since (t0 + Z.of_nat (S n) * d)
                     (FrameTimeTracker.last_fps_update self)
                   = (Z.of_nat (S k) * d)%Z).
  { rewrite Hupd. unfold duration_since.
    replace (t0 + Z.of_nat (S n) * d - (t0 + Z.of_nat (n - k) * d))%Z
      with (Z.of_nat (S k) * d)%Z by nia.
    apply Z.max_r. nia. }
  assert (Hwrap : u32_wrap (FrameTimeTracker.frame_count self + 1) = Z.of_nat (S k)).
  { rewrite Hcount. unfold u32_wrap, u32_modulus.
    rewrite Z.mod_small; [lia|]. unfold from_millis in Hk. nia. }
  subst r. unfold FrameTimeTracker.record_frame.
  rewrite Hsince, Hwrap, Hint.
  destruct (Z.leb_spec (from_millis 500) (Z.of_nat (S k) * d)) as [Hdue|Hnot];
    cbn [snd]; unfold steady_state;
    cbn [FrameTimeTracker.fps_update_interval FrameTimeTracker.last_frame_time
         FrameTimeTracker.frame_count FrameTimeTracker.last_fps_update
         FrameTimeTracker.current_fps].
  - split; [reflexivity|]. split; [reflexivity|].
    exists 0%nat. split; [lia|]. split; [reflexivity|].
    split; [f_equal; f_equal; f_equal; lia|].
    split; [unfold from_millis; lia|].
    right. split; [nia|]. apply steady_fps_value; lia.
  - split; [reflexivity|]. split; [reflexivity|].
    exists (S k). split; [lia|]. split; [reflexivity|].
    split; [rewrite Hupd; f_equal; f_equal; f_equal; lia|].
    split; [exact Hnot|].
    destruct Hfps as [(Hn & -> & Hzero)|(Hn & Hval)].
    + left. split; [exact Hnot|]. split; [reflexivity | exact Hzero].
    + right. split; [nia | exact Hval].
Qed.

Lemma steady_run (t0 : Instant) (d : Duration) (len : nat) :
  (0 < d)%Z ->
  forall (n : nat) (self : FrameTimeTracker.t),
    steady_state t0 d n self ->
    let r := run_frames self (steady_frames t0 d (S n) len) in
    steady_state t0 d (n + len) (snd r)
    /\ Forall (fun ft => ft == inject_Z d / 1000000) (fst r).
Proof.
  intros Hd. induction len as [|len IH]; intros n self Hst.
  - simpl. rewrite Nat.add_0_r. split; [exact Hst | constructor].
  - unfold steady_frames. cbn [seq map run_frames].
    destruct (steady_step t0 d n self Hd Hst) as [Hst' Hft].
    destruct (FrameTimeTracker.record_frame self (t0 + Z.of_nat (S n) * d))
      as [ft self'].
    cbn [fst snd] in Hst', Hft.
    specialize (IH (S n) self' Hst'). unfold steady_frames in IH.
    destruct (run_frames self' _) as [fts self''].
    cbn [fst snd] in IH |- *. destruct IH as [IH1 IH2].
    replace (n + S len)%nat with (S n + len)%nat by lia.
    split; [exact IH1 | constructor; assumption].
Qed.

(** X10.  On a tracker made at [t0], frames recorded every [d] > 0
    nanoseconds all have the frame time d / 10^6 ms; [current_fps] stays 0
    while less than the 500 ms update interval has passed, and from then on
    it is exactly 10^9 / d, the frame rate of that pace. *)
Theorem steady_pace_fps (N : nat) (t0 : Instant) (d : Duration) (n : nat) :
  (0 < d)%Z ->
  let r := run_frames (FrameTimeTracker.new N t0 t0) (steady_frames t0 d 1 n) in
  Forall (fun ft => ft == inject_Z d / 1000000) (fst r)
  /\ ((Z.of_nat n * d < from_millis 500)%Z ->
      FrameTimeTracker.current_fps (snd r) = 0)
  /\ ((from_millis 500 <= Z.of_nat n * d)%Z ->
      FrameTimeTracker.current_fps (snd r) == 1000000000 / inject_Z d).
Proof.
  intros Hd r.
  assert (Hinit : steady_state t0 d 0 (FrameTimeTracker.new N t0 t0)).
  { unfold steady_state. cbn. split; [reflexivity|]. split; [lia|].
    exists 0%nat. repeat split; try lia; try reflexivity.
    left. repeat split; reflexivity. }
  destruct (steady_run t0 d n Hd 0%nat _ Hinit) as [Hst Hall].
  fold r in Hst, Hall. simpl in Hst.
  split; [exact Hall|].
  destruct Hst as (_ & _ & k & _ & _ & _ & _ & Hfps).
  split; intros Hn; destruct Hfps as [(Hlt & _ & Hz)|(Hge & Hv)];
    try lia; assumption.
Qed.

Lemma steady_pace_fps_witness :
  FrameTimeTracker.current_fps
    (snd (run_frames (FrameTimeTracker.new 300 0 0)
            (steady_frames 0 16670000 1 30)))
  == 1000000000 / inject_Z 16670000.
Proof.
  apply (steady_pace_fps 300 0%Z 16670000%Z 30); unfold from_millis; lia.
Defined.

(** ** Reset *)

Lemma run_frames_fields (nows : list Instant) :
  forall self : FrameTimeTracker.t,
    FrameTimeTracker.fps_update_interval (snd (run_frames self nows))
    = FrameTimeTracker.fps_update_interval self
    /\ FrameTimeTracker.max_samples (snd (run_frames self nows))
       = FrameTimeTracker.max_samples self.
Proof.
  induction nows as [|now rest IH]; intros self; [split; reflexivity|].
  cbn [run_frames].
  destruct (record_frame_fields self now) as (_ & Hint & Hcap).
  destruct (FrameTimeTracker.record_frame self now) as [ft self'].
  cbn [snd] in Hint, Hcap. specialize (IH self').
  destruct (run_frames self' rest) as [fts self'']. cbn [snd] in IH |- *.
  rewrite <- Hint, <- Hcap. exact IH.
Qed.

(** X11.  [reset] after any number of recorded frames gives the tracker
    [new] would make with the same capacity at the two clock readings of
    the reset: the buffer is empty, the fps is 0 and every statistic reads
    as on a new tracker. *)
Theorem reset_is_new (N : nat) (c1 c2 : Instant) (nows : list Instant)
    (now1 now2 : Instant) :
  let self :=
    FrameTimeTracker.reset (snd (run_frames (FrameTimeTracker.new N c1 c2) nows))
      now1 now2 in
  self = FrameTimeTracker.new N now1 now2
  /\ FrameTimeTracker.average_frame_time self = 0
  /\ FrameTimeTracker.frame_time_variance self = 0
  /\ FrameTimeTracker.current_fps self = 0
  /\ (forall p, FrameTimeTracker.percentile_frame_time self p = Some 0)
  /\ (forall th, FrameTimeTracker.detect_frame_drops self th = []).
Proof.
  intros self.
  assert (E : self = FrameTimeTracker.new N now1 now2).
  { subst self. unfold FrameTimeTracker.reset.
    destruct (run_frames_fields nows (FrameTimeTracker.new N c1 c2)) as [Hint Hcap].
    rewrite Hint, Hcap. reflexivity. }
  rewrite E. repeat split.
Qed.

(** ** Jitter *)

Lemma lastn_app_short {A} (n : nat) (l m : list A) :
  (length m <= n)%nat -> lastn n (l ++ m) = lastn (n - length m) l ++ m.
Proof.
  intros Hm. unfold lastn. rewrite length_app, skipn_app.
  replace (length l + length m - n)%nat with (length l - (n - length m))%nat by lia.
  replace (length l - (n - length m) - length l)%nat with 0%nat by lia.
  reflexivity.
Qed.

Lemma jitter_sample_nonneg (l : list f64) (j : f64) :
  LatencyTracker.jitter_sample l = Some j -> 0 <= j.
Proof.
  unfold LatencyTracker.jitter_sample.
  set (v := Qabs _).
  destruct (2 <=? length l)%nat; [|discriminate].
  intros H. assert (Hv : v = j) by congruence.
  rewrite <- Hv. apply Qabs_nonneg.
Qed.

Lemma jitter_sample_two (front : list f64) (q p : f64) :
  LatencyTracker.jitter_sample (front ++ [q; p]) = Some (Qabs (p - q)).
Proof.
  unfold LatencyTracker.jitter_sample, LatencyTracker.at_index.
  rewrite length_app. simpl length.
  destruct (Nat.leb_spec 2 (length front + 2)); [|lia].
  rewrite !app_nth2 by lia.
  replace (length front + 2 - 1 - length front)%nat with 1%nat by lia.
  replace (length front + 2 - 2 - length front)%nat with 0%nat by lia.
  reflexivity.
Qed.

Lemma jitter_sample_single (p : f64) : LatencyTracker.jitter_sample [p] = None.
Proof. reflexivity. Qed.

Lemma lastn_one_snoc {A} (l : list A) (x : A) : lastn 1 (l ++ [x]) = [x].
Proof.
  rewrite lastn_app_short by (simpl; lia). simpl.
  unfold lastn. rewrite Nat.sub_0_r, skipn_all. reflexivity.
Qed.

(** With a capacity of at least 2 the jitter pushed by each ping is its
    distance to the ping before it. *)
Lemma run_pings_log (pings : list f64) :
  forall (self : LatencyTracker.t) (plog : list f64),
    (2 <= LatencyTracker.max_history self)%nat ->
    LatencyTracker.ping_history self
    = lastn (LatencyTracker.max_history self) plog ->
    fst (run_pings self pings) = consecutive_jitter (lastn 1 plog ++ pings).
Proof.
  induction pings as [|p rest IH]; intros self plog HK Hp.
  - simpl. rewrite app_nil_r. unfold lastn.
    destruct (skipn (length plog - 1) plog) as [|a [|b l]] eqn:E; try reflexivity.
    assert (Hl : length (skipn (length plog - 1) plog) = (2 + length l)%nat)
      by (rewrite E; reflexivity).
    rewrite length_skipn in Hl. lia.
  - cbn [run_pings].
    destruct (record_ping_buffers self p) as (Hpb & _ & Hcap).
    remember (LatencyTracker.record_ping self p) as self' eqn:E. clear E.
    assert (Hp' : LatencyTracker.ping_history self'
                  = lastn (LatencyTracker.max_history self') (plog ++ [p])).
    { rewrite Hpb, Hp, Hcap. apply push_bounded_lastn. }
    specialize (IH self' (plog ++ [p])).
    rewrite Hcap in IH. specialize (IH HK). rewrite Hcap in Hp'.
    specialize (IH Hp'). rewrite lastn_one_snoc in IH.
    destruct (run_pings self' rest) as [js self''] eqn:Hrun.
    cbn [fst] in IH |- *. rewrite IH, Hp'.
    destruct plog as [|a plog0].
    + replace (lastn (LatencyTracker.max_history self) ([] ++ [p])) with [p].
      * reflexivity.
      * unfold lastn. cbn [app length].
        replace (1 - LatencyTracker.max_history self)%nat with 0%nat by lia.
        reflexivity.
    + destruct (exists_last (l := a :: plog0)) as (front & q & E); [discriminate|].
      rewrite E. rewrite lastn_one_snoc. rewrite <- app_assoc. simpl app.
      rewrite lastn_app_short by (simpl; lia).
      rewrite jitter_sample_two. reflexivity.
Qed.

Lemma in_lastn {A} (n : nat) (l : list A) (x : A) : In x (lastn n l) -> In x l.
Proof.
  unfold lastn. intros H.
  rewrite <- (firstn_skipn (length l - n) l). apply in_or_app. right. exact H.
Qed.

Lemma run_pings_log_small (pings : list f64) :
  forall self : LatencyTracker.t,
    (LatencyTracker.max_history self < 2)%nat ->
    (length (LatencyTracker.ping_history self)
     <= LatencyTracker.max_history self)%nat ->
    fst (run_pings self pings) = [].
Proof.
  induction pings as [|p rest IH]; intros self HK Hlen; [reflexivity|].
  cbn [run_pings].
  destruct (record_ping_buffers self p) as (Hpb & _ & Hcap).
  remember (LatencyTracker.record_ping self p) as self' eqn:E. clear E.
  assert (Hlen' : (length (LatencyTracker.ping_history self')
                   <= LatencyTracker.max_history self)%nat).
  { rewrite Hpb. apply push_bounded_length. exact Hlen. }
  specialize (IH self'). rewrite Hcap in IH. specialize (IH HK Hlen').
  destruct (run_pings self' rest) as [js self'']. cbn [fst] in IH |- *.
  unfold LatencyTracker.jitter_sample.
  destruct (Nat.leb_spec 2 (length (LatencyTracker.ping_history self'))); [lia|].
  exact IH.
Qed.

Lemma run_pings_log_nonneg (pings : list f64) :
  forall self : LatencyTracker.t,
    Forall (fun j => 0 <= j) (fst (run_pings self pings)).
Proof.
  induction pings as [|p rest IH]; intros self; [constructor|].
  cbn [run_pings].
  remember (LatencyTracker.record_ping self p) as self' eqn:E. clear E.
  specialize (IH self').
  destruct (run_pings self' rest) as [js self'']. cbn [fst] in IH |- *.
  destruct (LatencyTracker.jitter_sample _) as [j|] eqn:Ej; [|exact IH].
  constructor; [|exact IH]. eapply jitter_sample_nonneg. exact Ej.
Qed.

(** X13.  On a new tracker of capacity [K] >= 2 the jitter values pushed
    by a sequence of pings are the absolute differences of consecutive
    pings, and the jitter buffer holds the [K] most recent of them; with
    [K] < 2 no jitter is ever recorded.  The buffered jitter values and
    [average_jitter] are never negative. *)
Theorem jitter_is_consecutive_difference (K : nat) (pings : list f64) :
  let r := run_pings (LatencyTracker.new K) pings in
  snd r = fold_left LatencyTracker.record_ping pings (LatencyTracker.new K)
  /\ ((2 <= K)%nat ->
      fst r = consecutive_jitter pings
      /\ LatencyTracker.jitter_history (snd r) = lastn K (consecutive_jitter pings))
  /\ ((K < 2)%nat -> LatencyTracker.jitter_history (snd r) = [])
  /\ Forall (fun j => 0 <= j) (LatencyTracker.jitter_history (snd r))
  /\ 0 <= LatencyTracker.average_jitter (snd r).
Proof.
  intros r.
  destruct (run_pings_fifo pings (LatencyTracker.new K) [] [])
    as [_ Hj]; [reflexivity | reflexivity |].
  cbn [LatencyTracker.max_history LatencyTracker.new app] in Hj. fold r in Hj.
  assert (Hnn : Forall (fun j => 0 <= j) (LatencyTracker.jitter_history (snd r))).
  { rewrite Hj. apply Forall_forall. intros x Hx. apply in_lastn in Hx.
    pose proof (run_pings_log_nonneg pings (LatencyTracker.new K)) as Hlog.
    rewrite Forall_forall in Hlog. apply Hlog. exact Hx. }
  split; [apply run_pings_state|]. split; [|split; [|split]].
  - intros HK.
    pose proof (run_pings_log pings (LatencyTracker.new K) [] HK eq_refl) as Hlog.
    fold r in Hlog. simpl in Hlog.
    split; [exact Hlog|]. rewrite Hj, Hlog. reflexivity.
  - intros HK.
    pose proof (run_pings_log_small pings (LatencyTracker.new K) HK) as Hlog.
    fold r in Hlog. rewrite Hj, Hlog; [reflexivity | simpl; lia].
  - exact Hnn.
  - unfold LatencyTracker.average_jitter.
    destruct (LatencyTracker.jitter_history (snd r)) as [|x l] eqn:E; [apply Qle_refl|].
    rewrite Forall_forall in Hnn.
    apply Qle_shift_div_l.
    + rewrite of_len_cons. pose proof (of_len_nonneg l). lra.
    + rewrite Qmult_0_l. apply sum_nonneg. exact Hnn.
Qed.

Lemma jitter_is_consecutive_difference_witness :
  LatencyTracker.jitter_history
    (snd (run_pings (LatencyTracker.new 2) [10; 30; 20; 100]))
  = lastn 2 (consecutive_jitter [10; 30; 20; 100]).
Proof.
  apply (jitter_is_consecutive_difference 2 [10; 30; 20; 100]). lia.
Defined.

(** ** Packet counters *)

Lemma u32_wrap_succ (n : nat) :
  u32_wrap (u32_wrap (Z.of_nat n) + 1) = u32_wrap (Z.of_nat (S n)).
Proof.
  unfold u32_wrap. rewrite Nat2Z.inj_succ, <- Z.add_1_r.
  apply Zplus_mod_idemp_l.
Qed.

(** Two trackers with the same buffers and capacity. *)
Lemma record_ping_same_buffers (a b : LatencyTracker.t) (p : f64) :
  LatencyTracker.ping_history a = LatencyTracker.ping_history b ->
  LatencyTracker.jitter_history a = LatencyTracker.jitter_history b ->
  LatencyTracker.max_history a = LatencyTracker.max_history b ->
  LatencyTracker.ping_history (LatencyTracker.record_ping a p)
  = LatencyTracker.ping_history (LatencyTracker.record_ping b p)
  /\ LatencyTracker.jitter_history (LatencyTracker.record_ping a p)
     = LatencyTracker.jitter_history (LatencyTracker.record_ping b p)
  /\ LatencyTracker.max_history (LatencyTracker.record_ping a p)
     = LatencyTracker.max_history (LatencyTracker.record_ping b p).
Proof.
  intros Hp Hj Hk.
  destruct (record_ping_buffers a p) as (Ha1 & Ha2 & Ha3).
  destruct (record_ping_buffers b p) as (Hb1 & Hb2 & Hb3).
  assert (E1 : LatencyTracker.ping_history (LatencyTracker.record_ping a p)
               = LatencyTracker.ping_history (LatencyTracker.record_ping b p))
    by (rewrite Ha1, Hb1, Hp, Hk; reflexivity).
  split; [exact E1|]. split.
  - rewrite Ha2, Hb2, E1, Hj, Hk. reflexivity.
  - rewrite Ha3, Hb3. exact Hk.
Qed.

Lemma net_run_invariant (events : list net_event) :
  forall (self pure : LatencyTracker.t) (nl ns nr : nat),
    LatencyTracker.ping_history self = LatencyTracker.ping_history pure ->
    LatencyTracker.jitter_history self = LatencyTracker.jitter_history pure ->
    LatencyTracker.max_history self = LatencyTracker.max_history pure ->
    LatencyTracker.packet_loss self = u32_wrap (Z.of_nat nl) ->
    LatencyTracker.packets_sent self = u32_wrap (Z.of_nat ns) ->
    LatencyTracker.packets_received self = u32_wrap (Z.of_nat nr) ->
    let s := net_run self events in
    let q := fold_left LatencyTracker.record_ping (pings_of events) pure in
    LatencyTracker.ping_history s = LatencyTracker.ping_history q
    /\ LatencyTracker.jitter_history s = LatencyTracker.jitter_history q
    /\ LatencyTracker.packet_loss s = u32_wrap (Z.of_nat (nl + count_loss events))
    /\ LatencyTracker.packets_sent s = u32_wrap (Z.of_nat (ns + count_sent events))
    /\ LatencyTracker.packets_received s
       = u32_wrap (Z.of_nat (nr + length (pings_of events))).
Proof.
  unfold net_run.
  induction events as [|e events IH]; intros self pure nl ns nr Hp Hj Hk Hl Hs Hr.
  - simpl. rewrite !Nat.add_0_r. auto.
  - destruct e as [p| |].
    + change (pings_of (Ping p :: events)) with (p :: pings_of events).
      change (count_loss (Ping p :: events)) with (count_loss events).
      change (count_sent (Ping p :: events)) with (count_sent events).
      cbn [fold_left net_step length].
      destruct (record_ping_same_buffers self pure p Hp Hj Hk) as (Hp' & Hj' & Hk').
      rewrite <- plus_n_Sm.
      apply (IH (LatencyTracker.record_ping self p)
                (LatencyTracker.record_ping pure p) nl ns (S nr) Hp' Hj' Hk').
      * exact Hl.
      * exact Hs.
      * unfold LatencyTracker.record_ping. cbn [LatencyTracker.packets_received].
        rewrite Hr. apply u32_wrap_succ.
    + change (pings_of (Loss :: events)) with (pings_of events).
      change (count_loss (Loss :: events)) with (S (count_loss events)).
      change (count_sent (Loss :: events)) with (count_sent events).
      cbn [fold_left net_step].
      rewrite <- plus_n_Sm.
      apply (IH (LatencyTracker.record_packet_loss self) pure (S nl) ns nr);
        try assumption.
      unfold LatencyTracker.record_packet_loss. cbn [LatencyTracker.packet_loss].
      rewrite Hl. apply u32_wrap_succ.
    + change (pings_of (Sent :: events)) with (pings_of events).
      change (count_loss (Sent :: events)) with (count_loss events).
      change (count_sent (Sent :: events)) with (S (count_sent events)).
      cbn [fold_left net_step].
      rewrite <- plus_n_Sm.
      apply (IH (LatencyTracker.increment_sent self) pure nl (S ns) nr);
        try assumption.
      unfold LatencyTracker.increment_sent. cbn [LatencyTracker.packets_sent].
      rewrite Hs. apply u32_wrap_succ.
Qed.

(** X14.  After any interleaving of pings, recorded losses and sent
    packets on a new tracker, each counter holds the number of its events
    modulo 2^32, and the ping and jitter buffers are those the pings alone
    would have produced: recording a loss or a sent packet never touches a
    buffer. *)
Theorem counters_and_buffers_independent (K : nat) (events : list net_event) :
  let s := net_run (LatencyTracker.new K) events in
  let q := fold_left LatencyTracker.record_ping (pings_of events)
             (LatencyTracker.new K) in
  LatencyTracker.ping_history s = LatencyTracker.ping_history q
  /\ LatencyTracker.jitter_history s = LatencyTracker.jitter_history q
  /\ LatencyTracker.packet_loss s = (Z.of_nat (count_loss events) mod 2 ^ 32)%Z
  /\ LatencyTracker.packets_sent s = (Z.of_nat (count_sent events) mod 2 ^ 32)%Z
  /\ LatencyTracker.packets_received s
     = (Z.of_nat (length (pings_of events)) mod 2 ^ 32)%Z.
Proof.
  intros s q.
  apply (net_run_invariant events (LatencyTracker.new K) (LatencyTracker.new K)
           0 0 0); reflexivity.
Qed.

(** X15.  With counters that are not negative, [packet_loss_rate] is never
    negative; it is at most 100 when no more losses than sent packets were
    recorded, and above 100 otherwise: nothing ties the number of losses to
    the number of sent packets. *)
Theorem packet_loss_rate_bounds (self : LatencyTracker.t) :
  (0 <= LatencyTracker.packet_loss self)%Z ->
  (0 <= LatencyTracker.packets_sent self)%Z ->
  0 <= LatencyTracker.packet_loss_rate self
  /\ ((LatencyTracker.packet_loss self <= LatencyTracker.packets_sent self)%Z ->
      LatencyTracker.packet_loss_rate self <= 100)
  /\ ((0 < LatencyTracker.packets_sent self)%Z ->
      (LatencyTracker.packets_sent self < LatencyTracker.packet_loss self)%Z ->
      100 < LatencyTracker.packet_loss_rate self).
Proof.
  intros Hl Hs. unfold LatencyTracker.packet_loss_rate.
  destruct (Z.eqb_spec (LatencyTracker.packets_sent self) 0) as [E|Hne].
  - split; [apply Qle_refl|]. split; [intros _; discriminate | lia].
  - assert (Hpos : 0 < inject_Z (LatencyTracker.packets_sent self)).
    { change 0 with (inject_Z 0). rewrite <- Zlt_Qlt. lia. }
    assert (Hl' : 0 <= inject_Z (LatencyTracker.packet_loss self)).
    { change 0 with (inject_Z 0). rewrite <- Zle_Qle. exact Hl. }
    split; [|split].
    + apply div_mul_ge; [exact Hpos | lra].
    + intros Hle. apply div_mul_le; [exact Hpos|].
      rewrite Zle_Qle in Hle. lra.
    + intros _ Hlt. rewrite Zlt_Qlt in Hlt.
      assert (E : inject_Z (LatencyTracker.packet_loss self)
                  / inject_Z (LatencyTracker.packets_sent self) * 100
                  == inject_Z (LatencyTracker.packet_loss self) * 100
                     / inject_Z (LatencyTracker.packets_sent self))
        by (field; lra).
      rewrite E. apply Qlt_shift_div_l; [exact Hpos | lra].
Qed.

Lemma packet_loss_rate_bounds_witness :
  100 < LatencyTracker.packet_loss_rate
          (net_run (LatencyTracker.new 8) [Sent; Loss; Loss]).
Proof.
  apply (packet_loss_rate_bounds (net_run (LatencyTracker.new 8) [Sent; Loss; Loss]));
    vm_compute; try discriminate; reflexivity.
Defined.

(** ** Monotonicity of [quality_score] *)

(** X16.  A tracker whose average latency, average jitter and packet-loss
    rate are all at least those of another has a [quality_score] that is
    at most the other's. *)
Theorem quality_score_monotone (a b : LatencyTracker.t) :
  LatencyTracker.average_latency a <= LatencyTracker.average_latency b ->
  LatencyTracker.average_jitter a <= LatencyTracker.average_jitter b ->
  LatencyTracker.packet_loss_rate a <= LatencyTracker.packet_loss_rate b ->
  (LatencyTracker.quality_score b <= LatencyTracker.quality_score a)%Z.
Proof.
  intros Hl Hj Hr. unfold LatencyTracker.quality_score, clampQ.
  apply as_u8_mono.
  apply Q.min_le_compat_l, Q.max_le_compat_l.
  pose proof (latency_score_mono _ _ Hl) as H1.
  pose proof (jitter_score_mono _ _ Hj) as H2.
  pose proof (loss_score_mono _ _ Hr) as H3.
  cbv beta in H2, H3. lra.
Qed.

Lemma quality_score_monotone_witness :
  (LatencyTracker.quality_score
     (fold_left LatencyTracker.record_ping [120%Q; 80%Q] (LatencyTracker.new 8))
   <= LatencyTracker.quality_score
        (fold_left LatencyTracker.record_ping [20%Q; 25%Q] (LatencyTracker.new 8)))%Z.
Proof.
  apply quality_score_monotone; vm_compute; discriminate.
Defined.

(** ** The history of a monitor *)

Lemma step_fields (self : PerformanceMonitor.t) (c : call) :
  PerformanceMonitor.max_history (step self c) = PerformanceMonitor.max_history self
  /\ PerformanceMonitor.sampling_rate (step self c)
     = PerformanceMonitor.sampling_rate self.
Proof.
  destruct c as [now| |cpu mem now1 millis now2|gid]; simpl;
    try (split; reflexivity).
  unfold PerformanceMonitor.sample_with.
  destruct (_ <? _)%Z; split; reflexivity.
Qed.

(** What one call does to the history and to [last_sample]. *)
Lemma step_sample (self : PerformanceMonitor.t) (c : call) :
  match c with
  | Sample cpu mem now1 millis now2 =>
      match fst (PerformanceMonitor.sample_with cpu mem self now1 millis now2) with
      | Some snapshot =>
          PerformanceMonitor.history (step self c)
          = push_bounded (PerformanceMonitor.max_history self)
              (PerformanceMonitor.history self) snapshot
          /\ PerformanceMonitor.last_sample (step self c) = now2
          /\ (PerformanceMonitor.sampling_rate self
              <= duration_since now1 (PerformanceMonitor.last_sample self))%Z
      | None =>
          PerformanceMonitor.history (step self c) = PerformanceMonitor.history self
          /\ PerformanceMonitor.last_sample (step self c)
             = PerformanceMonitor.last_sample self
      end
  | _ =>
      PerformanceMonitor.history (step self c) = PerformanceMonitor.history self
      /\ PerformanceMonitor.last_sample (step self c)
         = PerformanceMonitor.last_sample self
  end.
Proof.
  destruct c as [now| |cpu mem now1 millis now2|gid]; try (split; reflexivity).
  cbn [step]. unfold PerformanceMonitor.sample_with.
  destruct (Z.ltb_spec (duration_since now1 (PerformanceMonitor.last_sample self))
              (PerformanceMonitor.sampling_rate self)); cbn [fst snd].
  - split; reflexivity.
  - split; [reflexivity|]. split; [reflexivity | assumption].
Qed.

Lemma run_log_state (calls : list call) :
  forall self : PerformanceMonitor.t, snd (run_log self calls) = run self calls.
Proof.
  unfold run. induction calls as [|c rest IH]; intros self; [reflexivity|].
  cbn [run_log fold_left]. rewrite <- IH.
  destruct (run_log (step self c) rest) as [[snaps gates] self'].
  destruct c as [now| |cpu mem now1 millis now2|gid]; try reflexivity.
  destruct (fst (PerformanceMonitor.sample_with cpu mem self now1 millis now2));
    reflexivity.
Qed.

Lemma run_log_history (calls : list call) :
  forall (self : PerformanceMonitor.t) (log : list PerformanceMetrics),
    PerformanceMonitor.history self
    = lastn (PerformanceMonitor.max_history self) log ->
    let '(snaps, gates, self') := run_log self calls in
    PerformanceMonitor.history self'
    = lastn (PerformanceMonitor.max_history self) (log ++ snaps)
    /\ length snaps = length gates
    /\ spaced (PerformanceMonitor.sampling_rate self)
         (PerformanceMonitor.last_sample self) gates.
Proof.
  induction calls as [|c rest IH]; intros self log Hlog.
  - cbn [run_log]. rewrite app_nil_r. split; [exact Hlog|]. split; [reflexivity | exact I].
  - cbn [run_log].
    pose proof (step_sample self c) as Hstep.
    destruct (step_fields self c) as [Hcap Hrate].
    destruct c as [now| |cpu mem now1 millis now2|gid].
    1, 2, 4: destruct Hstep as [Hh Hl];
      match goal with
      | |- context [run_log ?s ?r] =>
          specialize (IH s log); rewrite Hcap, Hh in IH; specialize (IH Hlog);
          destruct (run_log s r) as [[snaps gates] self'];
          rewrite Hrate, Hl in IH; exact IH
      end.
    remember (step self (Sample cpu mem now1 millis now2)) as self1 eqn:E1.
    clear E1.
    destruct (fst (PerformanceMonitor.sample_with cpu mem self now1 millis now2))
      as [snapshot|].
    + destruct Hstep as (Hh & Hl & Hgate).
      specialize (IH self1 (log ++ [snapshot])).
      rewrite Hcap, Hh, Hlog in IH. specialize (IH (push_bounded_lastn _ _ _)).
      destruct (run_log self1 rest) as [[snaps gates] self'].
      rewrite Hrate, Hl, <- app_assoc in IH. destruct IH as (IH1 & IH2 & IH3).
      split; [exact IH1|]. split; [simpl; rewrite IH2; reflexivity|].
      split; [exact Hgate | exact IH3].
    + destruct Hstep as [Hh Hl].
      specialize (IH self1 log).
      rewrite Hcap, Hh in IH. specialize (IH Hlog).
      destruct (run_log self1 rest) as [[snaps gates] self'].
      rewrite Hrate, Hl in IH. exact IH.
Qed.

(** X17.  After any sequence of calls on a new monitor the history holds
    the [max_history] most recent snapshots that [sample] returned, in the
    order they were returned, and nothing else. *)
Theorem history_is_recent_snapshots
    (rate_ms : Z) (M : nat) (c1 c2 c3 : Instant) (calls : list call) :
  let r := run_log (PerformanceMonitor.new rate_ms M c1 c2 c3) calls in
  snd r = run (PerformanceMonitor.new rate_ms M c1 c2 c3) calls
  /\ PerformanceMonitor.get_history (snd r) = lastn M (fst (fst r))
  /\ (forall m, In m (PerformanceMonitor.get_history (snd r)) -> In m (fst (fst r))).
Proof.
  intros r.
  pose proof (run_log_history calls (PerformanceMonitor.new rate_ms M c1 c2 c3) []
                eq_refl) as H.
  fold r in H. destruct r as [[snaps gates] self'] eqn:Er.
  cbn [fst snd]. destruct H as (Hh & _ & _). simpl in Hh.
  split; [|split].
  - change self' with (snd (snaps, gates, self')). rewrite <- Er. apply run_log_state.
  - exact Hh.
  - intros m Hm. unfold PerformanceMonitor.get_history in Hm. rewrite Hh in Hm.
    eapply in_lastn. exact Hm.
Qed.

Lemma spaced_count (gates : list (Instant * Instant)) :
  forall (rate : Duration) (prev bound : Instant),
    (0 < rate)%Z ->
    spaced rate prev gates ->
    (forall g s, In (g, s) gates -> (g <= s)%Z /\ (g <= bound)%Z) ->
    (Z.of_nat (length gates) * rate <= Z.max 0 (bound - prev))%Z.
Proof.
  induction gates as [|[g s] rest IH]; intros rate prev bound Hrate Hsp Hall.
  - simpl. lia.
  - destruct Hsp as [Hgate Hrest].
    destruct (Hall g s (or_introl eq_refl)) as [Hgs Hgb].
    specialize (IH rate s bound Hrate Hrest).
    assert (Hall' : forall g' s', In (g', s') rest -> (g' <= s')%Z /\ (g' <= bound)%Z)
      by (intros g' s' Hin; apply Hall; right; exact Hin).
    specialize (IH Hall').
    unfold duration_since in Hgate.
    change (length ((g, s) :: rest)) with (S (length rest)).
    rewrite Nat2Z.inj_succ. lia.
Qed.

(** X18.  On a new monitor with a positive sampling rate, each accepted
    sample has its gate reading at least [sampling_rate] after the reading
    stored by the accepted sample before it (after construction for the
    first).  So when the clock does not run backwards inside a call and
    every accepted gate reading is at most [bound], the number of snapshots
    returned times the sampling rate is at most [bound] minus the
    construction time. *)
Theorem sample_rate_limited
    (rate_ms : Z) (M : nat) (c1 c2 c3 : Instant) (calls : list call)
    (bound : Instant) :
  (0 < rate_ms)%Z ->
  let r := run_log (PerformanceMonitor.new rate_ms M c1 c2 c3) calls in
  (forall g s, In (g, s) (snd (fst r)) -> (g <= s)%Z /\ (g <= bound)%Z) ->
  spaced (from_millis rate_ms) c3 (snd (fst r))
  /\ length (fst (fst r)) = length (snd (fst r))
  /\ (Z.of_nat (length (fst (fst r))) * from_millis rate_ms
      <= Z.max 0 (bound - c3))%Z.
Proof.
  intros Hrate r Hall.
  pose proof (run_log_history calls (PerformanceMonitor.new rate_ms M c1 c2 c3) []
                eq_refl) as H.
  fold r in H. destruct r as [[snaps gates] self'].
  cbn [fst snd] in *. destruct H as (_ & Hlen & Hsp).
  cbn [PerformanceMonitor.sampling_rate PerformanceMonitor.last_sample
       PerformanceMonitor.new] in Hsp.
  split; [exact Hsp|]. split; [exact Hlen|].
  rewrite Hlen. apply spaced_count; [unfold from_millis; lia | exact Hsp | exact Hall].
Qed.

Lemma sample_rate_limited_witness :
  (Z.of_nat
     (length
        (fst (fst (run_log (PerformanceMonitor.new 100 5 0 0 0)
                     (map (fun i => Sample None None (from_millis (50 * i)) (50 * i)
                                      (from_millis (50 * i)))
                        [1; 2; 3; 4; 5; 6; 7; 8; 9; 10]%Z)))))
   * from_millis 100
   <= Z.max 0 (from_millis 500 - 0))%Z.
Proof.
  apply (sample_rate_limited 100 5 0%Z 0%Z 0%Z
           (map (fun i => Sample None None (from_millis (50 * i)) (50 * i)%Z
                            (from_millis (50 * i)))
              [1; 2; 3; 4; 5; 6; 7; 8; 9; 10]%Z)
           (from_millis 500)).
  - lia.
  - intros g s Hin. vm_compute in Hin.
    decompose [or] Hin; try contradiction;
      match goal with H : (_, _) = (_, _) |- _ => injection H as <- <- end;
      vm_compute; split; discriminate.
Defined.

(** ** [end_frame] *)

(** X19.  [end_frame] copies the tracker's average frame time and cached
    fps into the stored metrics and changes nothing else (the other eight
    fields, the history, the tracker and [last_sample] are kept); calling
    it twice is the same as calling it once, and calling it right after a
    sample that returned a snapshot changes nothing at all. *)
Theorem end_frame_effect (self : PerformanceMonitor.t) :
  let e := PerformanceMonitor.end_frame self in
  let m := PerformanceMonitor.get_metrics self in
  let m' := PerformanceMonitor.get_metrics e in
  frame_time_ms m'
  = FrameTimeTracker.average_frame_time (PerformanceMonitor.frame_tracker self)
  /\ frame_rate m'
     = FrameTimeTracker.current_fps (PerformanceMonitor.frame_tracker self)
  /\ (timestamp m' = timestamp m /\ cpu_usage m' = cpu_usage m
      /\ memory_usage m' = memory_usage m /\ gpu_usage m' = gpu_usage m
      /\ render_time_ms m' = render_time_ms m
      /\ update_time_ms m' = update_time_ms m
      /\ input_latency_ms m' = input_latency_ms m
      /\ network_latency_ms m' = network_latency_ms m)
  /\ (PerformanceMonitor.history e = PerformanceMonitor.history self
      /\ PerformanceMonitor.frame_tracker e = PerformanceMonitor.frame_tracker self
      /\ PerformanceMonitor.last_sample e = PerformanceMonitor.last_sample self)
  /\ PerformanceMonitor.end_frame e = e
  /\ (forall cpu mem now1 millis now2 snap,
        fst (PerformanceMonitor.sample_with cpu mem self now1 millis now2)
        = Some snap ->
        PerformanceMonitor.end_frame
          (snd (PerformanceMonitor.sample_with cpu mem self now1 millis now2))
        = snd (PerformanceMonitor.sample_with cpu mem self now1 millis now2)).
Proof.
  intros e m m'. subst e m m'.
  split; [reflexivity|]. split; [reflexivity|].
  split; [repeat split|]. split; [repeat split|]. split; [reflexivity|].
  intros cpu mem now1 millis now2 snap.
  unfold PerformanceMonitor.sample_with.
  destruct (_ <? _)%Z; cbn [fst snd]; [discriminate|].
  intros _. reflexivity.
Qed.

Lemma end_frame_effect_witness :
  let self := PerformanceMonitor.new 100 5 0 0 0 in
  PerformanceMonitor.end_frame
    (snd (PerformanceMonitor.sample self (from_millis 100) 100 (from_millis 100)))
  = snd (PerformanceMonitor.sample self (from_millis 100) 100 (from_millis 100)).
Proof.
  intros self.
  eapply (end_frame_effect self). reflexivity.
Defined.

(** ** The other fields of a profile *)

Lemma sum_pos (l : list f64) :
  l <> [] -> (forall x, In x l -> 0 < x) -> 0 < sum l.
Proof.
  induction l as [|x l IH]; intros Hne Hall; [contradiction|].
  rewrite sum_cons. pose proof (Hall x (or_introl eq_refl)) as Hx.
  destruct l as [|y l'].
  - unfold sum. simpl. lra.
  - assert (0 < sum (y :: l')).
    { apply IH; [discriminate|]. intros z Hz. apply Hall. right. exact Hz. }
    lra.
Qed.

Lemma percentile_in_buffer (self : FrameTimeTracker.t) (p v : f64) :
  FrameTimeTracker.frame_times self <> [] ->
  FrameTimeTracker.percentile_frame_time self p = Some v ->
  In v (FrameTimeTracker.frame_times self).
Proof.
  intros Hne. unfold FrameTimeTracker.percentile_frame_time.
  destruct (FrameTimeTracker.frame_times self) as [|x l] eqn:E; [contradiction|].
  intros Hv. apply nth_error_In in Hv.
  apply (Permutation_in _ (sort_perm (x :: l))). exact Hv.
Qed.

Lemma positive_fps_values_spec (self : PerformanceMonitor.t) (x : f64) :
  In x (PerformanceMonitor.positive_fps_values self)
  <-> exists m, In m (PerformanceMonitor.history self)
                /\ frame_rate m = x /\ 0 < x.
Proof.
  unfold PerformanceMonitor.positive_fps_values.
  rewrite filter_In, in_map_iff, ltb_lt. split.
  - intros [(m & Hm & Hin) Hpos]. eauto.
  - intros (m & Hin & Hm & Hpos). eauto.
Qed.

(** X20.  In a profile returned by [calculate_profile]: the game id is the
    one given; [average_fps] is 0 when no history snapshot has a positive
    frame rate and positive otherwise (snapshots with frame rate 0 or less
    are left out of the mean), and [fps_variance] is never negative; the
    95th-percentile frame time is 0 when the tracker's buffer is empty and
    one of its samples otherwise; [frame_drops] counts the buffered frame
    times above 33.33 ms (as long as that count fits in a [u32]); and the
    score is in 0..100. *)
Theorem calculate_profile_fields
    (self : PerformanceMonitor.t) (gid : String.string)
    (p : GamePerformanceProfile) :
  PerformanceMonitor.calculate_profile self gid = Some p ->
  let tracker := PerformanceMonitor.frame_tracker self in
  game_id p = gid
  /\ (PerformanceMonitor.positive_fps_values self = [] ->
      average_fps p = 0 /\ fps_variance p = 0)
  /\ (PerformanceMonitor.positive_fps_values self <> [] -> 0 < average_fps p)
  /\ 0 <= fps_variance p
  /\ (FrameTimeTracker.frame_times tracker = [] -> percentile_95_frame_time p = 0)
  /\ (FrameTimeTracker.frame_times tracker <> [] ->
      In (percentile_95_frame_time p) (FrameTimeTracker.frame_times tracker))
  /\ ((Z.of_nat (length (FrameTimeTracker.frame_times tracker)) < 2 ^ 32)%Z ->
      frame_drops p
      = Z.of_nat (length (filter (fun t => ltb 33.33 t)
                            (FrameTimeTracker.frame_times tracker))))
  /\ (0 <= performance_score p <= 100)%Z.
Proof.
  unfold PerformanceMonitor.calculate_profile.
  destruct (FrameTimeTracker.percentile_frame_time
              (PerformanceMonitor.frame_tracker self) 95) as [v|] eqn:Hp95;
    [|discriminate].
  intros [= <-].
  cbn [game_id average_fps fps_variance percentile_95_frame_time frame_drops
       performance_score].
  split; [reflexivity|]. split; [|split; [|split; [|split; [|split; [|split]]]]].
  - intros ->. split; reflexivity.
  - intros Hne.
    destruct (PerformanceMonitor.positive_fps_values self) as [|x l] eqn:E;
      [contradiction|].
    assert (Hall : forall y, In y (x :: l) -> 0 < y).
    { intros y Hy. rewrite <- E in Hy. apply positive_fps_values_spec in Hy.
      destruct Hy as (m & _ & _ & Hpos). exact Hpos. }
    apply Qlt_shift_div_l.
    + rewrite of_len_cons. pose proof (of_len_nonneg l). lra.
    + rewrite Qmult_0_l. apply sum_pos; [discriminate | exact Hall].
  - apply variance_nonneg.
  - intros Hem. unfold FrameTimeTracker.percentile_frame_time in Hp95.
    rewrite Hem in Hp95. congruence.
  - intros Hne. eapply percentile_in_buffer; eassumption.
  - intros Hlen. unfold FrameTimeTracker.detect_frame_drops.
    rewrite indices_above_length.
    unfold u32_wrap, u32_modulus. apply Z.mod_small.
    pose proof (filter_length_le (fun t => ltb 33.33 t)
                  (FrameTimeTracker.frame_times (PerformanceMonitor.frame_tracker self))).
    lia.
  - apply clampZ_range.
Qed.

Lemma calculate_profile_fields_witness :
  let snap (f : f64) := mkMetrics 0 45 60 0 f 16 0 0 0 0 in
  let self :=
    PerformanceMonitor.mk PerformanceMetrics_default
      (FrameTimeTracker.mk [16; 40; 20] 300 0 0 (from_millis 500) 0 60)
      (from_millis 100) 0%Z [snap 0; snap 60; snap 30] 5 in
  exists p,
    PerformanceMonitor.calculate_profile self String.EmptyString = Some p
    /\ 0 < average_fps p
    /\ frame_drops p = 1%Z.
Proof.
  intros snap self. eexists. split; [reflexivity|].
  pose proof (calculate_profile_fields self String.EmptyString _ eq_refl) as H.
  cbv zeta in H. destruct H as (_ & _ & Havg & _ & _ & _ & Hdrops & _).
  split.
  - apply Havg. vm_compute. discriminate.
  - rewrite Hdrops; [reflexivity | vm_compute; reflexivity].
Defined.

(** ** The rules of the advisor *)

(** X21.  [analyze_and_recommend] emits its recommendations in the order
    Graphics, Stability, Memory, one per rule that fires: Graphics when the
    average fps is below 50 (Critical below 30, Medium otherwise), Stability
    (High) when the fps variance is above 100, Memory (High) when the memory
    usage is above 80.  So there are at most three, none when no rule fires,
    never one of another category and never one of Low priority. *)
Theorem advisor_rules (metrics : PerformanceMetrics) (profile : GamePerformanceProfile) :
  let recs := OptimizationAdvisor.analyze_and_recommend metrics profile in
  let fires c :=
    match c with
    | Graphics => ltb (average_fps profile) 50
    | Stability => ltb 100 (fps_variance profile)
    | Memory => ltb 80 (memory_usage metrics)
    | _ => false
    end in
  map category recs = filter fires [Graphics; Stability; Memory]
  /\ (length recs <= 3)%nat
  /\ (recs = [] <->
      50 <= average_fps profile /\ fps_variance profile <= 100
      /\ memory_usage metrics <= 80)
  /\ (forall r, In r recs ->
        match category r with
        | Graphics =>
            priority r = (if ltb (average_fps profile) 30 then Critical else Medium)
        | Stability | Memory => priority r = High
        | _ => False
        end)
  /\ ((exists r, In r recs /\ priority r = Critical) <-> average_fps profile < 30).
Proof.
  intros recs fires. subst recs fires.
  unfold OptimizationAdvisor.analyze_and_recommend, push.
  destruct (ltb (average_fps profile) 30) eqn:E30;
    destruct (ltb (average_fps profile) 50) eqn:E50;
    destruct (ltb 100 (fps_variance profile)) eqn:Ev;
    destruct (ltb 80 (memory_usage metrics)) eqn:Em;
    repeat match goal with
           | H : ltb _ _ = true |- _ => apply ltb_lt in H
           | H : ltb _ _ = false |- _ => apply ltb_ge in H
           end;
    try (exfalso; lra);
    cbn [app map filter category length].
  all: (split; [reflexivity|]).
  all: (split; [lia|]).
  all: split;
    [split;
     [intros H; first [discriminate H | repeat split; assumption]
     | intros (H1 & H2 & H3); first [reflexivity | exfalso; lra]]|].
  all: split;
    [intros r Hr; cbn [In] in Hr; decompose [or] Hr; subst;
     try contradiction; cbn [category priority]; reflexivity|].
  all: split;
    [intros (r & Hr & Hp); cbn [In] in Hr; decompose [or] Hr; subst;
     try contradiction; cbn [priority] in Hp;
     first [assumption | discriminate Hp]
    | intros Hlt;
      first [exfalso; lra | eexists; split; [left; reflexivity | reflexivity]]].
Qed.

Lemma advisor_rules_witness :
  exists r,
    In r (OptimizationAdvisor.analyze_and_recommend
            (mkMetrics 0 45 85 0 0 0 0 0 0 0)
            (mkProfile String.EmptyString 25 0 0 0 0 0 0 0))
    /\ priority r = Critical.
Proof.
  apply (advisor_rules (mkMetrics 0 45 85 0 0 0 0 0 0 0)
           (mkProfile String.EmptyString 25 0 0 0 0 0 0 0)).
  vm_compute. reflexivity.
Defined.

(** ** The thread pool estimate *)



(** ** The GPU tracker *)

Section GPUProperties.
Context {VulkanDevice DirectXDevice : Type}.
Variable vulkan_end_frame : VulkanDevice -> option f64 * VulkanDevice.
Variable vulkan_queue_graphics : VulkanDevice -> f64.
Variable vulkan_memory_used : VulkanDevice -> Z.
Variable directx_end_frame : DirectXDevice -> option f64 * DirectXDevice.
Variable directx_gpu_usage : DirectXDevice -> f64.
Variable directx_video_memory_used : DirectXDevice -> Z.

Let tracker := @GPUPerformanceTracker.t VulkanDevice DirectXDevice.
Let end_frame := GPUPerformanceTracker.end_frame vulkan_end_frame directx_end_frame.
Let run_end_frames :=
  GPUPerformanceTracker.run_end_frames vulkan_end_frame directx_end_frame.

Lemma gpu_end_frame_buffer (self : tracker) :
  GPUPerformanceTracker.frame_times (snd (end_frame self))
  = match fst (end_frame self) with
    | Some time => push_bounded 300 (GPUPerformanceTracker.frame_times self) time
    | None => GPUPerformanceTracker.frame_times self
    end.
Proof.
  unfold end_frame, GPUPerformanceTracker.end_frame, push_bounded.
  destruct (GPUPerformanceTracker.vulkan_device self) as [d|].
  - destruct (vulkan_end_frame d) as [[time|] d']; reflexivity.
  - destruct (GPUPerformanceTracker.directx_device self) as [d|]; [|reflexivity].
    destruct (directx_end_frame d) as [[time|] d']; reflexivity.
Qed.

Lemma gpu_run_fifo (n : nat) :
  forall (self : tracker) (log : list f64),
    GPUPerformanceTracker.frame_times self = lastn 300 log ->
    GPUPerformanceTracker.frame_times (snd (run_end_frames self n))
    = lastn 300 (log ++ fst (run_end_frames self n))
    /\ (length (fst (run_end_frames self n)) <= n)%nat.
Proof.
  induction n as [|n IH]; intros self log Hlog.
  - simpl. rewrite app_nil_r. split; [exact Hlog | lia].
  - unfold run_end_frames. cbn [GPUPerformanceTracker.run_end_frames].
    pose proof (gpu_end_frame_buffer self) as Hbuf. unfold end_frame in Hbuf.
    destruct (GPUPerformanceTracker.end_frame vulkan_end_frame directx_end_frame self)
      as [r self'].
    cbn [fst snd] in Hbuf.
    destruct r as [time|].
    + specialize (IH self' (log ++ [time])).
      rewrite Hbuf, Hlog in IH. specialize (IH (push_bounded_lastn _ _ _)).
      unfold run_end_frames in IH.
      destruct (GPUPerformanceTracker.run_end_frames _ _ self' n) as [rs self''].
      cbn [fst snd] in IH |- *. rewrite <- app_assoc in IH. simpl in IH |- *.
      split; [apply IH | lia].
    + specialize (IH self' log). rewrite Hbuf in IH. specialize (IH Hlog).
      unfold run_end_frames in IH.
      destruct (GPUPerformanceTracker.run_end_frames _ _ self' n) as [rs self''].
      cbn [fst snd] in IH |- *. split; [apply IH | lia].
Qed.

(** X23.  After any number of [end_frame] calls on a new GPU tracker,
    whatever the device reports, the frame-time buffer holds the 300 most
    recent render times reported, in order, and nothing for the frames on
    which the device reported none; its length never exceeds 300. *)
Theorem gpu_frame_times_bounded (self : tracker) (n : nat) :
  GPUPerformanceTracker.frame_times self = [] ->
  let r := run_end_frames self n in
  GPUPerformanceTracker.frame_times (snd r) = lastn 300 (fst r)
  /\ (length (GPUPerformanceTracker.frame_times (snd r)) <= 300)%nat
  /\ (length (fst r) <= n)%nat.
Proof.
  intros Hempty r.
  destruct (gpu_run_fifo n self []) as [Hbuf Hlen]; [rewrite Hempty; reflexivity|].
  simpl in Hbuf. fold r in Hbuf, Hlen.
  split; [exact Hbuf|]. split; [|exact Hlen].
  rewrite Hbuf, lastn_length. lia.
Qed.

(** X24.  Device selection: a tracker with a Vulkan device uses it for
    [end_frame], [gpu_usage] and [video_memory_used] and leaves the DirectX
    device alone; one with only a DirectX device uses that; one with no
    device reports no render time, changes nothing, and reads usage 0 and
    memory 0.  No call makes a device appear or disappear. *)
Theorem gpu_device_selection (self : tracker) :
  (forall d,
      GPUPerformanceTracker.vulkan_device self = Some d ->
      fst (end_frame self) = fst (vulkan_end_frame d)
      /\ GPUPerformanceTracker.vulkan_device (snd (end_frame self))
         = Some (snd (vulkan_end_frame d))
      /\ GPUPerformanceTracker.directx_device (snd (end_frame self))
         = GPUPerformanceTracker.directx_device self
      /\ GPUPerformanceTracker.gpu_usage vulkan_queue_graphics directx_gpu_usage self
         = vulkan_queue_graphics d
      /\ GPUPerformanceTracker.video_memory_used vulkan_memory_used
           directx_video_memory_used self
         = vulkan_memory_used d)
  /\ (forall d,
      GPUPerformanceTracker.vulkan_device self = None ->
      GPUPerformanceTracker.directx_device self = Some d ->
      fst (end_frame self) = fst (directx_end_frame d)
      /\ GPUPerformanceTracker.vulkan_device (snd (end_frame self)) = None
      /\ GPUPerformanceTracker.directx_device (snd (end_frame self))
         = Some (snd (directx_end_frame d))
      /\ GPUPerformanceTracker.gpu_usage vulkan_queue_graphics directx_gpu_usage self
         = directx_gpu_usage d
      /\ GPUPerformanceTracker.video_memory_used vulkan_memory_used
           directx_video_memory_used self
         = directx_video_memory_used d)
  /\ (GPUPerformanceTracker.vulkan_device self = None ->
      GPUPerformanceTracker.directx_device self = None ->
      end_frame self = (None, self)
      /\ GPUPerformanceTracker.gpu_usage vulkan_queue_graphics directx_gpu_usage self
         = 0
      /\ GPUPerformanceTracker.video_memory_used vulkan_memory_used
           directx_video_memory_used self
         = 0%Z
      /\ forall n, run_end_frames self n = ([], self)).
Proof.
  unfold end_frame, GPUPerformanceTracker.end_frame,
    GPUPerformanceTracker.gpu_usage, GPUPerformanceTracker.video_memory_used.
  split; [|split].
  - intros d ->. destruct (vulkan_end_frame d) as [r d']. repeat split.
  - intros d -> ->. destruct (directx_end_frame d) as [r d']. repeat split.
  - intros Hv Hx.
    assert (Hstep : GPUPerformanceTracker.end_frame vulkan_end_frame
                      directx_end_frame self = (None, self)).
    { unfold GPUPerformanceTracker.end_frame. rewrite Hv, Hx.
      destruct self; simpl in *; subst; reflexivity. }
    rewrite Hv, Hx. split; [|split; [reflexivity|split; [reflexivity|]]].
    + unfold GPUPerformanceTracker.end_frame in Hstep. rewrite Hv, Hx in Hstep.
      exact Hstep.
    + intros n. unfold run_end_frames. induction n as [|n IH]; [reflexivity|].
      cbn [GPUPerformanceTracker.run_end_frames]. rewrite Hstep, IH. reflexivity.
Qed.

Lemma gpu_draw_counters (draws : list (Z * Z)) :
  forall (self : tracker) (v t : Z) (n : nat),
    GPUPerformanceTracker.vertex_count self = u32_wrap v ->
    GPUPerformanceTracker.triangle_count self = u32_wrap t ->
    GPUPerformanceTracker.draw_calls self = u32_wrap (Z.of_nat n) ->
    let s := fold_left
               (fun s d => GPUPerformanceTracker.record_draw_call s (fst d) (snd d))
               draws self in
    GPUPerformanceTracker.vertex_count s
    = u32_wrap (v + fold_right Z.add 0%Z (map fst draws))
    /\ GPUPerformanceTracker.triangle_count s
       = u32_wrap (t + fold_right Z.add 0%Z (map snd draws))
    /\ GPUPerformanceTracker.draw_calls s = u32_wrap (Z.of_nat (n + length draws))
    /\ GPUPerformanceTracker.frame_times s = GPUPerformanceTracker.frame_times self
    /\ GPUPerformanceTracker.vulkan_device s = GPUPerformanceTracker.vulkan_device self
    /\ GPUPerformanceTracker.directx_device s
       = GPUPerformanceTracker.directx_device self.
Proof.
  induction draws as [|[dv dt] draws IH]; intros self v t n Hv Ht Hn.
  - simpl. rewrite !Z.add_0_r, Nat.add_0_r. auto 6.
  - cbn [fold_left map fold_right fst snd length].
    specialize (IH (GPUPerformanceTracker.record_draw_call self dv dt)
                  (v + dv)%Z (t + dt)%Z (S n)).
    rewrite <- plus_n_Sm, !Z.add_assoc.
    apply IH; cbn [GPUPerformanceTracker.record_draw_call
                   GPUPerformanceTracker.vertex_count
                   GPUPerformanceTracker.triangle_count
                   GPUPerformanceTracker.draw_calls].
    + rewrite Hv. unfold u32_wrap. apply Zplus_mod_idemp_l.
    + rewrite Ht. unfold u32_wrap. apply Zplus_mod_idemp_l.
    + rewrite Hn. apply u32_wrap_succ.
Qed.

(** X25.  After [begin_frame] and a sequence of [record_draw_call]s the
    three counters hold the number of calls and the sums of the vertex and
    triangle counts of this frame alone, each modulo 2^32; the frame-time
    buffer and the devices are untouched. *)
Theorem gpu_draw_frame_counters (self : tracker) (draws : list (Z * Z)) :
  let s := GPUPerformanceTracker.draw_frame self draws in
  GPUPerformanceTracker.draw_calls s = (Z.of_nat (length draws) mod 2 ^ 32)%Z
  /\ GPUPerformanceTracker.vertex_count s
     = (fold_right Z.add 0 (map fst draws) mod 2 ^ 32)%Z
  /\ GPUPerformanceTracker.triangle_count s
     = (fold_right Z.add 0 (map snd draws) mod 2 ^ 32)%Z
  /\ GPUPerformanceTracker.frame_times s = GPUPerformanceTracker.frame_times self
  /\ GPUPerformanceTracker.vulkan_device s = GPUPerformanceTracker.vulkan_device self
  /\ GPUPerformanceTracker.directx_device s
     = GPUPerformanceTracker.directx_device self.
Proof.
  intros s. subst s. unfold GPUPerformanceTracker.draw_frame.
  destruct (gpu_draw_counters draws (GPUPerformanceTracker.begin_frame self)
              0%Z 0%Z 0%nat eq_refl eq_refl eq_refl)
    as (Hv & Ht & Hn & Hf & Hvd & Hxd).
  repeat split; assumption.
Qed.

End GPUProperties.

Lemma gpu_frame_times_bounded_witness :
  let vef (d : nat) := (Some (inject_Z (Z.of_nat d)), S d) in
  let xef (d : unit) := (@None f64, d) in
  let self := @GPUPerformanceTracker.new_other nat unit (Some 7%nat) in
  GPUPerformanceTracker.frame_times
    (snd (GPUPerformanceTracker.run_end_frames vef xef self 3))
  = lastn 300 (fst (GPUPerformanceTracker.run_end_frames vef xef self 3)).
Proof.
  intros vef xef self.
  apply (gpu_frame_times_bounded vef xef self 3). reflexivity.
Defined.

Lemma gpu_device_selection_witness :
  let vef (d : nat) := (Some (inject_Z (Z.of_nat d)), S d) in
  let xef (d : unit) := (@None f64, d) in
  let self := @GPUPerformanceTracker.new_other nat unit None in
  GPUPerformanceTracker.end_frame vef xef self = (None, self).
Proof.
  intros vef xef self.
  apply (gpu_device_selection vef (fun _ => 0) (fun _ => 0%Z) xef
           (fun _ => 0) (fun _ => 0%Z) self); reflexivity.
Defined.
